(** * STM32 ADC core driver (drivers/iio/adc/stm32-adc-core.c)

    A shallow embedding of the shared ADC core: the clock prescaler
    selection of the stm32f4 and stm32h7 families, the chained interrupt
    handler that fans the common status register out to the irq domain, the
    analog switches supply sequence and the hw_start / hw_stop pair; then
    the probe and removal of the interrupt lines, the lookup of the SYSCFG
    cells and the registration of the EXTI triggers, each on the part of the
    private data it works on.

    Integers are [Z]; a [u32] is a [Z] reduced modulo 2^32 where the C code
    can wrap.  The driver's private data and the hardware (memory mapped
    registers, and the trace of calls made to the clock, regulator, regmap
    and irq frameworks) form one state record that the functions thread
    through a small state monad.  What the frameworks answer is not in this
    file's source: it is the [env] oracle, a function of the call and of
    the trace so far. *)

From Stdlib Require Import ZArith List Bool Lia Sorted.
From Stdlib Require String.
Import ListNotations.
Import String.StringSyntax.
Delimit Scope string_scope with string.
Open Scope Z_scope.

(** ** Machine integers and kernel macros *)

Definition u32 (x : Z) : Z := x mod 2 ^ 32.

(* BIT(n), GENMASK(h, l) from linux/bits.h *)
Definition BIT (n : Z) : Z := Z.shiftl 1 n.
Definition GENMASK (h l : Z) : Z := Z.shiftl (Z.ones (h - l + 1)) l.

(* errno values used by the driver *)
Definition ENOENT : Z := 2.
Definition EINVAL : Z := 22.

(** ** Constants of stm32-adc-core.h

    The header is not part of the sources at hand; its constants are taken
    as a parameter of the development. *)
Record stm32_adc_core_h := {
  STM32_ADC_OFFSET : Z;
  STM32_ADCX_COMN_OFFSET : Z;
  STM32F4_ADC_CR1 : Z;
  STM32F4_EOCIE : Z;
  STM32F4_ADC_CCR : Z;
  STM32H7_ADC_IER : Z;
  STM32H7_EOCIE : Z;
  STM32H7_ADC_CCR : Z
}.

(** ** Register bit fields *)

(* STM32F4_ADC_CSR - bit fields *)
Definition STM32F4_OVR3 := BIT 21.
Definition STM32F4_JEOC3 := BIT 18.
Definition STM32F4_EOC3 := BIT 17.
Definition STM32F4_AWD3 := BIT 16.
Definition STM32F4_OVR2 := BIT 13.
Definition STM32F4_JEOC2 := BIT 10.
Definition STM32F4_EOC2 := BIT 9.
Definition STM32F4_AWD2 := BIT 8.
Definition STM32F4_OVR1 := BIT 5.
Definition STM32F4_JEOC1 := BIT 2.
Definition STM32F4_EOC1 := BIT 1.
Definition STM32F4_AWD1 := BIT 0.
Definition STM32F4_EOC_MASK1 :=
  Z.lor (Z.lor STM32F4_EOC1 STM32F4_AWD1) STM32F4_OVR1.
Definition STM32F4_EOC_MASK2 :=
  Z.lor (Z.lor STM32F4_EOC2 STM32F4_AWD2) STM32F4_OVR2.
Definition STM32F4_EOC_MASK3 :=
  Z.lor (Z.lor STM32F4_EOC3 STM32F4_AWD3) STM32F4_OVR3.
Definition STM32F4_JEOC_MASK1 := Z.lor STM32F4_JEOC1 STM32F4_AWD1.
Definition STM32F4_JEOC_MASK2 := Z.lor STM32F4_JEOC2 STM32F4_AWD2.
Definition STM32F4_JEOC_MASK3 := Z.lor STM32F4_JEOC3 STM32F4_AWD3.

(* STM32F4_ADC_CCR - bit fields *)
Definition STM32F4_ADC_ADCPRE_SHIFT := 16.
Definition STM32F4_ADC_ADCPRE_MASK := GENMASK 17 16.

(* STM32H7_ADC_CSR - bit fields *)
Definition STM32H7_AWD3_SLV := BIT 25.
Definition STM32H7_AWD2_SLV := BIT 24.
Definition STM32H7_AWD1_SLV := BIT 23.
Definition STM32H7_JEOS_SLV := BIT 22.
Definition STM32H7_OVR_SLV := BIT 20.
Definition STM32H7_EOC_SLV := BIT 18.
Definition STM32H7_AWD3_MST := BIT 9.
Definition STM32H7_AWD2_MST := BIT 8.
Definition STM32H7_AWD1_MST := BIT 7.
Definition STM32H7_JEOS_MST := BIT 6.
Definition STM32H7_OVR_MST := BIT 4.
Definition STM32H7_EOC_MST := BIT 2.
Definition STM32H7_EOC_MASK1 :=
  Z.lor (Z.lor (Z.lor (Z.lor STM32H7_EOC_MST STM32H7_AWD1_MST)
                      STM32H7_AWD2_MST) STM32H7_AWD3_MST) STM32H7_OVR_MST.
Definition STM32H7_EOC_MASK2 :=
  Z.lor (Z.lor (Z.lor (Z.lor STM32H7_EOC_SLV STM32H7_AWD1_SLV)
                      STM32H7_AWD2_SLV) STM32H7_AWD3_SLV) STM32H7_OVR_SLV.
Definition STM32H7_JEOC_MASK1 :=
  Z.lor (Z.lor (Z.lor STM32H7_JEOS_MST STM32H7_AWD1_MST)
               STM32H7_AWD2_MST) STM32H7_AWD3_MST.
Definition STM32H7_JEOC_MASK2 :=
  Z.lor (Z.lor (Z.lor STM32H7_JEOS_SLV STM32H7_AWD1_SLV)
               STM32H7_AWD2_SLV) STM32H7_AWD3_SLV.

(* STM32H7_ADC_CCR - bit fields *)
Definition STM32H7_PRESC_SHIFT := 18.
Definition STM32H7_PRESC_MASK := GENMASK 21 18.
Definition STM32H7_CKMODE_SHIFT := 16.
Definition STM32H7_CKMODE_MASK := GENMASK 17 16.

(** ** Data model *)

(* struct stm32_adc_common_regs *)
Record stm32_adc_common_regs := {
  csr : Z;
  ccr : Z;
  eoc1_msk : Z;
  eoc2_msk : Z;
  eoc3_msk : Z;
  jeoc1_msk : Z;
  jeoc2_msk : Z;
  jeoc3_msk : Z;
  ier : Z;
  eocie_msk : Z
}.

(* the two clk_sel routines a configuration can point to *)
Inductive clk_sel_fn := stm32f4_clk_sel_fn | stm32h7_clk_sel_fn.

(* struct stm32_adc_priv_cfg (exti_trigs left out) *)
Record stm32_adc_priv_cfg := {
  regs : stm32_adc_common_regs;
  clk_sel : clk_sel_fn;
  max_clk_rate_hz : Z;
  has_syscfg_clr : bool
}.

(* handles on objects owned by the clock, regulator and regmap frameworks *)
Definition clk := nat.
Definition regulator := nat.
Definition regmap_t := nat.

(* struct stm32_adc_syscfg; [regmap = None] stands for IS_ERR(regmap) *)
Record stm32_adc_syscfg := {
  regmap : option regmap_t;
  reg : Z;
  mask : Z
}.

(* struct stm32_adc_priv; a NULL clock and an IS_ERR regulator are [None];
   [common_rate] is priv->common.rate *)
Record stm32_adc_priv := {
  aclk : option clk;
  bclk : option clk;
  max_clk_rate : Z;
  vdd : option regulator;
  vdda : option regulator;
  vref : regulator;
  cfg : stm32_adc_priv_cfg;
  common_rate : Z;
  ccr_bak : Z;
  vbooster : stm32_adc_syscfg;
  vbooster_clr : stm32_adc_syscfg;
  anaswvdd : stm32_adc_syscfg;
  anaswvdd_clr : stm32_adc_syscfg
}.

Definition set_common_rate (p : stm32_adc_priv) (v : Z) : stm32_adc_priv :=
  {| aclk := aclk p; bclk := bclk p; max_clk_rate := max_clk_rate p;
     vdd := vdd p; vdda := vdda p; vref := vref p; cfg := cfg p;
     common_rate := v; ccr_bak := ccr_bak p;
     vbooster := vbooster p; vbooster_clr := vbooster_clr p;
     anaswvdd := anaswvdd p; anaswvdd_clr := anaswvdd_clr p |}.

Definition set_ccr_bak (p : stm32_adc_priv) (v : Z) : stm32_adc_priv :=
  {| aclk := aclk p; bclk := bclk p; max_clk_rate := max_clk_rate p;
     vdd := vdd p; vdda := vdda p; vref := vref p; cfg := cfg p;
     common_rate := common_rate p; ccr_bak := v;
     vbooster := vbooster p; vbooster_clr := vbooster_clr p;
     anaswvdd := anaswvdd p; anaswvdd_clr := anaswvdd_clr p |}.

Definition set_max_clk_rate (p : stm32_adc_priv) (v : Z) : stm32_adc_priv :=
  {| aclk := aclk p; bclk := bclk p; max_clk_rate := v;
     vdd := vdd p; vdda := vdda p; vref := vref p; cfg := cfg p;
     common_rate := common_rate p; ccr_bak := ccr_bak p;
     vbooster := vbooster p; vbooster_clr := vbooster_clr p;
     anaswvdd := anaswvdd p; anaswvdd_clr := anaswvdd_clr p |}.

(** ** Calls into the kernel frameworks *)

Inductive op :=
| ClkGetRate (c : clk)
| ClkPrepareEnable (c : clk)
| ClkDisableUnprepare (c : clk)
| RegulatorEnable (r : regulator)
| RegulatorDisable (r : regulator)
| RegulatorGetVoltage (r : regulator)
| RegmapUpdateBits (m : regmap_t) (rg msk val : Z)
| RegmapWrite (m : regmap_t) (rg val : Z)
| UsleepRange (lo hi : Z)
| Writel (val addr : Z)
| ChainedIrqEnter
| ChainedIrqExit
| GenericHandleIrq (hwirq : Z).

(* a call together with the value it answered *)
Definition event := (op * Z)%type.

(* [mmio] maps an offset from priv->common.base to the register's content;
   [log] is the trace of calls, oldest first *)
Record state := {
  priv : stm32_adc_priv;
  mmio : Z -> Z;
  log : list event
}.

Definition M (A : Type) : Type := state -> A * state.

Definition ret {A} (a : A) : M A := fun s => (a, s).
Definition bind {A B} (c : M A) (k : A -> M B) : M B :=
  fun s => let (a, s') := c s in k a s'.

Declare Scope drv_scope.
Delimit Scope drv_scope with drv.
Notation "x <- c ;; k" := (bind c (fun x => k))
  (at level 61, c at next level, right associativity) : drv_scope.
Notation "c ;; k" := (bind c (fun _ => k))
  (at level 61, right associativity) : drv_scope.
Open Scope drv_scope.

Definition get_priv : M stm32_adc_priv := fun s => (priv s, s).
Definition put_priv (p : stm32_adc_priv) : M unit :=
  fun s => (tt, {| priv := p; mmio := mmio s; log := log s |}).

Definition readl_relaxed (addr : Z) : M Z :=
  fun s => (u32 (mmio s addr), s).

Definition writel_relaxed (val addr : Z) : M unit :=
  fun s => (tt, {| priv := priv s;
                   mmio := fun a => if a =? addr then val else mmio s a;
                   log := log s ++ [(Writel val addr, 0)] |}).

Section Driver.

(* what the frameworks answer to a call, given the trace so far *)
Variable env : list event -> op -> Z.
Variable hdr : stm32_adc_core_h.

Definition call (o : op) : M Z :=
  fun s => let r := env (log s) o in
           (r, {| priv := priv s; mmio := mmio s;
                  log := log s ++ [(o, r)] |}).

(* a call whose result the driver does not look at *)
Definition call_ (o : op) : M unit := _ <- call o ;; ret tt.

Definition clk_get_rate (c : clk) : M Z := call (ClkGetRate c).
Definition clk_prepare_enable (c : clk) : M Z := call (ClkPrepareEnable c).
Definition clk_disable_unprepare (c : clk) : M unit :=
  call_ (ClkDisableUnprepare c).
Definition regulator_enable (r : regulator) : M Z := call (RegulatorEnable r).
Definition regulator_disable (r : regulator) : M unit :=
  call_ (RegulatorDisable r).
Definition regulator_get_voltage (r : regulator) : M Z :=
  call (RegulatorGetVoltage r).
Definition regmap_update_bits (m : regmap_t) (rg msk val : Z) : M Z :=
  call (RegmapUpdateBits m rg msk val).
Definition regmap_write (m : regmap_t) (rg val : Z) : M Z :=
  call (RegmapWrite m rg val).
Definition usleep_range (lo hi : Z) : M unit := call_ (UsleepRange lo hi).
Definition generic_handle_irq (hwirq : Z) : M unit :=
  call_ (GenericHandleIrq hwirq).

(** ** Clock selection *)

(* STM32F4 ADC internal common clock prescaler division ratios *)
Definition stm32f4_pclk_div : list Z := [2; 4; 6; 8].

(* for (i = 0; i < ARRAY_SIZE(div); i++) if (rate / div[i] <= max) break;
   the value of i when the loop is left *)
Fixpoint stm32f4_scan (rate max : Z) (divs : list Z) (i : nat) : nat :=
  match divs with
  | [] => i
  | d :: rest =>
      if rate / d <=? max then i else stm32f4_scan rate max rest (S i)
  end.

Definition stm32f4_adc_clk_sel : M Z :=
  p <- get_priv ;;
  match aclk p with
  | None => ret (- ENOENT)
  | Some c =>
      rate <- clk_get_rate c ;;
      if rate =? 0 then ret (- EINVAL)
      else
        let i := stm32f4_scan rate (max_clk_rate p) stm32f4_pclk_div 0 in
        if (length stm32f4_pclk_div <=? i)%nat then ret (- EINVAL)
        else
          put_priv (set_common_rate p (u32 (rate / nth i stm32f4_pclk_div 0))) ;;
          val <- readl_relaxed (STM32F4_ADC_CCR hdr) ;;
          let val := Z.land val (u32 (Z.lnot STM32F4_ADC_ADCPRE_MASK)) in
          let val := Z.lor val (Z.shiftl (Z.of_nat i) STM32F4_ADC_ADCPRE_SHIFT) in
          writel_relaxed val (STM32F4_ADC_CCR hdr) ;;
          ret 0
  end.

(* struct stm32h7_adc_ck_spec *)
Record stm32h7_adc_ck_spec := {
  ckmode : Z;
  presc : Z;
  div : Z
}.

Definition stm32h7_adc_ckmodes_spec : list stm32h7_adc_ck_spec :=
  [ (* 00: CK_ADC[1..3]: Asynchronous clock modes *)
    {| ckmode := 0; presc := 0; div := 1 |};
    {| ckmode := 0; presc := 1; div := 2 |};
    {| ckmode := 0; presc := 2; div := 4 |};
    {| ckmode := 0; presc := 3; div := 6 |};
    {| ckmode := 0; presc := 4; div := 8 |};
    {| ckmode := 0; presc := 5; div := 10 |};
    {| ckmode := 0; presc := 6; div := 12 |};
    {| ckmode := 0; presc := 7; div := 16 |};
    {| ckmode := 0; presc := 8; div := 32 |};
    {| ckmode := 0; presc := 9; div := 64 |};
    {| ckmode := 0; presc := 10; div := 128 |};
    {| ckmode := 0; presc := 11; div := 256 |};
    (* HCLK used: Synchronous clock modes (1, 2 or 4 prescaler) *)
    {| ckmode := 1; presc := 0; div := 1 |};
    {| ckmode := 2; presc := 0; div := 2 |};
    {| ckmode := 3; presc := 0; div := 4 |} ].

(* One of the two loops over stm32h7_adc_ckmodes_spec.  With [sync = false]
   it is the first loop (entries with a non zero ckmode are skipped), with
   [sync = true] the second one (entries with ckmode 0 are skipped).  The
   result is the entry at which the loop jumps to [out], if any. *)
Fixpoint stm32h7_scan (sync : bool) (rate max : Z)
    (specs : list stm32h7_adc_ck_spec) : option stm32h7_adc_ck_spec :=
  match specs with
  | [] => None
  | s :: rest =>
      if (if sync then ckmode s =? 0 else negb (ckmode s =? 0))
      then stm32h7_scan sync rate max rest
      else if rate / div s <=? max then Some s
      else stm32h7_scan sync rate max rest
  end.

(* the code at label [out] of stm32h7_adc_clk_sel *)
Definition stm32h7_out (rate : Z) (s : stm32h7_adc_ck_spec) : M Z :=
  p <- get_priv ;;
  put_priv (set_common_rate p (u32 (rate / div s))) ;;
  val <- readl_relaxed (STM32H7_ADC_CCR hdr) ;;
  let val := Z.land val
               (u32 (Z.lnot (Z.lor STM32H7_CKMODE_MASK STM32H7_PRESC_MASK))) in
  let val := Z.lor val (Z.shiftl (ckmode s) STM32H7_CKMODE_SHIFT) in
  let val := Z.lor val (Z.shiftl (presc s) STM32H7_PRESC_SHIFT) in
  writel_relaxed val (STM32H7_ADC_CCR hdr) ;;
  ret 0.

(* the synchronous part of stm32h7_adc_clk_sel, from the read of the bus
   clock rate on *)
Definition stm32h7_sync (b : clk) : M Z :=
  p <- get_priv ;;
  rate <- clk_get_rate b ;;
  if rate =? 0 then ret (- EINVAL)
  else
    match stm32h7_scan true rate (max_clk_rate p) stm32h7_adc_ckmodes_spec with
    | Some s => stm32h7_out rate s
    | None => ret (- EINVAL)
    end.

Definition stm32h7_adc_clk_sel : M Z :=
  p <- get_priv ;;
  match bclk p with
  | None => ret (- ENOENT)
  | Some b =>
      match aclk p with
      | Some a =>
          rate <- clk_get_rate a ;;
          if rate =? 0 then ret (- EINVAL)
          else
            match stm32h7_scan false rate (max_clk_rate p)
                    stm32h7_adc_ckmodes_spec with
            | Some s => stm32h7_out rate s
            | None => stm32h7_sync b
            end
      | None => stm32h7_sync b
      end
  end.

(** ** Compatible dependent data *)

(* STM32F4 common registers definitions *)
Definition stm32f4_adc_common_regs : stm32_adc_common_regs :=
  {| csr := STM32_ADCX_COMN_OFFSET hdr + 0;
     ccr := STM32F4_ADC_CCR hdr;
     eoc1_msk := STM32F4_EOC_MASK1;
     eoc2_msk := STM32F4_EOC_MASK2;
     eoc3_msk := STM32F4_EOC_MASK3;
     jeoc1_msk := STM32F4_JEOC_MASK1;
     jeoc2_msk := STM32F4_JEOC_MASK2;
     jeoc3_msk := STM32F4_JEOC_MASK3;
     ier := STM32F4_ADC_CR1 hdr;
     eocie_msk := STM32F4_EOCIE hdr |}.

(* STM32H7 common registers definitions; eoc3_msk and jeoc3_msk are not
   initialised there, hence 0 *)
Definition stm32h7_adc_common_regs : stm32_adc_common_regs :=
  {| csr := STM32_ADCX_COMN_OFFSET hdr + 0;
     ccr := STM32H7_ADC_CCR hdr;
     eoc1_msk := STM32H7_EOC_MASK1;
     eoc2_msk := STM32H7_EOC_MASK2;
     eoc3_msk := 0;
     jeoc1_msk := STM32H7_JEOC_MASK1;
     jeoc2_msk := STM32H7_JEOC_MASK2;
     jeoc3_msk := 0;
     ier := STM32H7_ADC_IER hdr;
     eocie_msk := STM32H7_EOCIE hdr |}.

Definition stm32f4_adc_priv_cfg : stm32_adc_priv_cfg :=
  {| regs := stm32f4_adc_common_regs;
     clk_sel := stm32f4_clk_sel_fn;
     max_clk_rate_hz := 36000000;
     has_syscfg_clr := false |}.

Definition stm32h7_adc_priv_cfg : stm32_adc_priv_cfg :=
  {| regs := stm32h7_adc_common_regs;
     clk_sel := stm32h7_clk_sel_fn;
     max_clk_rate_hz := 36000000;
     has_syscfg_clr := false |}.

Definition stm32mp1_adc_priv_cfg : stm32_adc_priv_cfg :=
  {| regs := stm32h7_adc_common_regs;
     clk_sel := stm32h7_clk_sel_fn;
     max_clk_rate_hz := 40000000;
     has_syscfg_clr := true |}.

(** ** Interrupt demultiplexing *)

Definition stm32_adc_offset : list Z :=
  [0; STM32_ADC_OFFSET hdr; STM32_ADC_OFFSET hdr * 2].

Definition stm32_adc_eoc_enabled (adc : nat) : M Z :=
  p <- get_priv ;;
  let offset := nth adc stm32_adc_offset 0 in
  v <- readl_relaxed (offset + ier (regs (cfg p))) ;;
  ret (Z.land v (eocie_msk (regs (cfg p)))).

(* ADC common interrupt for all instances.  generic_handle_irq(
   irq_find_mapping(priv->domain, n)) is recorded as the call
   [GenericHandleIrq n]: n is the line's number in the driver's domain.
   What the handlers of the domain's lines do is not part of this file. *)
Definition stm32_adc_irq_handler : M unit :=
  p <- get_priv ;;
  let r := regs (cfg p) in
  call_ ChainedIrqEnter ;;
  status <- readl_relaxed (csr r) ;;
  (if negb (Z.land status (eoc1_msk r) =? 0) then
     en <- stm32_adc_eoc_enabled 0 ;;
     if negb (en =? 0) then generic_handle_irq 0 else ret tt
   else ret tt) ;;
  (if negb (Z.land status (eoc2_msk r) =? 0) then
     en <- stm32_adc_eoc_enabled 1 ;;
     if negb (en =? 0) then generic_handle_irq 1 else ret tt
   else ret tt) ;;
  (if negb (Z.land status (eoc3_msk r) =? 0) then
     en <- stm32_adc_eoc_enabled 2 ;;
     if negb (en =? 0) then generic_handle_irq 2 else ret tt
   else ret tt) ;;
  (if negb (Z.land status (jeoc1_msk r) =? 0)
   then generic_handle_irq 3 else ret tt) ;;
  (if negb (Z.land status (jeoc2_msk r) =? 0)
   then generic_handle_irq 4 else ret tt) ;;
  (if negb (Z.land status (jeoc3_msk r) =? 0)
   then generic_handle_irq 5 else ret tt) ;;
  call_ ChainedIrqExit.

(** ** Analog switches supply *)

(* Recommended settings for ANASWVDD and EN_BOOSTER, as the pair
   (anaswvdd, en_booster) computed from the two voltages read *)
Definition switches_supply_setting (p : stm32_adc_priv) (vdda_uv vdd_uv : Z)
  : Z * Z :=
  if 2700000 <? vdda_uv then
    (* analog switches supplied by vdda (default) *)
    (0, 0)
  else if vdd_uv <? 2700000 then
    (* Voltage booster enabled *)
    (0, mask (vbooster p))
  else
    (* analog switches supplied by vdd *)
    (mask (anaswvdd p), 0).

(* clear the booster: direct write, or the clear register when there is one *)
Definition booster_clear (bm : regmap_t) : M unit :=
  p <- get_priv ;;
  match regmap (vbooster_clr p) with
  | None =>
      _ <- regmap_update_bits bm (reg (vbooster p)) (mask (vbooster p)) 0 ;;
      ret tt
  | Some cm =>
      _ <- regmap_write cm (reg (vbooster_clr p)) (mask (vbooster_clr p)) ;;
      ret tt
  end.

(* regulator_disable(priv->vdd), when vdd and the anaswvdd cell are there *)
Definition vdd_disable : M unit :=
  p <- get_priv ;;
  match vdd p, regmap (anaswvdd p) with
  | Some rd, Some _ => regulator_disable rd
  | _, _ => ret tt
  end.

(* the labels vdda_dis, vdd_dis and booster_dis of
   stm32_adc_switches_supply_en; each falls through to the next *)
Definition vdda_dis (ra : regulator) (r : Z) : M Z :=
  regulator_disable ra ;; ret r.

Definition vdd_dis (ra : regulator) (r : Z) : M Z :=
  vdd_disable ;; vdda_dis ra r.

Definition booster_dis (ra : regulator) (bm : regmap_t) (r : Z) : M Z :=
  booster_clear bm ;; vdd_dis ra r.

(* stm32_adc_switches_supply_en once both voltages are known: the choice of
   the settings and their writes *)
Definition switches_supply_apply (ra : regulator) (bm : regmap_t)
    (vdda_uv vdd_uv : Z) : M Z :=
  p <- get_priv ;;
  let (anaswvdd_v, en_booster) := switches_supply_setting p vdda_uv vdd_uv in
  (* direct write en_booster value (or use clear register) *)
  r <- match regmap (vbooster_clr p) with
       | Some cm =>
           if negb (en_booster =? 0) then
             regmap_update_bits bm (reg (vbooster p)) (mask (vbooster p))
               en_booster
           else
             regmap_write cm (reg (vbooster_clr p)) (mask (vbooster_clr p))
       | None =>
           regmap_update_bits bm (reg (vbooster p)) (mask (vbooster p))
             en_booster
       end ;;
  if negb (r =? 0) then vdd_dis ra r
  else
    (* Booster voltage can take up to 50 us to stabilize *)
    (if negb (en_booster =? 0) then usleep_range 50 100 else ret tt) ;;
    match regmap (anaswvdd p) with
    | Some am =>
        (* direct write anaswvdd value (or use clear register) *)
        r <- match regmap (anaswvdd_clr p) with
             | Some cm =>
                 if negb (anaswvdd_v =? 0) then
                   regmap_update_bits am (reg (anaswvdd p)) (mask (anaswvdd p))
                     anaswvdd_v
                 else
                   regmap_write cm (reg (anaswvdd_clr p))
                     (mask (anaswvdd_clr p))
             | None =>
                 regmap_update_bits am (reg (anaswvdd p)) (mask (anaswvdd p))
                   anaswvdd_v
             end ;;
        if negb (r =? 0) then booster_dis ra bm r else ret r
    | None => ret r
    end.

Definition stm32_adc_switches_supply_en : M Z :=
  p <- get_priv ;;
  match vdda p, regmap (vbooster p) with
  | Some ra, Some bm =>
      r <- regulator_enable ra ;;
      if r <? 0 then ret r
      else
        r <- regulator_get_voltage ra ;;
        if r <? 0 then vdda_dis ra r
        else
          let vdda_uv := r in
          match vdd p, regmap (anaswvdd p) with
          | Some rd, Some _ =>
              r <- regulator_enable rd ;;
              if r <? 0 then vdda_dis ra r
              else
                r <- regulator_get_voltage rd ;;
                if r <? 0 then vdd_dis ra r
                else switches_supply_apply ra bm vdda_uv r
          | _, _ => switches_supply_apply ra bm vdda_uv 0
          end
  | _, _ => ret 0
  end.

Definition stm32_adc_switches_supply_dis : M unit :=
  p <- get_priv ;;
  match vdda p, regmap (vbooster p) with
  | Some ra, Some bm =>
      match regmap (anaswvdd p) with
      | Some am =>
          match regmap (anaswvdd_clr p) with
          | None =>
              _ <- regmap_update_bits am (reg (anaswvdd p))
                     (mask (anaswvdd p)) 0 ;;
              ret tt
          | Some cm =>
              _ <- regmap_write cm (reg (anaswvdd_clr p))
                     (mask (anaswvdd_clr p)) ;;
              ret tt
          end
      | None => ret tt
      end ;;
      booster_clear bm ;;
      vdd_disable ;;
      regulator_disable ra
  | _, _ => ret tt
  end.

(** ** Power sequencing *)

(* the labels of stm32_adc_core_hw_start *)
Definition err_switches_disable (r : Z) : M Z :=
  stm32_adc_switches_supply_dis ;; ret r.

Definition err_regulator_disable (r : Z) : M Z :=
  p <- get_priv ;;
  regulator_disable (vref p) ;; err_switches_disable r.

Definition err_bclk_disable (r : Z) : M Z :=
  p <- get_priv ;;
  match bclk p with
  | Some b => clk_disable_unprepare b
  | None => ret tt
  end ;;
  err_regulator_disable r.

(* stm32_adc_core_hw_start from the test of priv->aclk on *)
Definition hw_start_aclk : M Z :=
  p <- get_priv ;;
  match aclk p with
  | Some a =>
      r <- clk_prepare_enable a ;;
      if r <? 0 then err_bclk_disable r
      else
        writel_relaxed (ccr_bak p) (ccr (regs (cfg p))) ;; ret 0
  | None =>
      writel_relaxed (ccr_bak p) (ccr (regs (cfg p))) ;; ret 0
  end.

Definition stm32_adc_core_hw_start : M Z :=
  p <- get_priv ;;
  r <- stm32_adc_switches_supply_en ;;
  if r <? 0 then ret r
  else
    r <- regulator_enable (vref p) ;;
    if r <? 0 then err_switches_disable r
    else
      match bclk p with
      | Some b =>
          r <- clk_prepare_enable b ;;
          if r <? 0 then err_regulator_disable r
          else hw_start_aclk
      | None => hw_start_aclk
      end.

Definition stm32_adc_core_hw_stop : M unit :=
  p <- get_priv ;;
  (* Backup CCR that may be lost (depends on power state to achieve) *)
  v <- readl_relaxed (ccr (regs (cfg p))) ;;
  put_priv (set_ccr_bak p v) ;;
  match aclk p with
  | Some a => clk_disable_unprepare a
  | None => ret tt
  end ;;
  match bclk p with
  | Some b => clk_disable_unprepare b
  | None => ret tt
  end ;;
  regulator_disable (vref p) ;;
  stm32_adc_switches_supply_dis.

(** ** Probe: the maximum clock rate *)

(* the call through the pointer priv->cfg->clk_sel *)
Definition call_clk_sel (f : clk_sel_fn) : M Z :=
  match f with
  | stm32f4_clk_sel_fn => stm32f4_adc_clk_sel
  | stm32h7_clk_sel_fn => stm32h7_adc_clk_sel
  end.

(* stm32_adc_probe, from the read of the st,max-clk-rate-hz property to the
   call of the clk_sel routine.  [dt_max_rate] is what
   of_property_read_u32 finds: [Some v] when it returns 0 and stores v,
   [None] when it returns an error. *)
Definition stm32_adc_probe_clk_sel (dt_max_rate : option Z) : M Z :=
  p <- get_priv ;;
  match dt_max_rate with
  | Some max_rate =>
      put_priv (set_max_clk_rate p (Z.min max_rate (max_clk_rate_hz (cfg p))))
  | None =>
      put_priv (set_max_clk_rate p (max_clk_rate_hz (cfg p)))
  end ;;
  call_clk_sel (clk_sel (cfg p)).

End Driver.

(** ** Vocabulary of the statements *)

(* [d] is the first fit of an ascending table: it is in the table, it brings
   the rate under the bound, and no smaller divider of the table does *)
Definition smallest_fit (table : list Z) (rate max d : Z) : Prop :=
  In d table /\ rate / d <= max /\
  forall d', In d' table -> d' < d -> max < rate / d'.

(* the entries one loop of stm32h7_adc_clk_sel does not skip *)
Definition selected (sync : bool) (s : stm32h7_adc_ck_spec) : bool :=
  if sync then negb (ckmode s =? 0) else ckmode s =? 0.

(* the dividers of the asynchronous, resp. synchronous, clock modes *)
Definition stm32h7_dividers (sync : bool) : list Z :=
  map div (filter (selected sync) stm32h7_adc_ckmodes_spec).

(* the rates the clock framework answers are unsigned long *)
Definition rates_unsigned (env : list event -> op -> Z) : Prop :=
  forall l c, 0 <= env l (ClkGetRate c).

(** ** A board to run the driver on

    The header constants are those of the mainline stm32-adc-core.h; they
    only serve to run the functions on concrete inputs. *)
Definition mainline_h : stm32_adc_core_h :=
  {| STM32_ADC_OFFSET := 0x100;
     STM32_ADCX_COMN_OFFSET := 0x300;
     STM32F4_ADC_CR1 := 0x04;
     STM32F4_EOCIE := BIT 5;
     STM32F4_ADC_CCR := 0x300 + 0x04;
     STM32H7_ADC_IER := 0x04;
     STM32H7_EOCIE := BIT 2;
     STM32H7_ADC_CCR := 0x300 + 0x08 |}.

Definition no_syscfg : stm32_adc_syscfg :=
  {| regmap := None; reg := 0; mask := 0 |}.

(* handles of the board's clocks and regulators *)
Definition adc_clk : clk := 0%nat.
Definition bus_clk : clk := 1%nat.
Definition vref_reg : regulator := 0%nat.
Definition vdda_reg : regulator := 1%nat.
Definition vdd_reg : regulator := 2%nat.
Definition syscfg_map : regmap_t := 0%nat.

(* a board with both clocks and no analog switches control *)
Definition board_priv (c : stm32_adc_priv_cfg) (max : Z) : stm32_adc_priv :=
  {| aclk := Some adc_clk; bclk := Some bus_clk; max_clk_rate := max;
     vdd := None; vdda := None; vref := vref_reg; cfg := c;
     common_rate := 0; ccr_bak := 0;
     vbooster := no_syscfg; vbooster_clr := no_syscfg;
     anaswvdd := no_syscfg; anaswvdd_clr := no_syscfg |}.

Definition boot (p : stm32_adc_priv) : state :=
  {| priv := p; mmio := fun _ => 0; log := [] |}.

(* clocks at the given rates, every other call answers 0 *)
Definition clocks_env (adc_rate bus_rate : Z) : list event -> op -> Z :=
  fun _ o =>
    match o with
    | ClkGetRate c => if Nat.eqb c adc_clk then adc_rate else bus_rate
    | _ => 0
    end.

(* the same board without its adc clock, resp. without its bus clock *)
Definition without_aclk (p : stm32_adc_priv) : stm32_adc_priv :=
  {| aclk := None; bclk := bclk p; max_clk_rate := max_clk_rate p;
     vdd := vdd p; vdda := vdda p; vref := vref p; cfg := cfg p;
     common_rate := common_rate p; ccr_bak := ccr_bak p;
     vbooster := vbooster p; vbooster_clr := vbooster_clr p;
     anaswvdd := anaswvdd p; anaswvdd_clr := anaswvdd_clr p |}.

Definition without_bclk (p : stm32_adc_priv) : stm32_adc_priv :=
  {| aclk := aclk p; bclk := None; max_clk_rate := max_clk_rate p;
     vdd := vdd p; vdda := vdda p; vref := vref p; cfg := cfg p;
     common_rate := common_rate p; ccr_bak := ccr_bak p;
     vbooster := vbooster p; vbooster_clr := vbooster_clr p;
     anaswvdd := anaswvdd p; anaswvdd_clr := anaswvdd_clr p |}.

(* the state in which probe calls the clock selector: the bound is set *)
Definition with_max_clk_rate (s : state) (bound : Z) : state :=
  {| priv := set_max_clk_rate (priv s) bound; mmio := mmio s; log := log s |}.

(* the lines of the domain raised by the calls of a trace, in order *)
Fixpoint deliveries (l : list event) : list Z :=
  match l with
  | [] => []
  | (GenericHandleIrq n, _) :: rest => n :: deliveries rest
  | _ :: rest => deliveries rest
  end.

(* the lines one run of the interrupt handler raises *)
Definition irq_deliveries (env : list event -> op -> Z)
    (hdr : stm32_adc_core_h) (s : state) : list Z :=
  deliveries (skipn (length (log s))
                (log (snd (stm32_adc_irq_handler env hdr s)))).

(* the trace after generic_handle_irq is called on line [n] if [b] holds *)
Definition raise_if (env : list event -> op -> Z) (l : list event)
    (b : bool) (n : Z) : list event :=
  if b then l ++ [(GenericHandleIrq n, env l (GenericHandleIrq n))] else l.

(* the masks of instance [i], i = 0, 1, 2 standing for adc1, adc2, adc3 *)
Definition eoc_msk (r : stm32_adc_common_regs) (i : nat) : Z :=
  nth i [eoc1_msk r; eoc2_msk r; eoc3_msk r] 0.
Definition jeoc_msk (r : stm32_adc_common_regs) (i : nat) : Z :=
  nth i [jeoc1_msk r; jeoc2_msk r; jeoc3_msk r] 0.

(* the status word the handler reads *)
Definition csr_status (s : state) : Z :=
  u32 (mmio s (csr (regs (cfg (priv s))))).

(* a state whose status register holds [status] while every other register,
   the interrupt enable registers among them, holds [other] *)
Definition irq_state (p : stm32_adc_priv) (status other : Z) : state :=
  {| priv := p;
     mmio := fun a => if a =? csr (regs (cfg p)) then status else other;
     log := [] |}.

(* what the handler tests before it raises the regular, resp. injected,
   line of instance [i] *)
Definition eoc_raised (hdr : stm32_adc_core_h) (s : state) (i : nat) : bool :=
  negb (Z.land (csr_status s) (eoc_msk (regs (cfg (priv s))) i) =? 0) &&
  negb (fst (stm32_adc_eoc_enabled hdr i s) =? 0).
Definition jeoc_raised (s : state) (i : nat) : bool :=
  negb (Z.land (csr_status s) (jeoc_msk (regs (cfg (priv s))) i) =? 0).

(* the line of the domain the handler uses for instance [i] *)
Definition hwirq_of (i : nat) (injected : bool) : Z :=
  if injected then 3 + Z.of_nat i else Z.of_nat i.

(** ** Vocabulary of the power sequencing statements *)

(* the regmap call that sets the booster bits to [en_booster]: a direct
   write, or a write to the clear register when the value is 0 and there is
   such a register *)
Definition booster_op (p : stm32_adc_priv) (bm : regmap_t) (en_booster : Z)
  : op :=
  match regmap (vbooster_clr p) with
  | Some cm =>
      if en_booster =? 0
      then RegmapWrite cm (reg (vbooster_clr p)) (mask (vbooster_clr p))
      else RegmapUpdateBits bm (reg (vbooster p)) (mask (vbooster p)) en_booster
  | None => RegmapUpdateBits bm (reg (vbooster p)) (mask (vbooster p)) en_booster
  end.

(* the same for the analog switches supply selection *)
Definition anaswvdd_op (p : stm32_adc_priv) (am : regmap_t) (v : Z) : op :=
  match regmap (anaswvdd_clr p) with
  | Some cm =>
      if v =? 0
      then RegmapWrite cm (reg (anaswvdd_clr p)) (mask (anaswvdd_clr p))
      else RegmapUpdateBits am (reg (anaswvdd p)) (mask (anaswvdd p)) v
  | None => RegmapUpdateBits am (reg (anaswvdd p)) (mask (anaswvdd p)) v
  end.

(* the regulators the analog switches supply sequence enables *)
Definition supply_regulators (p : stm32_adc_priv) : list regulator :=
  match vdda p, regmap (vbooster p) with
  | Some ra, Some _ =>
      ra :: match vdd p, regmap (anaswvdd p) with
            | Some rd, Some _ => [rd]
            | _, _ => []
            end
  | _, _ => []
  end.

(* tearing the analog switches supply down: clear the supply selection,
   clear the booster, disable vdd if it was enabled, disable vdda; nothing
   when the feature is not configured *)
Definition supply_dis_ops (p : stm32_adc_priv) : list op :=
  match vdda p, regmap (vbooster p) with
  | Some ra, Some bm =>
      match regmap (anaswvdd p) with
      | Some am => [anaswvdd_op p am 0]
      | None => []
      end ++
      [booster_op p bm 0] ++
      match vdd p, regmap (anaswvdd p) with
      | Some rd, Some _ => [RegulatorDisable rd]
      | _, _ => []
      end ++
      [RegulatorDisable ra]
  | _, _ => []
  end.

(* successful enables minus disables of regulator [r] in a trace *)
Fixpoint regulator_count (r : regulator) (l : list event) : Z :=
  match l with
  | [] => 0
  | (RegulatorEnable r', a) :: rest =>
      (if Nat.eqb r' r && (0 <=? a) then 1 else 0) + regulator_count r rest
  | (RegulatorDisable r', _) :: rest =>
      (if Nat.eqb r' r then -1 else 0) + regulator_count r rest
  | _ :: rest => regulator_count r rest
  end.

(* the calls a run made: what it appended to the trace *)
Definition new_events (before after : state) : list event :=
  skipn (length (log before)) (log after).

(* a state that differs from [s] by its trace only *)
Definition with_log (s : state) (l : list event) : state :=
  {| priv := priv s; mmio := mmio s; log := l |}.

(* the trace of the successful enables of a list of regulators *)
Definition enables (rs : list regulator) : list event :=
  map (fun r => (RegulatorEnable r, 0)) rs.

(* the answers of the regulators while the two supplies are measured: vdda
   is enabled and answers [va], then vdd is enabled and answers [vd] *)
Definition measures (env : list event -> op -> Z) (s : state)
    (ra rd : regulator) (va vd : Z) : Prop :=
  let e1 := env (log s) (RegulatorEnable ra) in
  let l1 := log s ++ [(RegulatorEnable ra, e1)] in
  let l2 := l1 ++ [(RegulatorGetVoltage ra, va)] in
  let e3 := env l2 (RegulatorEnable rd) in
  let l3 := l2 ++ [(RegulatorEnable rd, e3)] in
  0 <= e1 /\ env l1 (RegulatorGetVoltage ra) = va /\ 0 <= va /\
  0 <= e3 /\ env l3 (RegulatorGetVoltage rd) = vd /\ 0 <= vd.

(* the wait after the booster is switched on *)
Definition booster_wait (env : list event -> op -> Z) (l : list event)
    (en_booster : Z) : list event :=
  if en_booster =? 0 then []
  else [(UsleepRange 50 100, env l (UsleepRange 50 100))].

(* a board in the style of stm32mp1: vdda and vdd supplies, booster and
   supply selection cells with their clear registers *)
Definition mp1_priv : stm32_adc_priv :=
  {| aclk := Some adc_clk; bclk := Some bus_clk; max_clk_rate := 40000000;
     vdd := Some vdd_reg; vdda := Some vdda_reg; vref := vref_reg;
     cfg := stm32mp1_adc_priv_cfg mainline_h;
     common_rate := 0; ccr_bak := 0;
     vbooster := {| regmap := Some syscfg_map; reg := 0x20; mask := 0x100 |};
     vbooster_clr := {| regmap := Some syscfg_map; reg := 0x44; mask := 0x100 |};
     anaswvdd := {| regmap := Some syscfg_map; reg := 0x20; mask := 0x200 |};
     anaswvdd_clr := {| regmap := Some syscfg_map; reg := 0x44; mask := 0x200 |} |}.

(* vdda and vdd at the given voltages, the enable of the bus clock answers
   [bclk_ret], every other call answers 0 *)
Definition supply_env (vdda_uv vdd_uv bclk_ret : Z) : list event -> op -> Z :=
  fun _ o =>
    match o with
    | RegulatorGetVoltage r => if Nat.eqb r vdda_reg then vdda_uv else vdd_uv
    | ClkPrepareEnable c => if Nat.eqb c bus_clk then bclk_ret else 0
    | _ => 0
    end.

(* a state in which the register at offset [a] holds [v], the others 0 *)
Definition reg_state (p : stm32_adc_priv) (a v : Z) : state :=
  {| priv := p; mmio := fun x => if x =? a then v else 0; log := [] |}.

(** ** Vocabulary of the further clock selection statements *)

(* the two bits of the ADCPRE field of the stm32f4 CCR *)
Definition stm32f4_adcpre (ccr_val : Z) : Z :=
  Z.land (Z.shiftr ccr_val STM32F4_ADC_ADCPRE_SHIFT) 3.

(* the CKMODE field (2 bits) and the PRESC field (4 bits) of the stm32h7 CCR *)
Definition stm32h7_ckmode (ccr_val : Z) : Z :=
  Z.land (Z.shiftr ccr_val STM32H7_CKMODE_SHIFT) 3.
Definition stm32h7_presc (ccr_val : Z) : Z :=
  Z.land (Z.shiftr ccr_val STM32H7_PRESC_SHIFT) 15.

(* an event of the trace is a read of a clock rate *)
Definition is_clk_get_rate (e : event) : Prop :=
  exists c, fst e = ClkGetRate c.

(* the value the stm32f4 selector writes to the CCR for the divider of index
   [i], and the stm32h7 one for the table entry [sp], [old] being read *)
Definition stm32f4_ccr_val (old : Z) (i : nat) : Z :=
  Z.lor (Z.land old (u32 (Z.lnot STM32F4_ADC_ADCPRE_MASK)))
        (Z.shiftl (Z.of_nat i) STM32F4_ADC_ADCPRE_SHIFT).
Definition stm32h7_ccr_val (old : Z) (sp : stm32h7_adc_ck_spec) : Z :=
  Z.lor (Z.lor (Z.land old
                  (u32 (Z.lnot (Z.lor STM32H7_CKMODE_MASK STM32H7_PRESC_MASK))))
               (Z.shiftl (ckmode sp) STM32H7_CKMODE_SHIFT))
        (Z.shiftl (presc sp) STM32H7_PRESC_SHIFT).

(** ** Vocabulary of the further interrupt statements *)

(* all the status bits of instance [i]: regular and injected masks *)
Definition instance_msk (r : stm32_adc_common_regs) (i : nat) : Z :=
  Z.lor (eoc_msk r i) (jeoc_msk r i).

(* an event of the trace is a call of a handler of the domain *)
Definition is_generic_handle_irq (e : event) : Prop :=
  exists n, fst e = GenericHandleIrq n.

(** ** Vocabulary of the further power sequencing statements *)

(* successful prepare_enable minus disable_unprepare of clock [c] in a trace *)
Fixpoint clk_count (c : clk) (l : list event) : Z :=
  match l with
  | [] => 0
  | (ClkPrepareEnable c', a) :: rest =>
      (if Nat.eqb c' c && (0 <=? a) then 1 else 0) + clk_count c rest
  | (ClkDisableUnprepare c', _) :: rest =>
      (if Nat.eqb c' c then -1 else 0) + clk_count c rest
  | _ :: rest => clk_count c rest
  end.

Definition is_clk_op (o : op) : bool :=
  match o with
  | ClkPrepareEnable _ | ClkDisableUnprepare _ => true
  | _ => false
  end.

Definition is_regmap_op (o : op) : bool :=
  match o with
  | RegmapUpdateBits _ _ _ _ | RegmapWrite _ _ _ => true
  | _ => false
  end.

(* a trace without clock enable or disable *)
Definition no_clk (l : list event) : Prop :=
  Forall (fun e => is_clk_op (fst e) = false) l.

(* regmap_update_bits and regmap_write answer 0 or a negative errno *)
Definition regmap_errno (env : list event -> op -> Z) : Prop :=
  forall l o, is_regmap_op o = true -> env l o <= 0.

(* the vdd regulator, when the sequence enables it *)
Definition supply_vdd (p : stm32_adc_priv) : list regulator :=
  match vdd p, regmap (anaswvdd p) with
  | Some rd, Some _ => [rd]
  | _, _ => []
  end.

(* the clocks hw_start enables, in the order it enables them *)
Definition core_clocks (p : stm32_adc_priv) : list clk :=
  match bclk p with Some b => [b] | None => [] end ++
  match aclk p with Some a => [a] | None => [] end.

(* the trace of the successful enables of a list of clocks *)
Definition clk_enables (cs : list clk) : list event :=
  map (fun c => (ClkPrepareEnable c, 0)) cs.

(** ** Interrupt lines: probe and remove

    stm32_adc_irq_probe and stm32_adc_irq_remove work on two fields of
    stm32_adc_priv, irq[] and domain, and on the kernel's interrupt
    descriptors.  They are modelled on these two fields and on the trace of
    the calls made to the interrupt subsystem.  STM32_ADC_MAX_ADCS comes from
    stm32-adc-core.h and is a parameter; platform_get_irq,
    irq_domain_add_simple and irq_find_mapping are answered by the
    platform. *)

Definition ENXIO : Z := 6.
Definition ENOMEM : Z := 12.

Definition irq_domain_t := nat.

(* what irq_set_chained_handler installs: the handler of this file, or NULL *)
Inductive irq_flow_handler :=
| stm32_adc_irq_handler_fn
| no_handler.

Inductive irq_call :=
| PlatformGetIrq (i : nat) (ret : Z)
| IrqDomainAddSimple (size first_irq : Z) (ret : option irq_domain_t)
| IrqSetChainedHandler (line : Z) (h : irq_flow_handler)
| IrqSetHandlerData (line : Z)
| IrqFindMapping (d : option irq_domain_t) (hwirq : Z) (ret : Z)
| IrqDisposeMapping (virq : Z)
| IrqDomainRemove (d : option irq_domain_t).

Record stm32_adc_irqs := {
  irq : list Z;                      (* int irq[STM32_ADC_MAX_ADCS] *)
  domain : option irq_domain_t;      (* NULL is None *)
  calls : list irq_call              (* oldest first *)
}.

(* a[i] = v; the loops of this file keep i inside the array *)
Fixpoint array_set (a : list Z) (i : nat) (v : Z) : list Z :=
  match a, i with
  | [], _ => []
  | _ :: t, O => v :: t
  | h :: t, S i' => h :: array_set t i' v
  end.

Definition irq_called (c : stm32_adc_irqs) (e : irq_call) : stm32_adc_irqs :=
  {| irq := irq c; domain := domain c; calls := calls c ++ [e] |}.

Section IrqLines.

Variable STM32_ADC_MAX_ADCS : nat.
Variable platform_get_irq : nat -> Z.
Variable irq_domain_add_simple : Z -> Z -> option irq_domain_t.
Variable irq_find_mapping : option irq_domain_t -> Z -> Z.

(* the first loop of stm32_adc_irq_probe, [n] rounds from index [i] on:
   [Some r] when it returns r, [None] when it runs to its end *)
Fixpoint irq_probe_get (n i : nat) (c : stm32_adc_irqs)
  : option Z * stm32_adc_irqs :=
  match n with
  | O => (None, c)
  | S n' =>
      let v := platform_get_irq i in
      let c1 := {| irq := array_set (irq c) i v; domain := domain c;
                   calls := calls c ++ [PlatformGetIrq i v] |} in
      if nth i (irq c1) 0 <? 0 then
        (* At least one interrupt must be provided, make others optional *)
        if negb (Nat.eqb i 0) && (nth i (irq c1) 0 =? - ENXIO)
        then irq_probe_get n' (S i) c1
        else (Some (nth i (irq c1) 0), c1)
      else irq_probe_get n' (S i) c1
  end.

(* the second loop of stm32_adc_irq_probe *)
Fixpoint irq_probe_chain (n i : nat) (c : stm32_adc_irqs) : stm32_adc_irqs :=
  match n with
  | O => c
  | S n' =>
      if nth i (irq c) 0 <? 0 then irq_probe_chain n' (S i) c
      else
        irq_probe_chain n' (S i)
          (irq_called
             (irq_called c
                (IrqSetChainedHandler (nth i (irq c) 0) stm32_adc_irq_handler_fn))
             (IrqSetHandlerData (nth i (irq c) 0)))
  end.

Definition stm32_adc_irq_probe (c : stm32_adc_irqs) : Z * stm32_adc_irqs :=
  match irq_probe_get STM32_ADC_MAX_ADCS 0 c with
  | (Some r, c1) => (r, c1)
  | (None, c1) =>
      (* 2 interrupt sources per ADC instance: regular & injected *)
      let d := irq_domain_add_simple (Z.of_nat STM32_ADC_MAX_ADCS * 2) 0 in
      let c2 := {| irq := irq c1; domain := d;
                   calls := calls c1 ++
                     [IrqDomainAddSimple (Z.of_nat STM32_ADC_MAX_ADCS * 2) 0 d] |} in
      match domain c2 with
      | None => (- ENOMEM, c2)
      | Some _ => (0, irq_probe_chain STM32_ADC_MAX_ADCS 0 c2)
      end
  end.

(* the first loop of stm32_adc_irq_remove, over hwirq *)
Fixpoint irq_remove_mappings (n hwirq : nat) (c : stm32_adc_irqs)
  : stm32_adc_irqs :=
  match n with
  | O => c
  | S n' =>
      let virq := irq_find_mapping (domain c) (Z.of_nat hwirq) in
      irq_remove_mappings n' (S hwirq)
        (irq_called
           (irq_called c (IrqFindMapping (domain c) (Z.of_nat hwirq) virq))
           (IrqDisposeMapping virq))
  end.

(* the second loop of stm32_adc_irq_remove *)
Fixpoint irq_remove_chain (n i : nat) (c : stm32_adc_irqs) : stm32_adc_irqs :=
  match n with
  | O => c
  | S n' =>
      if nth i (irq c) 0 <? 0 then irq_remove_chain n' (S i) c
      else
        irq_remove_chain n' (S i)
          (irq_called c (IrqSetChainedHandler (nth i (irq c) 0) no_handler))
  end.

Definition stm32_adc_irq_remove (c : stm32_adc_irqs) : stm32_adc_irqs :=
  let c1 := irq_remove_mappings (STM32_ADC_MAX_ADCS * 2) 0 c in
  let c2 := irq_called c1 (IrqDomainRemove (domain c1)) in
  irq_remove_chain STM32_ADC_MAX_ADCS 0 c2.

End IrqLines.

(** ** Vocabulary of the interrupt line statements *)

(* line [i] does not stop the probe: it is there, or it is not the first
   one and is reported absent with -ENXIO *)
Definition irq_line_tolerated (get : nat -> Z) (i : nat) : bool :=
  (0 <=? get i) || (negb (Nat.eqb i 0) && (get i =? - ENXIO)).

(* the first line that stops the probe, if any *)
Definition irq_first_refused (max : nat) (get : nat -> Z) : option nat :=
  find (fun i => negb (irq_line_tolerated get i)) (seq 0 max).

(* the parent lines, in index order, that were found *)
Definition irq_lines_found (max : nat) (get : nat -> Z) : list Z :=
  filter (fun v => 0 <=? v) (map get (seq 0 max)).

(* the lines on which a trace installs handler [h], in order *)
Definition chained_lines (h : irq_flow_handler) (l : list irq_call) : list Z :=
  flat_map (fun e => match e with
                     | IrqSetChainedHandler line h' =>
                         match h, h' with
                         | stm32_adc_irq_handler_fn, stm32_adc_irq_handler_fn
                         | no_handler, no_handler => [line]
                         | _, _ => []
                         end
                     | _ => []
                     end) l.

Definition is_platform_get_irq (e : irq_call) : Prop :=
  match e with PlatformGetIrq _ _ => True | _ => False end.

(* a platform with [lines] as its interrupts, -ENXIO past them *)
Definition platform_lines (lines : list Z) : nat -> Z :=
  fun i => nth i lines (- ENXIO).

(* the calls a run on the interrupt lines made *)
Definition new_calls (before after : stm32_adc_irqs) : list irq_call :=
  skipn (length (calls before)) (calls after).

(* an stm32_adc_priv freshly allocated: no line, no domain *)
Definition irqs_boot (max : nat) : stm32_adc_irqs :=
  {| irq := repeat 0 max; domain := None; calls := [] |}.

(** ** SYSCFG cells: probe

    The device tree is not in this file's source: what
    syscon_regmap_lookup_by_phandle and of_property_read_u32_index find in
    the node are parameters.  An ERR_PTR(e) is [inl e]; a property read
    gives its return value and the value it stores when that is 0. *)

Definition ENODEV : Z := 19.

Definition set_vbooster (p : stm32_adc_priv) (c : stm32_adc_syscfg)
  : stm32_adc_priv :=
  {| aclk := aclk p; bclk := bclk p; max_clk_rate := max_clk_rate p;
     vdd := vdd p; vdda := vdda p; vref := vref p; cfg := cfg p;
     common_rate := common_rate p; ccr_bak := ccr_bak p;
     vbooster := c; vbooster_clr := vbooster_clr p;
     anaswvdd := anaswvdd p; anaswvdd_clr := anaswvdd_clr p |}.

Definition set_vbooster_clr (p : stm32_adc_priv) (c : stm32_adc_syscfg)
  : stm32_adc_priv :=
  {| aclk := aclk p; bclk := bclk p; max_clk_rate := max_clk_rate p;
     vdd := vdd p; vdda := vdda p; vref := vref p; cfg := cfg p;
     common_rate := common_rate p; ccr_bak := ccr_bak p;
     vbooster := vbooster p; vbooster_clr := c;
     anaswvdd := anaswvdd p; anaswvdd_clr := anaswvdd_clr p |}.

Definition set_anaswvdd (p : stm32_adc_priv) (c : stm32_adc_syscfg)
  : stm32_adc_priv :=
  {| aclk := aclk p; bclk := bclk p; max_clk_rate := max_clk_rate p;
     vdd := vdd p; vdda := vdda p; vref := vref p; cfg := cfg p;
     common_rate := common_rate p; ccr_bak := ccr_bak p;
     vbooster := vbooster p; vbooster_clr := vbooster_clr p;
     anaswvdd := c; anaswvdd_clr := anaswvdd_clr p |}.

Definition set_anaswvdd_clr (p : stm32_adc_priv) (c : stm32_adc_syscfg)
  : stm32_adc_priv :=
  {| aclk := aclk p; bclk := bclk p; max_clk_rate := max_clk_rate p;
     vdd := vdd p; vdda := vdda p; vref := vref p; cfg := cfg p;
     common_rate := common_rate p; ccr_bak := ccr_bak p;
     vbooster := vbooster p; vbooster_clr := vbooster_clr p;
     anaswvdd := anaswvdd p; anaswvdd_clr := c |}.

(* !IS_ERR(syscfg.regmap) *)
Definition syscfg_present (c : stm32_adc_syscfg) : bool :=
  match regmap c with Some _ => true | None => false end.

Section Syscfg.

Variable syscon_regmap_lookup_by_phandle : String.string -> Z + regmap_t.
Variable of_property_read_u32_index : String.string -> Z -> Z * Z.

(* of_property_read_u32_index(np, prop, index, &field): the field is written
   when the read returns 0 *)
Definition read_u32_index (prop : String.string) (index : Z) (field : Z)
  : Z * Z :=
  let (ret, v) := of_property_read_u32_index prop index in
  (ret, if ret =? 0 then u32 v else field).

Definition stm32_adc_get_syscfg_cell (syscfg : stm32_adc_syscfg)
    (prop : String.string) : Z * stm32_adc_syscfg :=
  match syscon_regmap_lookup_by_phandle prop with
  | inl err =>
      let syscfg := {| regmap := None; reg := reg syscfg;
                       mask := mask syscfg |} in
      (* Optional *)
      if err =? - ENODEV then (0, syscfg) else (err, syscfg)
  | inr m =>
      let (ret, r) := read_u32_index prop 1 (reg syscfg) in
      let syscfg := {| regmap := Some m; reg := r; mask := mask syscfg |} in
      if negb (ret =? 0) then (ret, syscfg)
      else
        let (ret, k) := read_u32_index prop 2 (mask syscfg) in
        (ret, {| regmap := regmap syscfg; reg := reg syscfg; mask := k |})
  end.

Definition stm32_adc_syscfg_probe (p : stm32_adc_priv)
  : Z * stm32_adc_priv :=
  (* Start to lookup BOOSTE/EN_BOOSTER first, for stm32h7/stm32mp1 *)
  let (ret, c) := stm32_adc_get_syscfg_cell (vbooster p)
                    "st,syscfg-vbooster"%string in
  let p := set_vbooster p c in
  if negb (ret =? 0) then (ret, p)
  else
    (* Continue with stm32mp1 EN_BOOSTER/ANASWVDD set and clear bits *)
    let (ret, c) := stm32_adc_get_syscfg_cell (vbooster_clr p)
                      "st,syscfg-vbooster-clr"%string in
    let p := set_vbooster_clr p c in
    if negb (ret =? 0) then (ret, p)
    else
      let (ret, c) := stm32_adc_get_syscfg_cell (anaswvdd p)
                        "st,syscfg-anaswvdd"%string in
      let p := set_anaswvdd p c in
      if negb (ret =? 0) then (ret, p)
      else
        let (ret, c) := stm32_adc_get_syscfg_cell (anaswvdd_clr p)
                          "st,syscfg-anaswvdd-clr"%string in
        let p := set_anaswvdd_clr p c in
        if negb (ret =? 0) then (ret, p)
        else
          (* Sanity, check syscfg set/clear pairs are filled in *)
          if has_syscfg_clr (cfg p) &&
             ((syscfg_present (vbooster p) &&
               negb (syscfg_present (vbooster_clr p))) ||
              (syscfg_present (anaswvdd p) &&
               negb (syscfg_present (anaswvdd_clr p))))
          then (- EINVAL, p)
          else (ret, p).

End Syscfg.

(** ** Vocabulary of the SYSCFG statements *)

(* what the node holds for one cell: nothing, or a regmap with the register
   offset and the mask *)
Definition cell_found (lookup : String.string -> Z + regmap_t)
    (read : String.string -> Z -> Z * Z) (prop : String.string)
    (c : stm32_adc_syscfg) : Prop :=
  match lookup prop with
  | inl err => err = - ENODEV /\ regmap c = None
  | inr m =>
      regmap c = Some m /\
      fst (read prop 1) = 0 /\ reg c = u32 (snd (read prop 1)) /\
      fst (read prop 2) = 0 /\ mask c = u32 (snd (read prop 2))
  end.

(* the return value of stm32_adc_get_syscfg_cell for a property *)
Definition cell_code (lookup : String.string -> Z + regmap_t)
    (read : String.string -> Z -> Z * Z) (prop : String.string) : Z :=
  match lookup prop with
  | inl err => if err =? - ENODEV then 0 else err
  | inr _ =>
      if fst (read prop 1) =? 0 then fst (read prop 2) else fst (read prop 1)
  end.

Definition is_regmap_update_bits (o : op) : bool :=
  match o with RegmapUpdateBits _ _ _ _ => true | _ => false end.

(* the node of an stm32mp1: the four cells in the syscfg block *)
Definition mp1_lookup (prop : String.string) : Z + regmap_t := inr syscfg_map.
Definition mp1_read (prop : String.string) (index : Z) : Z * Z :=
  if String.eqb prop "st,syscfg-vbooster"%string then
    (0, if index =? 1 then 0x20 else 0x100)
  else if String.eqb prop "st,syscfg-vbooster-clr"%string then
    (0, if index =? 1 then 0x44 else 0x100)
  else if String.eqb prop "st,syscfg-anaswvdd"%string then
    (0, if index =? 1 then 0x20 else 0x200)
  else (0, (if index =? 1 then 0x44 else 0x200)).

(* the four properties stm32_adc_syscfg_probe looks up, in its order *)
Definition syscfg_props : list String.string :=
  ["st,syscfg-vbooster"%string; "st,syscfg-vbooster-clr"%string;
   "st,syscfg-anaswvdd"%string; "st,syscfg-anaswvdd-clr"%string].

(* the node has a regmap for the property *)
Definition cell_there (lookup : String.string -> Z + regmap_t)
    (prop : String.string) : bool :=
  match lookup prop with inr _ => true | inl _ => false end.

(* a set cell of the node comes without its clear cell *)
Definition syscfg_pair_broken (lookup : String.string -> Z + regmap_t) : bool :=
  (cell_there lookup "st,syscfg-vbooster"%string &&
   negb (cell_there lookup "st,syscfg-vbooster-clr"%string)) ||
  (cell_there lookup "st,syscfg-anaswvdd"%string &&
   negb (cell_there lookup "st,syscfg-anaswvdd-clr"%string)).

(* IS_ERR pointers carry a negative errno *)
Definition lookup_errors_negative (lookup : String.string -> Z + regmap_t)
  : Prop :=
  forall prop err, lookup prop = inl err -> err < 0.

(* an stm32mp1 board before its SYSCFG cells are looked up *)
Definition mp1_unprobed : stm32_adc_priv :=
  set_anaswvdd_clr
    (set_anaswvdd
       (set_vbooster_clr (set_vbooster mp1_priv no_syscfg) no_syscfg)
       no_syscfg)
    no_syscfg.

(** ** Triggers

    The EXTI triggers of the core.  The driver core, the IIO core and the
    device tree are not in this file's source: device_for_each_child is a
    parameter, and the calls of stm32_adc_triggers_probe are recorded in a
    trace of their own, answered by an oracle.  Pointers are integers: NULL
    is 0 and ERR_PTR(e) is e. *)

Definition device := nat.
Definition device_node := nat.

Definition is_stm32_adc_child_dev (dev data : device) : Z :=
  if Nat.eqb dev data then 1 else 0.

Section ValidateDevice.

Variable device_for_each_child :
  device -> device -> (device -> device -> Z) -> Z.

(* [trig_parent] is trig->dev.parent, [indio_parent] indio_dev->dev.parent *)
Definition stm32_adc_validate_device (trig_parent indio_parent : device) : Z :=
  (* Iterate over stm32 adc child devices, is indio_dev one of them ? *)
  if negb (device_for_each_child trig_parent indio_parent
             is_stm32_adc_child_dev =? 0)
  then 0
  else - EINVAL.

End ValidateDevice.

(* IS_ERR() of linux/err.h, MAX_ERRNO being 4095 *)
Definition IS_ERR (ptr : Z) : bool := (- 4095 <=? ptr) && (ptr <? 0).

Inductive trig_op :=
| DevmIioTriggerAlloc (name : String.string)
| DevmIioTriggerRegister (trig : Z)
| OfPropertyMatchString (child : device_node) (name : String.string)
| OfIrqGet (child : device_node)
| DevmRequestIrq (irq trig : Z)
| DisableIrq (irq : Z).

Definition trig_event := (trig_op * Z)%type.

Record trig_state := {
  extrig_list : list Z;          (* priv->common.extrig_list, head first *)
  tlog : list trig_event         (* oldest first *)
}.

Section Triggers.

Variable tenv : list trig_event -> trig_op -> Z.

Definition tcall (o : trig_op) (s : trig_state) : Z * trig_state :=
  let r := tenv (tlog s) o in
  (r, {| extrig_list := extrig_list s; tlog := tlog s ++ [(o, r)] |}).

(* the trigger's parent, ops and drvdata are fields of the trigger object,
   which the callers of this file do not read back *)
Definition stm32_adc_trig_alloc_register (name : String.string)
    (s : trig_state) : Z * trig_state :=
  let (trig, s) := tcall (DevmIioTriggerAlloc name) s in
  if trig =? 0 then (- ENOMEM, s)
  else
    let (ret, s) := tcall (DevmIioTriggerRegister trig) s in
    if negb (ret =? 0) then (ret, s)
    else
      (* list_add_tail(&trig->alloc_list, &priv->common.extrig_list) *)
      (trig, {| extrig_list := extrig_list s ++ [trig]; tlog := tlog s |}).

(* for_each_available_child_of_node(node, child) for the table entry
   [name]: [Some r] when the function returns r, [None] at the end of the
   loop *)
Fixpoint trig_children (name : String.string) (children : list device_node)
    (s : trig_state) : option Z * trig_state :=
  match children with
  | [] => (None, s)
  | child :: rest =>
      let (m, s) := tcall (OfPropertyMatchString child name) s in
      if m <? 0 then trig_children name rest s
      else
        let (trig, s) := stm32_adc_trig_alloc_register name s in
        if IS_ERR trig then (Some trig, s)
        else
          let (irq, s) := tcall (OfIrqGet child) s in
          if irq <=? 0 then
            (Some (if negb (irq =? 0) then irq else - ENODEV), s)
          else
            let (ret, s) := tcall (DevmRequestIrq irq trig) s in
            if negb (ret =? 0) then (Some ret, s)
            else
              let (_, s) := tcall (DisableIrq irq) s in
              trig_children name rest s
  end.

(* the loop over the table; [trinfo] holds the names of the entries before
   the terminating empty one *)
Fixpoint trig_table (trinfo : list String.string)
    (children : list device_node) (s : trig_state) : Z * trig_state :=
  match trinfo with
  | [] => (0, s)
  | name :: rest =>
      match trig_children name children s with
      | (Some r, s) => (r, s)
      | (None, s) => trig_table rest children s
      end
  end.

(* [exti_trigs] is priv->cfg->exti_trigs, [None] for a NULL table *)
Definition stm32_adc_triggers_probe (exti_trigs : option (list String.string))
    (children : list device_node) (s : trig_state) : Z * trig_state :=
  (* INIT_LIST_HEAD(&priv->common.extrig_list) *)
  let s := {| extrig_list := []; tlog := tlog s |} in
  match exti_trigs with
  | None => (0, s)
  | Some trinfo => trig_table trinfo children s
  end.

End Triggers.

(** ** Vocabulary of the trigger statements *)

(* what device_for_each_child does: fn on each child in turn, until one
   answers non zero *)
Fixpoint first_nonzero (l : list Z) : Z :=
  match l with
  | [] => 0
  | x :: rest => if x =? 0 then first_nonzero rest else x
  end.

Definition for_each_child_of (children : device -> list device)
  : device -> device -> (device -> device -> Z) -> Z :=
  fun parent data fn => first_nonzero (map (fun c => fn c data) (children parent)).

Definition iterates_children (children : device -> list device)
    (f : device -> device -> (device -> device -> Z) -> Z) : Prop :=
  forall parent data fn, f parent data fn = for_each_child_of children parent data fn.

(* the interrupt requests of a trace are well formed: only positive lines
   are requested, a request that succeeds is followed at once by
   disable_irq of its line, disable_irq occurs nowhere else, and a request
   that fails is the last call; with [may_fail] false no request fails.
   [pending] is the line a disable_irq is due for. *)
Fixpoint irqs_masked (may_fail : bool) (pending : option Z)
    (l : list trig_event) : bool :=
  match l with
  | [] => match pending with None => true | Some _ => false end
  | (o, a) :: rest =>
      match pending with
      | Some irq =>
          match o with
          | DisableIrq irq' => (irq' =? irq) && irqs_masked may_fail None rest
          | _ => false
          end
      | None =>
          match o with
          | DevmRequestIrq irq _ =>
              (0 <? irq) &&
              (if a =? 0 then irqs_masked may_fail (Some irq) rest
               else may_fail && match rest with [] => true | _ => false end)
          | DisableIrq _ => false
          | _ => irqs_masked may_fail None rest
          end
      end
  end.

(* the triggers a trace registered, in order *)
Definition registered (l : list trig_event) : list Z :=
  flat_map (fun e => match e with
                     | (DevmIioTriggerRegister t, 0) => [t]
                     | _ => []
                     end) l.

(* the lines a trace requested with success, in order *)
Definition requested (l : list trig_event) : list Z :=
  flat_map (fun e => match e with
                     | (DevmRequestIrq irq _, 0) => [irq]
                     | _ => []
                     end) l.

(* the (table entry, child) pairs that matched, in order *)
Definition matched (l : list trig_event) : list (device_node * String.string) :=
  flat_map (fun e => match e with
                     | (OfPropertyMatchString child name, a) =>
                         if a <? 0 then [] else [(child, name)]
                     | _ => []
                     end) l.

Definition new_tcalls (before after : trig_state) : list trig_event :=
  skipn (length (tlog before)) (tlog after).

(* a node whose child [c] is named [name] and wired to line [irq] *)
Definition exti_env (c : device_node) (name : String.string) (irq : Z)
  : list trig_event -> trig_op -> Z :=
  fun l o =>
    match o with
    | DevmIioTriggerAlloc _ => 1000 + Z.of_nat (length l)
    | OfPropertyMatchString c' n =>
        if Nat.eqb c' c && String.eqb n name then 0 else - EINVAL
    | OfIrqGet _ => irq
    | _ => 0
    end.

(* devm_iio_trigger_register answers 0 or an errno ERR_PTR can carry *)
Definition register_errno (tenv : list trig_event -> trig_op -> Z) : Prop :=
  forall l t, tenv l (DevmIioTriggerRegister t) = 0 \/
              IS_ERR (tenv l (DevmIioTriggerRegister t)) = true.

(* the (child, table entry) pairs a trace looked up, in order *)
Definition match_pairs (l : list trig_event)
  : list (device_node * String.string) :=
  flat_map (fun e => match e with
                     | (OfPropertyMatchString child name, _) => [(child, name)]
                     | _ => []
                     end) l.

(* the triggers a trace allocated: name asked for and pointer answered *)
Definition allocations (l : list trig_event) : list (String.string * Z) :=
  flat_map (fun e => match e with
                     | (DevmIioTriggerAlloc name, t) => [(name, t)]
                     | _ => []
                     end) l.

(* the children whose interrupt a trace looked up, with the answer *)
Definition irq_gets (l : list trig_event) : list (device_node * Z) :=
  flat_map (fun e => match e with
                     | (OfIrqGet child, a) => [(child, a)]
                     | _ => []
                     end) l.

(* every pair the two loops of stm32_adc_triggers_probe go through: the
   table entries in order and, for each, the children in order *)
Definition trig_pairs (trinfo : list String.string)
    (children : list device_node) : list (device_node * String.string) :=
  flat_map (fun name => map (fun child => (child, name)) children) trinfo.

(* [evs] is a run of the oracle from the trace [l]: each answer is the one
   the oracle gives after the calls before it *)
Fixpoint oracle_trace (tenv : list trig_event -> trig_op -> Z)
    (l evs : list trig_event) : Prop :=
  match evs with
  | [] => True
  | (o, a) :: rest => a = tenv l o /\ oracle_trace tenv (l ++ [(o, a)]) rest
  end.

(* whether a child has a trigger-name does not depend on the calls made *)
Definition match_static (tenv : list trig_event -> trig_op -> Z) : Prop :=
  forall l l' child name,
    tenv l (OfPropertyMatchString child name) =
    tenv l' (OfPropertyMatchString child name).

(* the pair matches: of_property_match_string does not answer an error *)
Definition pair_matches (tenv : list trig_event -> trig_op -> Z)
    (p : device_node * String.string) : bool :=
  0 <=? tenv [] (OfPropertyMatchString (fst p) (snd p)).

(** * Proofs *)

(** ** Running the monad *)

Ltac run :=
  unfold bind, ret, get_priv, put_priv, readl_relaxed, writel_relaxed,
    clk_get_rate, clk_prepare_enable, clk_disable_unprepare,
    regulator_enable, regulator_disable, regulator_get_voltage,
    regmap_update_bits, regmap_write, usleep_range, generic_handle_irq,
    call_, call in *; cbn [fst snd priv mmio log] in *.

(* split the conjunctions that are written as such, unfolding nothing *)
Ltac conj_split := repeat match goal with |- _ /\ _ => split end.

Lemma u32_small (x : Z) : 0 <= x < 2 ^ 32 -> u32 x = x.
Proof. intros H. unfold u32. apply Z.mod_small. exact H. Qed.

Lemma u32_idem (x : Z) : u32 (u32 x) = u32 x.
Proof. unfold u32. apply Z.mod_mod. lia. Qed.

Lemma div_le_bound (rate d max : Z) :
  0 < rate -> 0 < d -> rate / d <= max -> max < 2 ^ 32 ->
  0 <= rate / d < 2 ^ 32.
Proof.
  intros Hr Hd Hle Hmax. split; [apply Z.div_pos; lia | lia].
Qed.

(** ** The scans *)

Lemma stm32f4_scan_range rate max divs i0 :
  (i0 <= stm32f4_scan rate max divs i0 <= i0 + length divs)%nat.
Proof.
  revert i0. induction divs as [|d rest IH]; intros i0; cbn.
  - lia.
  - destruct (rate / d <=? max); [lia|]. specialize (IH (S i0)). lia.
Qed.

Lemma stm32f4_scan_fit rate max divs i0 :
  StronglySorted Z.lt divs ->
  (stm32f4_scan rate max divs i0 < i0 + length divs)%nat ->
  smallest_fit divs rate max (nth (stm32f4_scan rate max divs i0 - i0) divs 0).
Proof.
  revert i0. induction divs as [|d rest IH]; intros i0 Hs Hlt; cbn in *.
  - lia.
  - apply StronglySorted_inv in Hs. destruct Hs as [Hs Hall].
    destruct (Z.leb_spec (rate / d) max) as [Hle|Hgt].
    + replace (i0 - i0)%nat with 0%nat by lia.
      split; [now left|]. split; [exact Hle|].
      intros d' [<-|Hin] Hd'; [lia|].
      rewrite Forall_forall in Hall. specialize (Hall _ Hin). lia.
    + pose proof (stm32f4_scan_range rate max rest (S i0)) as Hr.
      destruct (IH (S i0) Hs ltac:(lia)) as (Hin & Hle & Hmin).
      replace (stm32f4_scan rate max rest (S i0) - i0)%nat
        with (S (stm32f4_scan rate max rest (S i0) - S i0)) by lia.
      split; [now right|]. split; [exact Hle|].
      intros d' [<-|Hin'] Hd'; [lia|]. now apply Hmin.
Qed.

Lemma stm32f4_scan_none rate max divs i0 :
  (i0 + length divs <= stm32f4_scan rate max divs i0)%nat ->
  forall d, In d divs -> max < rate / d.
Proof.
  revert i0. induction divs as [|d rest IH]; intros i0 Hge d' Hin; cbn in *.
  - contradiction.
  - destruct (Z.leb_spec (rate / d) max) as [Hle|Hgt]; [lia|].
    destruct Hin as [<-|Hin]; [exact Hgt|].
    apply (IH (S i0)); [lia | exact Hin].
Qed.

Lemma stm32f4_pclk_div_sorted : StronglySorted Z.lt stm32f4_pclk_div.
Proof. unfold stm32f4_pclk_div. repeat constructor; lia. Qed.

Lemma stm32h7_scan_fit sync rate max specs s :
  StronglySorted Z.lt (map div (filter (selected sync) specs)) ->
  stm32h7_scan sync rate max specs = Some s ->
  In s specs /\ selected sync s = true /\
  smallest_fit (map div (filter (selected sync) specs)) rate max (div s).
Proof.
  induction specs as [|x rest IH]; intros Hs Hscan; cbn in *; [discriminate|].
  assert (Hskip : (if sync then ckmode x =? 0 else negb (ckmode x =? 0))
                  = negb (selected sync x))
    by (unfold selected; destruct sync; [now rewrite negb_involutive | easy]).
  rewrite Hskip in Hscan.
  destruct (selected sync x) eqn:Hsel; cbn in *.
  - apply StronglySorted_inv in Hs. destruct Hs as [Hs Hall].
    destruct (Z.leb_spec (rate / div x) max) as [Hle|Hgt].
    + injection Hscan as <-. split; [now left|]. split; [exact Hsel|].
      split; [now left|]. split; [exact Hle|].
      intros d' [<-|Hin] Hd'; [lia|].
      rewrite Forall_forall in Hall. specialize (Hall _ Hin). lia.
    + destruct (IH Hs Hscan) as (Hin & Hsel' & Hin' & Hle & Hmin).
      split; [now right|]. split; [exact Hsel'|].
      split; [now right|]. split; [exact Hle|].
      intros d' [<-|Hd'in] Hd'; [lia|]. now apply Hmin.
  - destruct (IH Hs Hscan) as (Hin & Hsel' & Hfit).
    split; [now right|]. split; [exact Hsel'|exact Hfit].
Qed.

Lemma stm32h7_scan_none sync rate max specs :
  stm32h7_scan sync rate max specs = None ->
  forall d, In d (map div (filter (selected sync) specs)) -> max < rate / d.
Proof.
  induction specs as [|x rest IH]; intros Hscan d Hin; cbn in *;
    [contradiction|].
  assert (Hskip : (if sync then ckmode x =? 0 else negb (ckmode x =? 0))
                  = negb (selected sync x))
    by (unfold selected; destruct sync; [now rewrite negb_involutive | easy]).
  rewrite Hskip in Hscan.
  destruct (selected sync x) eqn:Hsel; cbn in *.
  - destruct (Z.leb_spec (rate / div x) max) as [Hle|Hgt]; [discriminate|].
    destruct Hin as [<-|Hin]; [exact Hgt|]. now apply IH.
  - now apply IH.
Qed.

Lemma stm32h7_scan_some sync rate max specs d :
  In d (map div (filter (selected sync) specs)) -> rate / d <= max ->
  exists s, stm32h7_scan sync rate max specs = Some s.
Proof.
  intros Hin Hle.
  destruct (stm32h7_scan sync rate max specs) as [s|] eqn:E; [now exists s|].
  pose proof (stm32h7_scan_none _ _ _ _ E d Hin). lia.
Qed.

Lemma stm32h7_async_dividers :
  stm32h7_dividers false = [1; 2; 4; 6; 8; 10; 12; 16; 32; 64; 128; 256].
Proof. reflexivity. Qed.

Lemma stm32h7_sync_dividers : stm32h7_dividers true = [1; 2; 4].
Proof. reflexivity. Qed.

Lemma stm32h7_dividers_sorted sync : StronglySorted Z.lt (stm32h7_dividers sync).
Proof.
  destruct sync; [rewrite stm32h7_sync_dividers | rewrite stm32h7_async_dividers];
    repeat constructor; lia.
Qed.

Lemma stm32h7_dividers_pos sync d : In d (stm32h7_dividers sync) -> 0 < d.
Proof.
  destruct sync; [rewrite stm32h7_sync_dividers | rewrite stm32h7_async_dividers];
    cbn; intros H; repeat (destruct H as [<-|H]; [lia|]); contradiction.
Qed.

(** ** Clock selection *)

Lemma stm32f4_clk_sel_ok env hdr s s' :
  stm32f4_adc_clk_sel env hdr s = (0, s') ->
  exists c rate d val,
    aclk (priv s) = Some c /\
    log s' = log s ++ [(ClkGetRate c, rate); (Writel val (STM32F4_ADC_CCR hdr), 0)] /\
    rate <> 0 /\
    smallest_fit stm32f4_pclk_div rate (max_clk_rate (priv s)) d /\
    common_rate (priv s') = u32 (rate / d) /\
    rate = env (log s) (ClkGetRate c).
Proof.
  unfold stm32f4_adc_clk_sel. run.
  destruct (aclk (priv s)) as [c|] eqn:Hc; [|discriminate].
  run. set (rate := env (log s) (ClkGetRate c)).
  destruct (Z.eqb_spec rate 0) as [|Hnz]; [discriminate|].
  set (i := stm32f4_scan rate (max_clk_rate (priv s)) stm32f4_pclk_div 0).
  destruct (Nat.leb_spec (length stm32f4_pclk_div) i) as [|Hlt]; [discriminate|].
  intros H. injection H as <-.
  pose proof (stm32f4_scan_fit rate (max_clk_rate (priv s)) stm32f4_pclk_div 0
                stm32f4_pclk_div_sorted ltac:(fold i; lia)) as Hfit.
  fold i in Hfit. rewrite Nat.sub_0_r in Hfit.
  eexists c, rate, _, _. cbn [priv log common_rate set_common_rate].
  rewrite <- app_assoc. cbn [app].
  repeat split; try reflexivity; try apply Hfit; assumption.
Qed.

Lemma stm32f4_clk_sel_cases env hdr s :
  match aclk (priv s) with
  | None => stm32f4_adc_clk_sel env hdr s = (- ENOENT, s)
  | Some c =>
      let rate := env (log s) (ClkGetRate c) in
      let r := fst (stm32f4_adc_clk_sel env hdr s) in
      (rate = 0 -> r = - EINVAL) /\
      (rate <> 0 ->
       (forall d, In d stm32f4_pclk_div -> max_clk_rate (priv s) < rate / d) ->
       r = - EINVAL) /\
      (rate <> 0 ->
       (exists d, In d stm32f4_pclk_div /\ rate / d <= max_clk_rate (priv s)) ->
       r = 0)
  end.
Proof.
  unfold stm32f4_adc_clk_sel. run.
  destruct (aclk (priv s)) as [c|] eqn:Hc; [|reflexivity].
  run. cbv zeta. set (rate := env (log s) (ClkGetRate c)).
  destruct (Z.eqb_spec rate 0) as [H0|Hnz].
  - repeat split; intros; try reflexivity; contradiction.
  - set (i := stm32f4_scan rate (max_clk_rate (priv s)) stm32f4_pclk_div 0).
    destruct (Nat.leb_spec (length stm32f4_pclk_div) i) as [Hge|Hlt]; cbn [fst].
    + repeat split; intros; try reflexivity; try contradiction.
      destruct H0 as (d & Hin & Hle).
      pose proof (stm32f4_scan_none rate (max_clk_rate (priv s))
                    stm32f4_pclk_div 0 ltac:(fold i; lia) d Hin). lia.
    + repeat split; intros; try reflexivity; try contradiction.
      pose proof (stm32f4_scan_fit rate (max_clk_rate (priv s)) stm32f4_pclk_div
                    0 stm32f4_pclk_div_sorted ltac:(fold i; lia))
        as (Hin & Hle & _).
      specialize (H0 _ Hin). lia.
Qed.

Lemma stm32h7_out_run hdr rate sp s :
  exists val,
    stm32h7_out hdr rate sp s =
    (0, {| priv := set_common_rate (priv s) (u32 (rate / div sp));
           mmio := fun a => if a =? STM32H7_ADC_CCR hdr then val else mmio s a;
           log := log s ++ [(Writel val (STM32H7_ADC_CCR hdr), 0)] |}).
Proof. unfold stm32h7_out. run. eexists. reflexivity. Qed.

Lemma stm32h7_sync_ok env hdr b s s' :
  stm32h7_sync env hdr b s = (0, s') ->
  exists rate sp val,
    log s' = log s ++ [(ClkGetRate b, rate); (Writel val (STM32H7_ADC_CCR hdr), 0)] /\
    rate <> 0 /\ In sp stm32h7_adc_ckmodes_spec /\ ckmode sp <> 0 /\
    smallest_fit (stm32h7_dividers true) rate (max_clk_rate (priv s)) (div sp) /\
    common_rate (priv s') = u32 (rate / div sp) /\
    rate = env (log s) (ClkGetRate b).
Proof.
  unfold stm32h7_sync. run. set (rate := env (log s) (ClkGetRate b)).
  destruct (Z.eqb_spec rate 0) as [|Hnz]; [discriminate|].
  destruct (stm32h7_scan true rate (max_clk_rate (priv s))
              stm32h7_adc_ckmodes_spec) as [sp|] eqn:Hscan; [|discriminate].
  destruct (stm32h7_scan_fit _ _ _ _ _ (stm32h7_dividers_sorted true) Hscan)
    as (Hin & Hsel & Hfit).
  match goal with |- stm32h7_out hdr rate sp ?s1 = _ -> _ =>
    destruct (stm32h7_out_run hdr rate sp s1) as (val & ->) end.
  intros H. injection H as <-. cbn [priv log common_rate set_common_rate].
  exists rate, sp, val. rewrite <- app_assoc. cbn [app].
  unfold selected in Hsel. apply negb_true_iff in Hsel.
  apply Z.eqb_neq in Hsel. repeat split; try assumption; apply Hfit.
Qed.

Lemma stm32h7_clk_sel_ok env hdr s s' :
  stm32h7_adc_clk_sel env hdr s = (0, s') ->
  exists b c rate sp pre val,
    bclk (priv s) = Some b /\
    In sp stm32h7_adc_ckmodes_spec /\
    log s' = log s ++ pre ++
               [(ClkGetRate c, rate); (Writel val (STM32H7_ADC_CCR hdr), 0)] /\
    rate <> 0 /\
    smallest_fit (stm32h7_dividers (negb (ckmode sp =? 0))) rate
      (max_clk_rate (priv s)) (div sp) /\
    common_rate (priv s') = u32 (rate / div sp) /\
    rate = env (log s ++ pre) (ClkGetRate c) /\
    ((ckmode sp = 0 /\ aclk (priv s) = Some c /\ pre = []) \/
     (ckmode sp <> 0 /\ c = b /\
      (aclk (priv s) = None /\ pre = [] \/
       exists a ra, aclk (priv s) = Some a /\ pre = [(ClkGetRate a, ra)] /\
         ra <> 0 /\
         forall d, In d (stm32h7_dividers false) ->
                   max_clk_rate (priv s) < ra / d))).
Proof.
  unfold stm32h7_adc_clk_sel. run.
  destruct (bclk (priv s)) as [b|] eqn:Hb; [|discriminate].
  destruct (aclk (priv s)) as [a|] eqn:Ha.
  - run. set (ra := env (log s) (ClkGetRate a)).
    destruct (Z.eqb_spec ra 0) as [|Hnz]; [discriminate|].
    destruct (stm32h7_scan false ra (max_clk_rate (priv s))
                stm32h7_adc_ckmodes_spec) as [sp|] eqn:Hscan.
    + destruct (stm32h7_scan_fit _ _ _ _ _ (stm32h7_dividers_sorted false) Hscan)
        as (Hin & Hsel & Hfit).
      match goal with |- stm32h7_out hdr ra sp ?s1 = _ -> _ =>
        destruct (stm32h7_out_run hdr ra sp s1) as (val & ->) end.
      intros H. injection H as <-. cbn [priv log common_rate set_common_rate].
      unfold selected in Hsel. pose proof Hsel as Hz. apply Z.eqb_eq in Hz.
      exists b, a, ra, sp, [], val. rewrite Hsel. cbn [negb app].
      rewrite <- app_assoc, app_nil_r. cbn [app].
      conj_split;
        [reflexivity | exact Hin | reflexivity | exact Hnz | exact Hfit
        | reflexivity | reflexivity | ].
      left. conj_split; [exact Hz | reflexivity | reflexivity].
    + intros H. apply stm32h7_sync_ok in H.
      destruct H as (rate & sp & val & Hlog & Hnz' & Hin & Hmode & Hfit & Hrate & Henv).
      cbn [priv log] in *.
      exists b, b, rate, sp, [(ClkGetRate a, ra)], val.
      apply Z.eqb_neq in Hmode as Hmode'. rewrite Hmode'. cbn [negb app].
      rewrite <- app_assoc in Hlog. cbn [app] in Hlog.
      conj_split;
        [reflexivity | exact Hin | exact Hlog | exact Hnz' | exact Hfit
        | exact Hrate | exact Henv | ].
      right. conj_split; [exact Hmode | reflexivity | ]. right. exists a, ra.
      conj_split; [reflexivity | reflexivity | exact Hnz | ].
      apply (stm32h7_scan_none _ _ _ _ Hscan).
  - intros H. apply stm32h7_sync_ok in H.
    destruct H as (rate & sp & val & Hlog & Hnz' & Hin & Hmode & Hfit & Hrate & Henv).
    exists b, b, rate, sp, [], val.
    apply Z.eqb_neq in Hmode as Hmode'. rewrite Hmode', app_nil_r. cbn [negb app].
    conj_split;
      [reflexivity | exact Hin | exact Hlog | exact Hnz' | exact Hfit
      | exact Hrate | exact Henv | ].
    right. conj_split; [exact Hmode | reflexivity | ]. left. now split.
Qed.

Lemma stm32f4_clk_sel_det env1 env2 hdr1 hdr2 s1 s2 :
  aclk (priv s1) = aclk (priv s2) ->
  max_clk_rate (priv s1) = max_clk_rate (priv s2) ->
  (forall c l1 l2, env1 l1 (ClkGetRate c) = env2 l2 (ClkGetRate c)) ->
  fst (stm32f4_adc_clk_sel env1 hdr1 s1) = fst (stm32f4_adc_clk_sel env2 hdr2 s2) /\
  (fst (stm32f4_adc_clk_sel env1 hdr1 s1) = 0 ->
   common_rate (priv (snd (stm32f4_adc_clk_sel env1 hdr1 s1))) =
   common_rate (priv (snd (stm32f4_adc_clk_sel env2 hdr2 s2)))).
Proof.
  intros Ha Hm He. unfold stm32f4_adc_clk_sel. run. rewrite <- Ha, <- Hm.
  destruct (aclk (priv s1)) as [c|]; [|cbn; split; [reflexivity|discriminate]].
  run. rewrite <- (He c (log s1) (log s2)).
  destruct (env1 (log s1) (ClkGetRate c) =? 0);
    [cbn; split; [reflexivity|discriminate]|].
  destruct (length stm32f4_pclk_div <=? _)%nat;
    cbn; split; try reflexivity; discriminate.
Qed.

Lemma stm32h7_clk_sel_det env1 env2 hdr1 hdr2 s1 s2 :
  aclk (priv s1) = aclk (priv s2) ->
  bclk (priv s1) = bclk (priv s2) ->
  max_clk_rate (priv s1) = max_clk_rate (priv s2) ->
  (forall c l1 l2, env1 l1 (ClkGetRate c) = env2 l2 (ClkGetRate c)) ->
  fst (stm32h7_adc_clk_sel env1 hdr1 s1) = fst (stm32h7_adc_clk_sel env2 hdr2 s2) /\
  (fst (stm32h7_adc_clk_sel env1 hdr1 s1) = 0 ->
   common_rate (priv (snd (stm32h7_adc_clk_sel env1 hdr1 s1))) =
   common_rate (priv (snd (stm32h7_adc_clk_sel env2 hdr2 s2)))).
Proof.
  intros Ha Hb Hm He.
  assert (Hsync : forall b l1 l2 m1 m2 p1 p2,
    max_clk_rate p1 = max_clk_rate p2 ->
    let r1 := stm32h7_sync env1 hdr1 b {| priv := p1; mmio := m1; log := l1 |} in
    let r2 := stm32h7_sync env2 hdr2 b {| priv := p2; mmio := m2; log := l2 |} in
    fst r1 = fst r2 /\
    (fst r1 = 0 -> common_rate (priv (snd r1)) = common_rate (priv (snd r2)))).
  { intros b l1 l2 m1 m2 p1 p2 Hp. unfold stm32h7_sync, stm32h7_out. run.
    rewrite <- Hp, <- (He b l1 l2).
    destruct (env1 l1 (ClkGetRate b) =? 0);
      [cbn; split; [reflexivity|discriminate]|].
    destruct (stm32h7_scan true _ _ _);
      cbn; split; try reflexivity; discriminate. }
  unfold stm32h7_adc_clk_sel. run. rewrite <- Ha, <- Hb, <- Hm.
  destruct (bclk (priv s1)) as [b|]; [|cbn; split; [reflexivity|discriminate]].
  destruct s1 as [p1 m1 l1], s2 as [p2 m2 l2]. cbn [priv mmio log] in *.
  destruct (aclk p1) as [a|]; [|now apply Hsync].
  run. rewrite <- (He a l1 l2).
  destruct (env1 l1 (ClkGetRate a) =? 0);
    [cbn; split; [reflexivity|discriminate]|].
  destruct (stm32h7_scan false _ _ _); [|now apply Hsync].
  unfold stm32h7_out. run. cbn. split; [reflexivity|reflexivity].
Qed.


(* the published rate of a selector that succeeds on unsigned rates *)
Lemma stm32f4_clk_sel_fit env hdr s :
  rates_unsigned env ->
  0 <= max_clk_rate (priv s) < 2 ^ 32 ->
  fst (stm32f4_adc_clk_sel env hdr s) = 0 ->
  exists c rate d val,
    aclk (priv s) = Some c /\
    rate = env (log s) (ClkGetRate c) /\
    log (snd (stm32f4_adc_clk_sel env hdr s)) =
      log s ++ [(ClkGetRate c, rate); (Writel val (STM32F4_ADC_CCR hdr), 0)] /\
    0 < rate /\
    smallest_fit stm32f4_pclk_div rate (max_clk_rate (priv s)) d /\
    common_rate (priv (snd (stm32f4_adc_clk_sel env hdr s))) = rate / d.
Proof.
  intros Henv Hmax H0.
  destruct (stm32f4_adc_clk_sel env hdr s) as [r s'] eqn:E. cbn [fst snd] in H0 |- *.
  subst r. apply stm32f4_clk_sel_ok in E.
  destruct E as (c & rate & d & val & Hc & Hlog & Hnz & Hfit & Hrate & Hr).
  assert (Hpos : 0 < rate)
    by (pose proof (Henv (log s) c); subst rate; lia).
  exists c, rate, d, val.
  conj_split; [exact Hc | exact Hr | exact Hlog | exact Hpos | exact Hfit | ].
  rewrite Hrate. apply u32_small.
  destruct Hfit as (Hin & Hle & _).
  apply div_le_bound with (max := max_clk_rate (priv s)); try lia.
  unfold stm32f4_pclk_div in Hin. cbn in Hin.
  repeat (destruct Hin as [<-|Hin]; [lia|]). contradiction.
Qed.

Lemma stm32h7_clk_sel_fit env hdr s :
  rates_unsigned env ->
  0 <= max_clk_rate (priv s) < 2 ^ 32 ->
  fst (stm32h7_adc_clk_sel env hdr s) = 0 ->
  exists c rate sp pre val,
    In sp stm32h7_adc_ckmodes_spec /\
    (if ckmode sp =? 0 then aclk (priv s) = Some c
     else bclk (priv s) = Some c) /\
    rate = env (log s ++ pre) (ClkGetRate c) /\
    log (snd (stm32h7_adc_clk_sel env hdr s)) =
      log s ++ pre ++
        [(ClkGetRate c, rate); (Writel val (STM32H7_ADC_CCR hdr), 0)] /\
    0 < rate /\
    smallest_fit (stm32h7_dividers (negb (ckmode sp =? 0))) rate
      (max_clk_rate (priv s)) (div sp) /\
    common_rate (priv (snd (stm32h7_adc_clk_sel env hdr s))) = rate / div sp.
Proof.
  intros Henv Hmax H0.
  destruct (stm32h7_adc_clk_sel env hdr s) as [r s'] eqn:E. cbn [fst snd] in H0 |- *.
  subst r. apply stm32h7_clk_sel_ok in E.
  destruct E as (b & c & rate & sp & pre & val & Hb & Hin & Hlog & Hnz & Hfit
                 & Hrate & Hr & Hsrc).
  assert (Hpos : 0 < rate)
    by (pose proof (Henv (log s ++ pre) c); subst rate; lia).
  exists c, rate, sp, pre, val.
  conj_split; [exact Hin | | exact Hr | exact Hlog | exact Hpos | exact Hfit | ].
  - destruct Hsrc as [(Hm & Ha & _)|(Hm & -> & _)].
    + rewrite Hm. cbn. exact Ha.
    + apply Z.eqb_neq in Hm. rewrite Hm. exact Hb.
  - rewrite Hrate. apply u32_small.
    destruct Hfit as (Hind & Hle & _).
    apply div_le_bound with (max := max_clk_rate (priv s)); try lia.
    apply stm32h7_dividers_pos in Hind. exact Hind.
Qed.

(** C3. Whenever a clock selector succeeds on a positive source rate, the
    divider [d] it chose brings the rate under the bound
    ([rate / d <= max_clk_rate]), no smaller divider of the table it
    scanned does, and the rate it publishes in [common.rate] is [rate / d].
    This holds for the stm32f4 selector (dividers 2, 4, 6, 8) and for the
    stm32h7 one (asynchronous or synchronous table, after the source the
    entry belongs to).  The selection is deterministic: two runs that see
    the same clocks, the same rates and the same bound return the same code
    and publish the same rate, whatever the registers held. *)
Theorem clk_sel_first_fit env hdr s :
  rates_unsigned env ->
  0 <= max_clk_rate (priv s) < 2 ^ 32 ->
  (fst (stm32f4_adc_clk_sel env hdr s) = 0 ->
   exists c rate d val,
     aclk (priv s) = Some c /\
     rate = env (log s) (ClkGetRate c) /\
     log (snd (stm32f4_adc_clk_sel env hdr s)) =
       log s ++ [(ClkGetRate c, rate); (Writel val (STM32F4_ADC_CCR hdr), 0)] /\
     0 < rate /\
     smallest_fit stm32f4_pclk_div rate (max_clk_rate (priv s)) d /\
     common_rate (priv (snd (stm32f4_adc_clk_sel env hdr s))) = rate / d) /\
  (fst (stm32h7_adc_clk_sel env hdr s) = 0 ->
   exists c rate sp pre val,
     In sp stm32h7_adc_ckmodes_spec /\
     (if ckmode sp =? 0 then aclk (priv s) = Some c
      else bclk (priv s) = Some c) /\
     rate = env (log s ++ pre) (ClkGetRate c) /\
     log (snd (stm32h7_adc_clk_sel env hdr s)) =
       log s ++ pre ++
         [(ClkGetRate c, rate); (Writel val (STM32H7_ADC_CCR hdr), 0)] /\
     0 < rate /\
     smallest_fit (stm32h7_dividers (negb (ckmode sp =? 0))) rate
       (max_clk_rate (priv s)) (div sp) /\
     common_rate (priv (snd (stm32h7_adc_clk_sel env hdr s))) = rate / div sp) /\
  (forall env' hdr' s',
     aclk (priv s) = aclk (priv s') -> bclk (priv s) = bclk (priv s') ->
     max_clk_rate (priv s) = max_clk_rate (priv s') ->
     (forall c l l', env l (ClkGetRate c) = env' l' (ClkGetRate c)) ->
     (fst (stm32f4_adc_clk_sel env hdr s) = fst (stm32f4_adc_clk_sel env' hdr' s') /\
      (fst (stm32f4_adc_clk_sel env hdr s) = 0 ->
       common_rate (priv (snd (stm32f4_adc_clk_sel env hdr s))) =
       common_rate (priv (snd (stm32f4_adc_clk_sel env' hdr' s'))))) /\
     (fst (stm32h7_adc_clk_sel env hdr s) = fst (stm32h7_adc_clk_sel env' hdr' s') /\
      (fst (stm32h7_adc_clk_sel env hdr s) = 0 ->
       common_rate (priv (snd (stm32h7_adc_clk_sel env hdr s))) =
       common_rate (priv (snd (stm32h7_adc_clk_sel env' hdr' s')))))).
Proof.
  intros Henv Hmax. split; [|split].
  - now apply stm32f4_clk_sel_fit.
  - now apply stm32h7_clk_sel_fit.
  - intros env' hdr' s' Ha Hb Hm He. split.
    + now apply stm32f4_clk_sel_det.
    + now apply stm32h7_clk_sel_det.
Qed.

Lemma clk_sel_first_fit_witness :
  let env := clocks_env 80000000 200000000 in
  let sf4 := boot (board_priv (stm32f4_adc_priv_cfg mainline_h) 36000000) in
  let sh7 := boot (board_priv (stm32h7_adc_priv_cfg mainline_h) 36000000) in
  common_rate (priv (snd (stm32f4_adc_clk_sel env mainline_h sf4))) = 20000000 /\
  (exists c rate d val,
     aclk (priv sf4) = Some c /\
     rate = env (log sf4) (ClkGetRate c) /\
     log (snd (stm32f4_adc_clk_sel env mainline_h sf4)) =
       log sf4 ++ [(ClkGetRate c, rate);
                   (Writel val (STM32F4_ADC_CCR mainline_h), 0)] /\
     0 < rate /\
     smallest_fit stm32f4_pclk_div rate (max_clk_rate (priv sf4)) d /\
     common_rate (priv (snd (stm32f4_adc_clk_sel env mainline_h sf4))) = rate / d) /\
  (exists c rate sp pre val,
     In sp stm32h7_adc_ckmodes_spec /\
     (if ckmode sp =? 0 then aclk (priv sh7) = Some c
      else bclk (priv sh7) = Some c) /\
     rate = env (log sh7 ++ pre) (ClkGetRate c) /\
     log (snd (stm32h7_adc_clk_sel env mainline_h sh7)) =
       log sh7 ++ pre ++
         [(ClkGetRate c, rate); (Writel val (STM32H7_ADC_CCR mainline_h), 0)] /\
     0 < rate /\
     smallest_fit (stm32h7_dividers (negb (ckmode sp =? 0))) rate
       (max_clk_rate (priv sh7)) (div sp) /\
     common_rate (priv (snd (stm32h7_adc_clk_sel env mainline_h sh7))) =
       rate / div sp).
Proof.
  intros env sf4 sh7.
  assert (Henv : rates_unsigned env)
    by (intros l c; unfold env, clocks_env; destruct (Nat.eqb c adc_clk); lia).
  split; [reflexivity|]. split.
  - apply (clk_sel_first_fit env mainline_h sf4 Henv);
      [cbn; lia | reflexivity].
  - apply (clk_sel_first_fit env mainline_h sh7 Henv);
      [cbn; lia | reflexivity].
Defined.

(** *** The stm32h7 selector: asynchronous modes first *)

Lemma stm32h7_sync_cases env hdr b s :
  let rate := env (log s) (ClkGetRate b) in
  let r := fst (stm32h7_sync env hdr b s) in
  (rate = 0 -> r = - EINVAL) /\
  (rate <> 0 ->
   (forall d, In d (stm32h7_dividers true) -> max_clk_rate (priv s) < rate / d) ->
   r = - EINVAL) /\
  (rate <> 0 ->
   (exists d, In d (stm32h7_dividers true) /\ rate / d <= max_clk_rate (priv s)) ->
   r = 0).
Proof.
  unfold stm32h7_sync. run. cbv zeta. set (rate := env (log s) (ClkGetRate b)).
  destruct (Z.eqb_spec rate 0) as [H0|Hnz].
  - repeat split; intros; try reflexivity; contradiction.
  - destruct (stm32h7_scan true rate (max_clk_rate (priv s))
                stm32h7_adc_ckmodes_spec) as [sp|] eqn:Hscan.
    + match goal with |- context [stm32h7_out hdr rate sp ?s1] =>
        destruct (stm32h7_out_run hdr rate sp s1) as (val & ->) end.
      cbn [fst]. repeat split; intros; try reflexivity; try contradiction.
      destruct (stm32h7_scan_fit _ _ _ _ _ (stm32h7_dividers_sorted true) Hscan)
        as (_ & _ & Hin & Hle & _).
      specialize (H0 _ Hin). lia.
    + cbn [fst]. repeat split; intros; try reflexivity; try contradiction.
      destruct H0 as (d & Hin & Hle).
      pose proof (stm32h7_scan_none _ _ _ _ Hscan d Hin). lia.
Qed.

(* with an adc clock whose rate some asynchronous divider brings under the
   bound, the bus clock is not even read *)
Lemma stm32h7_async_first env hdr s a b :
  aclk (priv s) = Some a -> bclk (priv s) = Some b ->
  let ra := env (log s) (ClkGetRate a) in
  ra <> 0 ->
  (exists d, In d (stm32h7_dividers false) /\ ra / d <= max_clk_rate (priv s)) ->
  exists sp val,
    In sp stm32h7_adc_ckmodes_spec /\ ckmode sp = 0 /\
    smallest_fit (stm32h7_dividers false) ra (max_clk_rate (priv s)) (div sp) /\
    stm32h7_adc_clk_sel env hdr s =
    (0, {| priv := set_common_rate (priv s) (u32 (ra / div sp));
           mmio := fun x => if x =? STM32H7_ADC_CCR hdr then val else mmio s x;
           log := log s ++ [(ClkGetRate a, ra);
                            (Writel val (STM32H7_ADC_CCR hdr), 0)] |}).
Proof.
  intros Ha Hb ra Hnz (d & Hin & Hle).
  destruct (stm32h7_scan_some false ra (max_clk_rate (priv s))
              stm32h7_adc_ckmodes_spec d Hin Hle) as (sp & Hscan).
  destruct (stm32h7_scan_fit _ _ _ _ _ (stm32h7_dividers_sorted false) Hscan)
    as (Hsp & Hsel & Hfit).
  unfold stm32h7_adc_clk_sel. run. rewrite Ha, Hb. run. fold ra.
  apply Z.eqb_neq in Hnz. rewrite Hnz, Hscan.
  match goal with |- context [stm32h7_out hdr ra sp ?s1] =>
    destruct (stm32h7_out_run hdr ra sp s1) as (val & ->) end.
  cbn [priv mmio log]. exists sp, val.
  rewrite <- app_assoc. cbn [app].
  unfold selected in Hsel. apply Z.eqb_eq in Hsel.
  repeat split; try assumption; apply Hfit.
Qed.

(* without an adc clock, or when no asynchronous divider fits, the selector
   goes on with the bus clock *)
Lemma stm32h7_fallback env hdr s b :
  bclk (priv s) = Some b ->
  (aclk (priv s) = None ->
   stm32h7_adc_clk_sel env hdr s = stm32h7_sync env hdr b s) /\
  (forall a, aclk (priv s) = Some a ->
   let ra := env (log s) (ClkGetRate a) in
   ra <> 0 ->
   (forall d, In d (stm32h7_dividers false) -> max_clk_rate (priv s) < ra / d) ->
   stm32h7_adc_clk_sel env hdr s =
   stm32h7_sync env hdr b
     {| priv := priv s; mmio := mmio s;
        log := log s ++ [(ClkGetRate a, ra)] |}).
Proof.
  intros Hb. split.
  - intros Ha. unfold stm32h7_adc_clk_sel. run. now rewrite Ha, Hb.
  - intros a Ha ra Hnz Hnone.
    unfold stm32h7_adc_clk_sel. run. rewrite Ha, Hb. run. fold ra.
    apply Z.eqb_neq in Hnz. rewrite Hnz.
    destruct (stm32h7_scan false ra (max_clk_rate (priv s))
                stm32h7_adc_ckmodes_spec) as [sp|] eqn:Hscan; [|reflexivity].
    destruct (stm32h7_scan_fit _ _ _ _ _ (stm32h7_dividers_sorted false) Hscan)
      as (_ & _ & Hin & Hle & _).
    specialize (Hnone _ Hin). lia.
Qed.

Lemma stm32h7_sync_first env hdr s b :
  let rb := env (log s) (ClkGetRate b) in
  rb <> 0 ->
  (exists d, In d (stm32h7_dividers true) /\ rb / d <= max_clk_rate (priv s)) ->
  exists sp val,
    In sp stm32h7_adc_ckmodes_spec /\ ckmode sp <> 0 /\
    smallest_fit (stm32h7_dividers true) rb (max_clk_rate (priv s)) (div sp) /\
    stm32h7_sync env hdr b s =
    (0, {| priv := set_common_rate (priv s) (u32 (rb / div sp));
           mmio := fun x => if x =? STM32H7_ADC_CCR hdr then val else mmio s x;
           log := log s ++ [(ClkGetRate b, rb);
                            (Writel val (STM32H7_ADC_CCR hdr), 0)] |}).
Proof.
  intros rb Hnz (d & Hin & Hle).
  destruct (stm32h7_scan_some true rb (max_clk_rate (priv s))
              stm32h7_adc_ckmodes_spec d Hin Hle) as (sp & Hscan).
  destruct (stm32h7_scan_fit _ _ _ _ _ (stm32h7_dividers_sorted true) Hscan)
    as (Hsp & Hsel & Hfit).
  unfold stm32h7_sync. run. fold rb.
  apply Z.eqb_neq in Hnz. rewrite Hnz, Hscan.
  match goal with |- context [stm32h7_out hdr rb sp ?s1] =>
    destruct (stm32h7_out_run hdr rb sp s1) as (val & ->) end.
  cbn [priv mmio log]. exists sp, val.
  rewrite <- app_assoc. cbn [app].
  unfold selected in Hsel. apply negb_true_iff, Z.eqb_neq in Hsel.
  repeat split; try assumption; apply Hfit.
Qed.

(** C4. In the stm32h7 selector an adc clock, when there is one, is tried
    first: the asynchronous dividers 1, 2, 4, 6, 8, 10, 12, 16, 32, 64, 128,
    256 are scanned in that order and the first one that brings the adc rate
    under the bound is taken, without the bus clock being read.  The
    synchronous prescalers 1, 2, 4 of the bus clock are scanned only when
    there is no adc clock or when no asynchronous divider fits, and there
    again the first fit is taken.  With an adc clock at 80 MHz and a bound of
    36 MHz the plan is asynchronous, divider 4 (prescaler code 2), and the
    published rate is 20 MHz. *)
Theorem stm32h7_adc_clock_first env hdr s b :
  bclk (priv s) = Some b ->
  stm32h7_dividers false = [1; 2; 4; 6; 8; 10; 12; 16; 32; 64; 128; 256] /\
  stm32h7_dividers true = [1; 2; 4] /\
  (forall a, aclk (priv s) = Some a ->
   let ra := env (log s) (ClkGetRate a) in
   ra <> 0 ->
   (exists d, In d (stm32h7_dividers false) /\ ra / d <= max_clk_rate (priv s)) ->
   exists sp val,
     In sp stm32h7_adc_ckmodes_spec /\ ckmode sp = 0 /\
     smallest_fit (stm32h7_dividers false) ra (max_clk_rate (priv s)) (div sp) /\
     stm32h7_adc_clk_sel env hdr s =
     (0, {| priv := set_common_rate (priv s) (u32 (ra / div sp));
            mmio := fun x => if x =? STM32H7_ADC_CCR hdr then val else mmio s x;
            log := log s ++ [(ClkGetRate a, ra);
                             (Writel val (STM32H7_ADC_CCR hdr), 0)] |})) /\
  (forall pre,
   (aclk (priv s) = None /\ pre = []) \/
   (exists a, aclk (priv s) = Some a /\
      pre = [(ClkGetRate a, env (log s) (ClkGetRate a))] /\
      env (log s) (ClkGetRate a) <> 0 /\
      forall d, In d (stm32h7_dividers false) ->
                max_clk_rate (priv s) < env (log s) (ClkGetRate a) / d) ->
   let rb := env (log s ++ pre) (ClkGetRate b) in
   rb <> 0 ->
   (exists d, In d (stm32h7_dividers true) /\ rb / d <= max_clk_rate (priv s)) ->
   exists sp val,
     In sp stm32h7_adc_ckmodes_spec /\ ckmode sp <> 0 /\
     smallest_fit (stm32h7_dividers true) rb (max_clk_rate (priv s)) (div sp) /\
     stm32h7_adc_clk_sel env hdr s =
     (0, {| priv := set_common_rate (priv s) (u32 (rb / div sp));
            mmio := fun x => if x =? STM32H7_ADC_CCR hdr then val else mmio s x;
            log := log s ++ pre ++
                     [(ClkGetRate b, rb);
                      (Writel val (STM32H7_ADC_CCR hdr), 0)] |})) /\
  (forall bus_rate,
   let r := stm32h7_adc_clk_sel (clocks_env 80000000 bus_rate) mainline_h
              (boot (board_priv (stm32h7_adc_priv_cfg mainline_h) 36000000)) in
   fst r = 0 /\
   common_rate (priv (snd r)) = 20000000 /\
   log (snd r) =
     [(ClkGetRate adc_clk, 80000000);
      (Writel (Z.lor (Z.shiftl 0 STM32H7_CKMODE_SHIFT)
                     (Z.shiftl 2 STM32H7_PRESC_SHIFT))
              (STM32H7_ADC_CCR mainline_h), 0)]).
Proof.
  intros Hb. split; [reflexivity|]. split; [reflexivity|]. split; [|split].
  - intros a Ha ra Hnz Hfit. now apply stm32h7_async_first with (b := b).
  - intros pre Hpre rb Hnz Hfit.
    destruct (stm32h7_fallback env hdr s b Hb) as (Hnone & Hsome).
    destruct Hpre as [(Ha & ->)|(a & Ha & -> & Hnza & Hno)].
    + rewrite (Hnone Ha). subst rb. rewrite app_nil_r in *. cbn [app].
      now apply stm32h7_sync_first.
    + rewrite (Hsome a Ha Hnza Hno).
      match goal with |- context [stm32h7_sync env hdr b ?s1] =>
        destruct (stm32h7_sync_first env hdr s1 b Hnz Hfit)
          as (sp & val & Hin & Hm & Hsf & ->) end.
      cbn [priv mmio log]. exists sp, val.
      rewrite <- app_assoc.
      split; [exact Hin|]. split; [exact Hm|]. split; [exact Hsf|reflexivity].
  - intros bus_rate. cbv zeta. repeat split.
Qed.

Lemma stm32h7_adc_clock_first_witness :
  let env := clocks_env 80000000 200000000 in
  let s := boot (board_priv (stm32h7_adc_priv_cfg mainline_h) 36000000) in
  exists sp val,
    In sp stm32h7_adc_ckmodes_spec /\ ckmode sp = 0 /\
    smallest_fit (stm32h7_dividers false) 80000000 36000000 (div sp) /\
    stm32h7_adc_clk_sel env mainline_h s =
    (0, {| priv := set_common_rate (priv s) (u32 (80000000 / div sp));
           mmio := fun x => if x =? STM32H7_ADC_CCR mainline_h then val
                            else mmio s x;
           log := log s ++ [(ClkGetRate adc_clk, 80000000);
                            (Writel val (STM32H7_ADC_CCR mainline_h), 0)] |}).
Proof.
  intros env s.
  destruct (stm32h7_adc_clock_first env mainline_h s bus_clk eq_refl)
    as (_ & _ & Hasync & _).
  apply (Hasync adc_clk eq_refl).
  - cbn. lia.
  - exists 4. split; [cbn; tauto | cbn; lia].
Defined.

(** *** Error codes of the selectors *)

Lemma stm32h7_sync_codes env hdr b s :
  fst (stm32h7_sync env hdr b s) = 0 \/
  fst (stm32h7_sync env hdr b s) = - EINVAL.
Proof.
  unfold stm32h7_sync. run.
  destruct (_ =? 0); [now right|].
  destruct (stm32h7_scan _ _ _ _) as [sp|]; [|now right].
  match goal with |- context [stm32h7_out hdr ?r sp ?s1] =>
    destruct (stm32h7_out_run hdr r sp s1) as (val & ->) end.
  now left.
Qed.

Lemma stm32h7_clk_sel_codes env hdr s :
  match bclk (priv s) with
  | None => stm32h7_adc_clk_sel env hdr s = (- ENOENT, s)
  | Some _ =>
      fst (stm32h7_adc_clk_sel env hdr s) = 0 \/
      fst (stm32h7_adc_clk_sel env hdr s) = - EINVAL
  end.
Proof.
  unfold stm32h7_adc_clk_sel. run.
  destruct (bclk (priv s)) as [b|]; [|reflexivity].
  destruct (aclk (priv s)) as [a|]; [|apply stm32h7_sync_codes].
  run. destruct (_ =? 0); [now right|].
  destruct (stm32h7_scan _ _ _ _) as [sp|]; [|apply stm32h7_sync_codes].
  match goal with |- context [stm32h7_out hdr ?r sp ?s1] =>
    destruct (stm32h7_out_run hdr r sp s1) as (val & ->) end.
  now left.
Qed.

Lemma stm32f4_clk_sel_codes env hdr s :
  match aclk (priv s) with
  | None => stm32f4_adc_clk_sel env hdr s = (- ENOENT, s)
  | Some _ =>
      fst (stm32f4_adc_clk_sel env hdr s) = 0 \/
      fst (stm32f4_adc_clk_sel env hdr s) = - EINVAL
  end.
Proof.
  unfold stm32f4_adc_clk_sel. run.
  destruct (aclk (priv s)) as [c|]; [|reflexivity].
  run. destruct (_ =? 0); [now right|].
  destruct (_ <=? _)%nat; [now right | now left].
Qed.

Lemma stm32h7_zero_adc_rate_code env hdr s a b :
  aclk (priv s) = Some a -> bclk (priv s) = Some b ->
  env (log s) (ClkGetRate a) = 0 ->
  fst (stm32h7_adc_clk_sel env hdr s) = - EINVAL.
Proof.
  intros Ha Hb H0. unfold stm32h7_adc_clk_sel. run.
  rewrite Ha, Hb. run. rewrite H0. reflexivity.
Qed.

(** C8, as the code has it.  A selector returns -ENOENT exactly when the
    clock its family requires (the adc clock on stm32f4, the bus clock on
    stm32h7) is absent.  A zero rate read from that clock is another error,
    -EINVAL, the code that is also returned when no divider brings the rate
    under the bound; with the required clock present no other code than 0
    and -EINVAL is returned.  On stm32h7 this holds of the bus clock both
    when there is no adc clock and when the adc clock was read and no
    asynchronous divider fits, and a zero rate of the adc clock is -EINVAL
    as well.  On stm32h7 the rate of the bus clock is read only when there
    is no adc clock or no asynchronous divider fits: with an adc clock that
    fits the selector succeeds whatever the bus clock answers, and its only
    calls are the read of the adc clock rate and the write of CCR. *)
Theorem clk_sel_missing_clock_codes env hdr s :
  (fst (stm32f4_adc_clk_sel env hdr s) = - ENOENT <-> aclk (priv s) = None) /\
  (forall c, aclk (priv s) = Some c ->
     env (log s) (ClkGetRate c) = 0 ->
     fst (stm32f4_adc_clk_sel env hdr s) = - EINVAL) /\
  (forall c, aclk (priv s) = Some c ->
     env (log s) (ClkGetRate c) <> 0 ->
     (forall d, In d stm32f4_pclk_div ->
        max_clk_rate (priv s) < env (log s) (ClkGetRate c) / d) ->
     fst (stm32f4_adc_clk_sel env hdr s) = - EINVAL) /\
  (fst (stm32h7_adc_clk_sel env hdr s) = - ENOENT <-> bclk (priv s) = None) /\
  (forall b, bclk (priv s) = Some b -> aclk (priv s) = None ->
     env (log s) (ClkGetRate b) = 0 ->
     fst (stm32h7_adc_clk_sel env hdr s) = - EINVAL) /\
  (forall b, bclk (priv s) = Some b -> aclk (priv s) = None ->
     env (log s) (ClkGetRate b) <> 0 ->
     (forall d, In d (stm32h7_dividers true) ->
        max_clk_rate (priv s) < env (log s) (ClkGetRate b) / d) ->
     fst (stm32h7_adc_clk_sel env hdr s) = - EINVAL) /\
  (forall a b, aclk (priv s) = Some a -> bclk (priv s) = Some b ->
     env (log s) (ClkGetRate a) <> 0 ->
     (exists d, In d (stm32h7_dividers false) /\
        env (log s) (ClkGetRate a) / d <= max_clk_rate (priv s)) ->
     fst (stm32h7_adc_clk_sel env hdr s) = 0 /\
     exists val,
       log (snd (stm32h7_adc_clk_sel env hdr s)) =
       log s ++ [(ClkGetRate a, env (log s) (ClkGetRate a));
                 (Writel val (STM32H7_ADC_CCR hdr), 0)]) /\
  - ENOENT <> - EINVAL /\
  (forall a b, aclk (priv s) = Some a -> bclk (priv s) = Some b ->
     env (log s) (ClkGetRate a) = 0 ->
     fst (stm32h7_adc_clk_sel env hdr s) = - EINVAL) /\
  (forall a b, aclk (priv s) = Some a -> bclk (priv s) = Some b ->
     let ra := env (log s) (ClkGetRate a) in
     let rb := env (log s ++ [(ClkGetRate a, ra)]) (ClkGetRate b) in
     ra <> 0 ->
     (forall d, In d (stm32h7_dividers false) ->
        max_clk_rate (priv s) < ra / d) ->
     (rb = 0 -> fst (stm32h7_adc_clk_sel env hdr s) = - EINVAL) /\
     (rb <> 0 ->
      (forall d, In d (stm32h7_dividers true) ->
         max_clk_rate (priv s) < rb / d) ->
      fst (stm32h7_adc_clk_sel env hdr s) = - EINVAL)) /\
  (aclk (priv s) <> None ->
   fst (stm32f4_adc_clk_sel env hdr s) = 0 \/
   fst (stm32f4_adc_clk_sel env hdr s) = - EINVAL) /\
  (bclk (priv s) <> None ->
   fst (stm32h7_adc_clk_sel env hdr s) = 0 \/
   fst (stm32h7_adc_clk_sel env hdr s) = - EINVAL).
Proof.
  pose proof (stm32f4_clk_sel_codes env hdr s) as Hf4.
  pose proof (stm32f4_clk_sel_cases env hdr s) as Hf4c.
  pose proof (stm32h7_clk_sel_codes env hdr s) as Hh7.
  split.
  { split.
    - destruct (aclk (priv s)); [|reflexivity].
      intros H. destruct Hf4 as [E|E]; rewrite E in H; discriminate.
    - intros Ha. rewrite Ha in Hf4. now rewrite Hf4. }
  split.
  { intros c Ha H0. rewrite Ha in Hf4c. cbv zeta in Hf4c.
    destruct Hf4c as (Hz & _). exact (Hz H0). }
  split.
  { intros c Ha Hnz Hno. rewrite Ha in Hf4c. cbv zeta in Hf4c.
    destruct Hf4c as (_ & Hu & _). exact (Hu Hnz Hno). }
  split.
  { split.
    - destruct (bclk (priv s)); [|reflexivity].
      intros H. destruct Hh7 as [E|E]; rewrite E in H; discriminate.
    - intros Hb. rewrite Hb in Hh7. now rewrite Hh7. }
  split.
  { intros b Hb Ha H0.
    destruct (stm32h7_fallback env hdr s b Hb) as (Hnone & _).
    rewrite (Hnone Ha).
    destruct (stm32h7_sync_cases env hdr b s) as (Hz & _). exact (Hz H0). }
  split.
  { intros b Hb Ha Hnz Hno.
    destruct (stm32h7_fallback env hdr s b Hb) as (Hnone & _).
    rewrite (Hnone Ha).
    destruct (stm32h7_sync_cases env hdr b s) as (_ & Hu & _).
    exact (Hu Hnz Hno). }
  split.
  { intros a b Ha Hb Hnz Hfit.
    destruct (stm32h7_async_first env hdr s a b Ha Hb Hnz Hfit)
      as (sp & val & _ & _ & _ & ->).
    split; [reflexivity|]. exists val. reflexivity. }
  split; [discriminate|].
  split.
  { intros a b Ha Hb H0. exact (stm32h7_zero_adc_rate_code env hdr s a b Ha Hb H0). }
  split.
  { intros a b Ha Hb ra rb Hnz Hno.
    destruct (stm32h7_fallback env hdr s b Hb) as (_ & Hsome).
    rewrite (Hsome a Ha Hnz Hno).
    match goal with |- context [stm32h7_sync env hdr b ?s0] =>
      destruct (stm32h7_sync_cases env hdr b s0) as (Hz & Hu & _) end.
    cbn [priv log] in Hz, Hu. fold ra in Hz, Hu. fold rb in Hz, Hu.
    split; [exact Hz | exact Hu]. }
  split.
  { intros Ha. destruct (aclk (priv s)); [exact Hf4 | now contradiction Ha]. }
  intros Hb. destruct (bclk (priv s)); [exact Hh7 | now contradiction Hb].
Qed.

Lemma clk_sel_missing_clock_codes_witness :
  let env := clocks_env 0 0 in
  let s := boot (board_priv (stm32f4_adc_priv_cfg mainline_h) 36000000) in
  let h7 := boot (board_priv (stm32h7_adc_priv_cfg mainline_h) 1000000) in
  fst (stm32f4_adc_clk_sel env mainline_h s) = - EINVAL /\
  fst (stm32h7_adc_clk_sel env mainline_h (boot (without_aclk (priv s)))) = - EINVAL /\
  fst (stm32f4_adc_clk_sel env mainline_h (boot (without_aclk (priv s)))) = - ENOENT /\
  fst (stm32h7_adc_clk_sel env mainline_h (boot (without_bclk (priv s)))) = - ENOENT /\
  fst (stm32h7_adc_clk_sel (clocks_env 300000000 0) mainline_h h7) = - EINVAL /\
  fst (stm32h7_adc_clk_sel (clocks_env 300000000 400000000) mainline_h h7)
    = - EINVAL.
Proof.
  intros env s h7. split; [|split; [|split; [|split; [|split]]]].
  - destruct (clk_sel_missing_clock_codes env mainline_h s) as (_ & Hz & _).
    apply (Hz adc_clk); reflexivity.
  - destruct (clk_sel_missing_clock_codes env mainline_h
                (boot (without_aclk (priv s)))) as (_ & _ & _ & _ & Hz & _).
    apply (Hz bus_clk); reflexivity.
  - destruct (clk_sel_missing_clock_codes env mainline_h
                (boot (without_aclk (priv s)))) as ((_ & Habs) & _).
    apply Habs. reflexivity.
  - destruct (clk_sel_missing_clock_codes env mainline_h
                (boot (without_bclk (priv s)))) as (_ & _ & _ & (_ & Habs) & _).
    apply Habs. reflexivity.
  - destruct (clk_sel_missing_clock_codes (clocks_env 300000000 0) mainline_h h7)
      as (_ & _ & _ & _ & _ & _ & _ & _ & _ & Hfb & _).
    destruct (Hfb adc_clk bus_clk) as (Hz & _).
    + reflexivity.
    + reflexivity.
    + vm_compute. discriminate.
    + intros d Hd. vm_compute in Hd.
      repeat (destruct Hd as [<-|Hd]; [reflexivity|]). contradiction Hd.
    + apply Hz. reflexivity.
  - destruct (clk_sel_missing_clock_codes (clocks_env 300000000 400000000)
                mainline_h h7)
      as (_ & _ & _ & _ & _ & _ & _ & _ & _ & Hfb & _).
    destruct (Hfb adc_clk bus_clk) as (_ & Hu).
    + reflexivity.
    + reflexivity.
    + vm_compute. discriminate.
    + intros d Hd. vm_compute in Hd.
      repeat (destruct Hd as [<-|Hd]; [reflexivity|]). contradiction Hd.
    + apply Hu.
      * vm_compute. discriminate.
      * intros d Hd. vm_compute in Hd.
        repeat (destruct Hd as [<-|Hd]; [reflexivity|]). contradiction Hd.
Defined.

(** C8, as the specification words it, fails: on stm32f4 an absent adc clock
    and an adc clock at rate 0 are reported with two different codes
    (-ENOENT and -EINVAL), and the code of the zero rate is the code of an
    unsatisfiable bound (adc clock at 400 MHz, bound 36 MHz).  On stm32h7 a
    bus clock at rate 0 does not make the selector fail when the adc clock
    (80 MHz here) fits. *)
Lemma clk_sel_no_clock_source_counterexample :
  let s := boot (board_priv (stm32f4_adc_priv_cfg mainline_h) 36000000) in
  let absent := fst (stm32f4_adc_clk_sel (clocks_env 0 0) mainline_h
                       (boot (without_aclk (priv s)))) in
  let zero_rate := fst (stm32f4_adc_clk_sel (clocks_env 0 0) mainline_h s) in
  let unsatisfiable :=
    fst (stm32f4_adc_clk_sel (clocks_env 400000000 0) mainline_h s) in
  let bus_zero :=
    fst (stm32h7_adc_clk_sel (clocks_env 80000000 0) mainline_h
           (boot (board_priv (stm32h7_adc_priv_cfg mainline_h) 36000000))) in
  absent = - ENOENT /\ zero_rate = - EINVAL /\ absent <> zero_rate /\
  zero_rate = unsatisfiable /\ bus_zero = 0.
Proof. cbv zeta. repeat split. discriminate. Qed.

(** C10. On stm32h7, an adc clock that is there but answers a rate of 0
    makes the selector return -EINVAL at once: the only call made is the
    read of that rate, the bus clock is not read, no register is written and
    the private data are left as they were, whatever the bus clock could
    have given. *)
Theorem stm32h7_zero_adc_rate_no_fallback env hdr s a b :
  aclk (priv s) = Some a -> bclk (priv s) = Some b ->
  env (log s) (ClkGetRate a) = 0 ->
  stm32h7_adc_clk_sel env hdr s =
  (- EINVAL, {| priv := priv s; mmio := mmio s;
                log := log s ++ [(ClkGetRate a, 0)] |}).
Proof.
  intros Ha Hb H0. unfold stm32h7_adc_clk_sel. run.
  rewrite Ha, Hb. run. rewrite H0. reflexivity.
Qed.

Lemma stm32h7_zero_adc_rate_no_fallback_witness :
  let env := clocks_env 0 30000000 in
  let s := boot (board_priv (stm32h7_adc_priv_cfg mainline_h) 36000000) in
  stm32h7_adc_clk_sel env mainline_h s =
    (- EINVAL, {| priv := priv s; mmio := mmio s;
                  log := log s ++ [(ClkGetRate adc_clk, 0)] |}) /\
  fst (stm32h7_adc_clk_sel env mainline_h (boot (without_aclk (priv s)))) = 0 /\
  common_rate (priv (snd (stm32h7_adc_clk_sel env mainline_h
                            (boot (without_aclk (priv s)))))) = 30000000.
Proof.
  intros env s. split; [|split; reflexivity].
  apply (stm32h7_zero_adc_rate_no_fallback env mainline_h s adc_clk bus_clk);
    reflexivity.
Defined.

(** ** Probe: the bound given to the selector *)

Lemma clk_sel_keeps_max_clk_rate env hdr f s :
  max_clk_rate (priv (snd (call_clk_sel env hdr f s))) = max_clk_rate (priv s).
Proof.
  assert (Hsync : forall b s0,
    max_clk_rate (priv (snd (stm32h7_sync env hdr b s0))) = max_clk_rate (priv s0)).
  { intros b s0. unfold stm32h7_sync, stm32h7_out. run.
    destruct (_ =? 0); [reflexivity|].
    destruct (stm32h7_scan _ _ _ _); reflexivity. }
  destruct f; cbn [call_clk_sel].
  - unfold stm32f4_adc_clk_sel. run.
    destruct (aclk (priv s)); [|reflexivity]. run.
    destruct (_ =? 0); [reflexivity|].
    destruct (_ <=? _)%nat; reflexivity.
  - unfold stm32h7_adc_clk_sel. run.
    destruct (bclk (priv s)) as [b|]; [|reflexivity].
    destruct (aclk (priv s)); [|apply Hsync]. run.
    destruct (_ =? 0); [reflexivity|].
    destruct (stm32h7_scan _ _ _ _); [|now rewrite Hsync].
    unfold stm32h7_out. run. reflexivity.
Qed.

Lemma clk_sel_rate_le_bound env hdr f s :
  rates_unsigned env -> 0 <= max_clk_rate (priv s) < 2 ^ 32 ->
  fst (call_clk_sel env hdr f s) = 0 ->
  common_rate (priv (snd (call_clk_sel env hdr f s))) <= max_clk_rate (priv s).
Proof.
  intros Henv Hmax H0.
  destruct f; cbn [call_clk_sel] in *.
  - destruct (stm32f4_clk_sel_fit env hdr s Henv Hmax H0)
      as (c & rate & d & val & _ & _ & _ & _ & Hfit & ->).
    apply Hfit.
  - destruct (stm32h7_clk_sel_fit env hdr s Henv Hmax H0)
      as (c & rate & sp & pre & val & _ & _ & _ & _ & _ & Hfit & ->).
    apply Hfit.
Qed.

(** C9. In probe, the bound the clock selector is called with is
    min(override, datasheet maximum) when the st,max-clk-rate-hz property
    is read, and the datasheet maximum of the compatible otherwise.  In both
    cases it is at most the datasheet maximum, the selector leaves it as it
    is, and a rate published by a selector that succeeds is at most the
    datasheet maximum. *)
Theorem probe_max_clk_rate env hdr dt s :
  let hz := max_clk_rate_hz (cfg (priv s)) in
  let r := stm32_adc_probe_clk_sel env hdr dt s in
  (forall v, dt = Some v ->
     r = call_clk_sel env hdr (clk_sel (cfg (priv s)))
           (with_max_clk_rate s (Z.min v hz)) /\
     max_clk_rate (priv (snd r)) = Z.min v hz) /\
  (dt = None ->
     r = call_clk_sel env hdr (clk_sel (cfg (priv s))) (with_max_clk_rate s hz) /\
     max_clk_rate (priv (snd r)) = hz) /\
  max_clk_rate (priv (snd r)) <= hz /\
  (rates_unsigned env -> 0 <= hz < 2 ^ 32 ->
   (forall v, dt = Some v -> 0 <= v) ->
   fst r = 0 -> common_rate (priv (snd r)) <= hz).
Proof.
  intros hz r.
  assert (Hrun : r = call_clk_sel env hdr (clk_sel (cfg (priv s)))
                       (with_max_clk_rate s
                          match dt with Some v => Z.min v hz | None => hz end)).
  { subst r hz. unfold stm32_adc_probe_clk_sel, with_max_clk_rate. run.
    destruct dt; reflexivity. }
  assert (Hmax : max_clk_rate (priv (snd r)) =
                 match dt with Some v => Z.min v hz | None => hz end).
  { rewrite Hrun, clk_sel_keeps_max_clk_rate. reflexivity. }
  split; [|split; [|split]].
  - intros v ->. now split.
  - intros ->. now split.
  - rewrite Hmax. destruct dt; lia.
  - intros Henv Hhz Hv H0. rewrite Hrun in H0 |- *.
    etransitivity; [apply clk_sel_rate_le_bound; try assumption|].
    + cbn. destruct dt as [v|]; [specialize (Hv v eq_refl)|]; lia.
    + cbn. destruct dt; lia.
Qed.

Lemma probe_max_clk_rate_witness :
  let env := clocks_env 80000000 200000000 in
  let s := boot (board_priv (stm32f4_adc_priv_cfg mainline_h) 0) in
  max_clk_rate (priv (snd (stm32_adc_probe_clk_sel env mainline_h
                             (Some 50000000) s))) = 36000000 /\
  max_clk_rate (priv (snd (stm32_adc_probe_clk_sel env mainline_h
                             (Some 9000000) s))) = 9000000 /\
  max_clk_rate (priv (snd (stm32_adc_probe_clk_sel env mainline_h None s)))
    = 36000000 /\
  common_rate (priv (snd (stm32_adc_probe_clk_sel env mainline_h
                            (Some 50000000) s))) <= 36000000.
Proof.
  intros env s.
  assert (Henv : rates_unsigned env)
    by (intros l c; unfold env, clocks_env; destruct (Nat.eqb c adc_clk); lia).
  destruct (probe_max_clk_rate env mainline_h (Some 50000000) s)
    as (Hsome & _ & _ & Hrate).
  destruct (probe_max_clk_rate env mainline_h (Some 9000000) s)
    as (Hlow & _).
  destruct (probe_max_clk_rate env mainline_h None s) as (_ & Hnone & _).
  split; [|split; [|split]].
  - apply (Hsome 50000000 eq_refl).
  - apply (Hlow 9000000 eq_refl).
  - apply (Hnone eq_refl).
  - apply Hrate; try assumption.
    + cbn. lia.
    + intros v [= <-]. lia.
    + reflexivity.
Defined.

(** ** Interrupt demultiplexing *)

Lemma deliveries_app l1 l2 : deliveries (l1 ++ l2) = deliveries l1 ++ deliveries l2.
Proof.
  induction l1 as [|[o r] l1 IH]; [reflexivity|].
  cbn [app deliveries]. destruct o; cbn; now rewrite IH.
Qed.

Lemma skipn_length_app {A} (l1 l2 : list A) : skipn (length l1) (l1 ++ l2) = l2.
Proof. induction l1; cbn; auto. Qed.

Lemma raise_if_app env l b n :
  exists evs, raise_if env l b n = l ++ evs /\
              deliveries evs = if b then [n] else [].
Proof.
  destruct b; cbn.
  - eexists. split; reflexivity.
  - exists []. now rewrite app_nil_r.
Qed.

(* how the steps of the handler act on the state *)
Lemma bind_get_priv {A} (k : stm32_adc_priv -> M A) s :
  bind get_priv k s = k (priv s) s.
Proof. reflexivity. Qed.

Lemma bind_readl {A} a (k : Z -> M A) s :
  bind (readl_relaxed a) k s = k (u32 (mmio s a)) s.
Proof. reflexivity. Qed.

Lemma bind_call_ {A} env o (k : unit -> M A) s :
  bind (call_ env o) k s =
  k tt {| priv := priv s; mmio := mmio s;
          log := log s ++ [(o, env (log s) o)] |}.
Proof. reflexivity. Qed.

Lemma bind_raise {A} env (b : bool) n (k : unit -> M A) s :
  bind (if b then generic_handle_irq env n else ret tt) k s =
  k tt {| priv := priv s; mmio := mmio s; log := raise_if env (log s) b n |}.
Proof. destruct b, s; reflexivity. Qed.

Lemma bind_raise_enabled {A} env hdr (b : bool) i n (k : unit -> M A) s :
  bind (if b then
          bind (stm32_adc_eoc_enabled hdr i)
            (fun en => if negb (en =? 0) then generic_handle_irq env n
                       else ret tt)
        else ret tt) k s =
  k tt {| priv := priv s; mmio := mmio s;
          log := raise_if env (log s)
                   (b && negb (fst (stm32_adc_eoc_enabled hdr i s) =? 0)) n |}.
Proof.
  destruct b; cbn [andb].
  - unfold stm32_adc_eoc_enabled. run.
    destruct (negb _), s; reflexivity.
  - destruct s; reflexivity.
Qed.

(* one run of the handler, call by call *)
Lemma stm32_adc_irq_handler_run env hdr s :
  let r := regs (cfg (priv s)) in
  let status := csr_status s in
  let en i := fst (stm32_adc_eoc_enabled hdr i s) in
  let l0 := log s ++ [(ChainedIrqEnter, env (log s) ChainedIrqEnter)] in
  let l1 := raise_if env l0
              (negb (Z.land status (eoc1_msk r) =? 0) && negb (en 0%nat =? 0)) 0 in
  let l2 := raise_if env l1
              (negb (Z.land status (eoc2_msk r) =? 0) && negb (en 1%nat =? 0)) 1 in
  let l3 := raise_if env l2
              (negb (Z.land status (eoc3_msk r) =? 0) && negb (en 2%nat =? 0)) 2 in
  let l4 := raise_if env l3 (negb (Z.land status (jeoc1_msk r) =? 0)) 3 in
  let l5 := raise_if env l4 (negb (Z.land status (jeoc2_msk r) =? 0)) 4 in
  let l6 := raise_if env l5 (negb (Z.land status (jeoc3_msk r) =? 0)) 5 in
  stm32_adc_irq_handler env hdr s =
  (tt, {| priv := priv s; mmio := mmio s;
          log := l6 ++ [(ChainedIrqExit, env l6 ChainedIrqExit)] |}).
Proof.
  cbv zeta. unfold stm32_adc_irq_handler.
  rewrite bind_get_priv. cbv beta zeta.
  rewrite bind_call_, bind_readl.
  rewrite !bind_raise_enabled. rewrite !bind_raise.
  reflexivity.
Qed.

Lemma irq_deliveries_spec env hdr s :
  irq_deliveries env hdr s =
  flat_map (fun i => if eoc_raised hdr s i then [hwirq_of i false] else [])
    [0; 1; 2]%nat ++
  flat_map (fun i => if jeoc_raised s i then [hwirq_of i true] else [])
    [0; 1; 2]%nat.
Proof.
  unfold irq_deliveries. rewrite stm32_adc_irq_handler_run. cbv zeta.
  cbn [snd log flat_map]. fold (eoc_raised hdr s 0) (eoc_raised hdr s 1)
    (eoc_raised hdr s 2) (jeoc_raised s 0) (jeoc_raised s 1) (jeoc_raised s 2).
  repeat match goal with
  | |- context [raise_if env ?l ?b ?n] =>
      let evs := fresh "evs" in let E := fresh "E" in let D := fresh "D" in
      destruct (raise_if_app env l b n) as (evs & E & D); rewrite E; clear E
  end.
  rewrite <- !app_assoc, skipn_length_app.
  cbn [app deliveries]. rewrite !deliveries_app. cbn [deliveries].
  rewrite D, D0, D1, D2, D3, D4. reflexivity.
Qed.

Lemma eoc_raised_iff hdr s i :
  eoc_raised hdr s i = true <->
  Z.land (csr_status s) (eoc_msk (regs (cfg (priv s))) i) <> 0 /\
  fst (stm32_adc_eoc_enabled hdr i s) <> 0.
Proof.
  unfold eoc_raised. rewrite andb_true_iff, !negb_true_iff, !Z.eqb_neq. tauto.
Qed.

Lemma jeoc_raised_iff s i :
  jeoc_raised s i = true <->
  Z.land (csr_status s) (jeoc_msk (regs (cfg (priv s))) i) <> 0.
Proof. unfold jeoc_raised. now rewrite negb_true_iff, Z.eqb_neq. Qed.

(* the handler raises the line of (i, kind) exactly when its test holds *)
Lemma irq_deliveries_in env hdr s (i : nat) :
  (i < 3)%nat ->
  (In (hwirq_of i false) (irq_deliveries env hdr s) <-> eoc_raised hdr s i = true) /\
  (In (hwirq_of i true) (irq_deliveries env hdr s) <-> jeoc_raised s i = true).
Proof.
  intros Hi. rewrite irq_deliveries_spec. cbn [flat_map]. rewrite !app_nil_r.
  destruct i as [|[|[|i]]]; [| | |lia];
    destruct (eoc_raised hdr s 0), (eoc_raised hdr s 1), (eoc_raised hdr s 2),
      (jeoc_raised s 0), (jeoc_raised s 1), (jeoc_raised s 2);
    cbn; split; split; intros H; try reflexivity; try discriminate;
    try tauto; try (repeat (destruct H as [H|H]; try discriminate H); tauto).
Qed.

Lemma irq_deliveries_nodup env hdr s : NoDup (irq_deliveries env hdr s).
Proof.
  rewrite irq_deliveries_spec. cbn [flat_map]. rewrite !app_nil_r.
  destruct (eoc_raised hdr s 0), (eoc_raised hdr s 1), (eoc_raised hdr s 2),
    (jeoc_raised s 0), (jeoc_raised s 1), (jeoc_raised s 2); cbn;
    repeat constructor; cbn; intros H;
    repeat (destruct H as [H|H]; try discriminate H); exact H.
Qed.

Lemma stm32_adc_eoc_enabled_reads hdr s (i : nat) :
  (i < 3)%nat ->
  fst (stm32_adc_eoc_enabled hdr i s) =
  Z.land (u32 (mmio s (Z.of_nat i * STM32_ADC_OFFSET hdr
                       + ier (regs (cfg (priv s))))))
         (eocie_msk (regs (cfg (priv s)))).
Proof.
  intros Hi. unfold stm32_adc_eoc_enabled, stm32_adc_offset. run.
  destruct i as [|[|[|i]]]; [| | |lia]; cbn [nth fst];
    do 3 f_equal; lia.
Qed.

Lemma irq_deliveries_none env hdr s :
  (forall j, (j < 3)%nat -> eoc_raised hdr s j = false) ->
  (forall j, (j < 3)%nat -> jeoc_raised s j = false) ->
  irq_deliveries env hdr s = [].
Proof.
  intros He Hj. rewrite irq_deliveries_spec. cbn [flat_map].
  rewrite !He, !Hj by lia. reflexivity.
Qed.

(* line i for the regular conversions of instance i, line 3 + i for its
   injected conversions *)
Lemma irq_lines_iff env hdr s (i : nat) :
  (i < 3)%nat ->
  (In (Z.of_nat i) (irq_deliveries env hdr s) <->
   Z.land (csr_status s) (eoc_msk (regs (cfg (priv s))) i) <> 0 /\
   fst (stm32_adc_eoc_enabled hdr i s) <> 0) /\
  (In (3 + Z.of_nat i) (irq_deliveries env hdr s) <->
   Z.land (csr_status s) (jeoc_msk (regs (cfg (priv s))) i) <> 0).
Proof.
  intros Hi. destruct (irq_deliveries_in env hdr s i Hi) as (Hr & Hj).
  rewrite <- eoc_raised_iff, <- jeoc_raised_iff. split; assumption.
Qed.

(** C1, as the code has it.  The handler raises line i of its domain for
    the regular conversions of instance i and line 3 + i for its injected
    conversions (i = 0, 1, 2), and no other line.  When the status word has
    bits of the injected mask of instance 1 and of no other mask, one event
    is delivered, on line 4 = 3 + 1, whatever the interrupt enable registers
    hold. *)
Theorem irq_line_numbers env hdr s :
  let r := regs (cfg (priv s)) in
  let D := irq_deliveries env hdr s in
  (forall i, (i < 3)%nat ->
     (In (Z.of_nat i) D <->
      Z.land (csr_status s) (eoc_msk r i) <> 0 /\
      fst (stm32_adc_eoc_enabled hdr i s) <> 0) /\
     (In (3 + Z.of_nat i) D <-> Z.land (csr_status s) (jeoc_msk r i) <> 0)) /\
  (forall n, In n D -> 0 <= n < 6) /\
  (Z.land (csr_status s) (jeoc_msk r 1) <> 0 ->
   (forall j, (j < 3)%nat -> Z.land (csr_status s) (eoc_msk r j) = 0) ->
   (forall j, (j < 3)%nat -> j <> 1%nat ->
      Z.land (csr_status s) (jeoc_msk r j) = 0) ->
   D = [3 + 1]).
Proof.
  cbv zeta. split; [|split].
  - intros i Hi. now apply irq_lines_iff.
  - intros n. rewrite irq_deliveries_spec. cbn [flat_map]. rewrite !app_nil_r.
    destruct (eoc_raised hdr s 0), (eoc_raised hdr s 1), (eoc_raised hdr s 2),
      (jeoc_raised s 0), (jeoc_raised s 1), (jeoc_raised s 2); cbn;
      intros H; repeat (destruct H as [<-|H]; [lia|]); contradiction.
  - intros H1 He Hj. rewrite irq_deliveries_spec. cbn [flat_map].
    assert (Hr : forall j, (j < 3)%nat -> eoc_raised hdr s j = false).
    { intros j Hlt. unfold eoc_raised. rewrite (He j Hlt). reflexivity. }
    assert (Hi : forall j, (j < 3)%nat -> j <> 1%nat -> jeoc_raised s j = false).
    { intros j Hlt Hne. unfold jeoc_raised. rewrite (Hj j Hlt Hne). reflexivity. }
    apply jeoc_raised_iff in H1.
    rewrite !Hr, H1, !Hi by lia. reflexivity.
Qed.

Lemma irq_line_numbers_witness :
  let env := clocks_env 0 0 in
  let p := board_priv (stm32f4_adc_priv_cfg mainline_h) 0 in
  irq_deliveries env mainline_h (irq_state p STM32F4_JEOC2 0) = [3 + 1] /\
  irq_deliveries env mainline_h (irq_state p STM32F4_JEOC2 (2 ^ 32 - 1)) = [3 + 1].
Proof.
  intros env p. split.
  - apply (irq_line_numbers env mainline_h (irq_state p STM32F4_JEOC2 0)).
    + vm_compute. discriminate.
    + intros [|[|[|j]]] Hj; [reflexivity | reflexivity | reflexivity | lia].
    + intros [|[|[|j]]] Hj Hne; [reflexivity | contradiction | reflexivity | lia].
  - apply (irq_line_numbers env mainline_h (irq_state p STM32F4_JEOC2 (2 ^ 32 - 1))).
    + vm_compute. discriminate.
    + intros [|[|[|j]]] Hj; [reflexivity | reflexivity | reflexivity | lia].
    + intros [|[|[|j]]] Hj Hne; [reflexivity | contradiction | reflexivity | lia].
Defined.

(** C1, as the specification words it, fails: on stm32f4, with only the
    JEOC bit of adc2 (instance 1) set in the status register, the one event
    is delivered on line 4 of the domain, not on line 2*1+1 = 3; line 3 is
    the injected line of instance 0.  This holds with the enable registers
    all clear and all set. *)
Lemma irq_line_numbers_counterexample :
  let env := clocks_env 0 0 in
  let p := board_priv (stm32f4_adc_priv_cfg mainline_h) 0 in
  irq_deliveries env mainline_h (irq_state p STM32F4_JEOC2 0) = [4] /\
  irq_deliveries env mainline_h (irq_state p STM32F4_JEOC2 (2 ^ 32 - 1)) = [4] /\
  ~ In (2 * 1 + 1) (irq_deliveries env mainline_h (irq_state p STM32F4_JEOC2 0)) /\
  irq_deliveries env mainline_h (irq_state p STM32F4_JEOC1 0) = [2 * 1 + 1].
Proof.
  cbv zeta. split; [reflexivity|]. split; [reflexivity|]. split; [|reflexivity].
  vm_compute. intros [H|[]]. discriminate H.
Qed.

(** C2. For each instance i = 0, 1, 2 one run of the handler raises the
    regular line of i exactly when the status word has a bit of the
    regular mask of i and the enable bit (eocie_msk) is set in the interrupt
    enable register of i, which is read at offset i * STM32_ADC_OFFSET + ier.
    It raises the injected line of i exactly when the status word has a bit
    of the injected mask of i, the enable bit playing no part.  So a regular
    bit with the enable bit clear does not raise the regular line, and when
    nothing else is pending no line is raised at all.  No line is raised
    twice. *)
Theorem irq_dispatch_gating env hdr s (i : nat) :
  (i < 3)%nat ->
  let r := regs (cfg (priv s)) in
  let D := irq_deliveries env hdr s in
  let enabled :=
    Z.land (u32 (mmio s (Z.of_nat i * STM32_ADC_OFFSET hdr + ier r)))
           (eocie_msk r) in
  fst (stm32_adc_eoc_enabled hdr i s) = enabled /\
  (In (Z.of_nat i) D <->
   Z.land (csr_status s) (eoc_msk r i) <> 0 /\ enabled <> 0) /\
  (In (3 + Z.of_nat i) D <-> Z.land (csr_status s) (jeoc_msk r i) <> 0) /\
  (enabled = 0 -> ~ In (Z.of_nat i) D) /\
  (enabled = 0 ->
   (forall j, (j < 3)%nat -> j <> i -> Z.land (csr_status s) (eoc_msk r j) = 0) ->
   (forall j, (j < 3)%nat -> Z.land (csr_status s) (jeoc_msk r j) = 0) ->
   D = []) /\
  NoDup D.
Proof.
  intros Hi. cbv zeta.
  rewrite <- (stm32_adc_eoc_enabled_reads hdr s i Hi).
  destruct (irq_lines_iff env hdr s i Hi) as (Hreg & Hinj).
  split; [reflexivity|]. split; [exact Hreg|]. split; [exact Hinj|].
  split; [|split].
  - intros H0 Hin. apply Hreg in Hin. tauto.
  - intros H0 He Hj. apply irq_deliveries_none.
    + intros j Hlt. unfold eoc_raised.
      destruct (Nat.eq_dec j i) as [->|Hne].
      * rewrite H0. cbn. apply andb_false_r.
      * rewrite (He j Hlt Hne). reflexivity.
    + intros j Hlt. unfold jeoc_raised. rewrite (Hj j Hlt). reflexivity.
  - apply irq_deliveries_nodup.
Qed.

Lemma irq_dispatch_gating_witness :
  let env := clocks_env 0 0 in
  let p := board_priv (stm32f4_adc_priv_cfg mainline_h) 0 in
  irq_deliveries env mainline_h (irq_state p STM32F4_EOC1 0) = [] /\
  In 0 (irq_deliveries env mainline_h (irq_state p STM32F4_EOC1 (BIT 5))).
Proof.
  intros env p. split.
  - apply (irq_dispatch_gating env mainline_h (irq_state p STM32F4_EOC1 0) 0).
    + lia.
    + reflexivity.
    + intros [|[|[|j]]] Hj Hne; [contradiction | reflexivity | reflexivity | lia].
    + intros [|[|[|j]]] Hj; [reflexivity | reflexivity | reflexivity | lia].
  - apply (irq_dispatch_gating env mainline_h
             (irq_state p STM32F4_EOC1 (BIT 5)) 0); [lia|].
    split; vm_compute; discriminate.
Defined.

(** ** Analog switches supply *)

Lemma regulator_count_app r l1 l2 :
  regulator_count r (l1 ++ l2) = regulator_count r l1 + regulator_count r l2.
Proof.
  induction l1 as [|[o a] l1 IH]; [reflexivity|].
  cbn [app regulator_count]. destruct o; rewrite IH; lia.
Qed.

Lemma with_log_id s : with_log s (log s) = s.
Proof. now destruct s. Qed.

Lemma booster_write_call env p bm en_booster :
  match regmap (vbooster_clr p) with
  | Some cm =>
      if negb (en_booster =? 0) then
        regmap_update_bits env bm (reg (vbooster p)) (mask (vbooster p)) en_booster
      else
        regmap_write env cm (reg (vbooster_clr p)) (mask (vbooster_clr p))
  | None =>
      regmap_update_bits env bm (reg (vbooster p)) (mask (vbooster p)) en_booster
  end = call env (booster_op p bm en_booster).
Proof.
  unfold booster_op. destruct (regmap (vbooster_clr p)); [|reflexivity].
  destruct (en_booster =? 0); reflexivity.
Qed.

Lemma anaswvdd_write_call env p am v :
  match regmap (anaswvdd_clr p) with
  | Some cm =>
      if negb (v =? 0) then
        regmap_update_bits env am (reg (anaswvdd p)) (mask (anaswvdd p)) v
      else
        regmap_write env cm (reg (anaswvdd_clr p)) (mask (anaswvdd_clr p))
  | None =>
      regmap_update_bits env am (reg (anaswvdd p)) (mask (anaswvdd p)) v
  end = call env (anaswvdd_op p am v).
Proof.
  unfold anaswvdd_op. destruct (regmap (anaswvdd_clr p)); [|reflexivity].
  destruct (v =? 0); reflexivity.
Qed.

Lemma booster_clear_run env bm s :
  booster_clear env bm s =
  (tt, with_log s (log s ++ [(booster_op (priv s) bm 0,
                              env (log s) (booster_op (priv s) bm 0))])).
Proof.
  unfold booster_clear, booster_op. run.
  destruct (regmap (vbooster_clr (priv s))); reflexivity.
Qed.

Lemma vdd_disable_run env s :
  exists evs,
    vdd_disable env s = (tt, with_log s (log s ++ evs)) /\
    map fst evs = match vdd (priv s), regmap (anaswvdd (priv s)) with
                  | Some rd, Some _ => [RegulatorDisable rd]
                  | _, _ => []
                  end /\
    forall r, regulator_count r evs =
              - regulator_count r
                  (enables match vdd (priv s), regmap (anaswvdd (priv s)) with
                           | Some rd, Some _ => [rd]
                           | _, _ => []
                           end).
Proof.
  unfold vdd_disable. run.
  destruct (vdd (priv s)) as [rd|];
    [destruct (regmap (anaswvdd (priv s))) as [am|]|];
    try (exists []; rewrite app_nil_r, with_log_id; now repeat split).
  run. eexists. split; [reflexivity|]. split; [reflexivity|].
  intros r. cbn. destruct (Nat.eqb rd r); cbn; lia.
Qed.

Lemma regulator_count_booster_op r p bm v a :
  regulator_count r [(booster_op p bm v, a)] = 0.
Proof.
  unfold booster_op. destruct (regmap (vbooster_clr p)); [|reflexivity].
  destruct (v =? 0); reflexivity.
Qed.

Lemma regulator_count_anaswvdd_op r p am v a :
  regulator_count r [(anaswvdd_op p am v, a)] = 0.
Proof.
  unfold anaswvdd_op. destruct (regmap (anaswvdd_clr p)); [|reflexivity].
  destruct (v =? 0); reflexivity.
Qed.

Lemma bind_call {A} env o (k : Z -> M A) s :
  bind (call env o) k s =
  k (env (log s) o) (with_log s (log s ++ [(o, env (log s) o)])).
Proof. reflexivity. Qed.

Lemma bind_run {A B} (c : M A) (k : A -> M B) s a s' :
  c s = (a, s') -> bind c k s = k a s'.
Proof. intros H. unfold bind. now rewrite H. Qed.

Lemma regulator_disable_run env r s :
  regulator_disable env r s =
  (tt, with_log s (log s ++ [(RegulatorDisable r,
                              env (log s) (RegulatorDisable r))])).
Proof. reflexivity. Qed.

Lemma stm32_adc_switches_supply_dis_run env s :
  exists evs,
    stm32_adc_switches_supply_dis env s = (tt, with_log s (log s ++ evs)) /\
    map fst evs = supply_dis_ops (priv s) /\
    forall r, regulator_count r evs =
              - regulator_count r (enables (supply_regulators (priv s))).
Proof.
  unfold stm32_adc_switches_supply_dis, supply_dis_ops, supply_regulators.
  rewrite bind_get_priv.
  destruct (vdda (priv s)) as [ra|];
    [destruct (regmap (vbooster (priv s))) as [bm|]|];
    try (exists []; rewrite app_nil_r, with_log_id; now repeat split).
  assert (Hsel : exists l,
    (forall A (k : unit -> M A),
      bind match regmap (anaswvdd (priv s)) with
           | Some am =>
               match regmap (anaswvdd_clr (priv s)) with
               | Some cm =>
                   _ <- regmap_write env cm (reg (anaswvdd_clr (priv s)))
                          (mask (anaswvdd_clr (priv s))) ;; ret tt
               | None =>
                   _ <- regmap_update_bits env am (reg (anaswvdd (priv s)))
                          (mask (anaswvdd (priv s))) 0 ;; ret tt
               end
           | None => ret tt
           end k s = k tt (with_log s (log s ++ l))) /\
    map fst l = match regmap (anaswvdd (priv s)) with
                | Some am => [anaswvdd_op (priv s) am 0]
                | None => []
                end /\
    forall r, regulator_count r l = 0).
  { unfold anaswvdd_op.
    destruct (regmap (anaswvdd (priv s))) as [am|];
      [destruct (regmap (anaswvdd_clr (priv s))) as [cm|]|].
    - eexists [_]. split; [intros A k; reflexivity|]. now split.
    - eexists [_]. split; [intros A k; reflexivity|]. now split.
    - exists []. split; [|now split]. intros A k.
      now rewrite app_nil_r, with_log_id. }
  destruct Hsel as (l1 & -> & Hops1 & Hcnt1).
  rewrite (bind_run _ _ _ _ _ (booster_clear_run env bm _)).
  destruct (vdd_disable_run env
              (with_log (with_log s (log s ++ l1))
                 (log (with_log s (log s ++ l1)) ++
                    [(booster_op (priv (with_log s (log s ++ l1))) bm 0,
                      env (log (with_log s (log s ++ l1)))
                        (booster_op (priv (with_log s (log s ++ l1))) bm 0))])))
    as (l3 & Hrun3 & Hops3 & Hcnt3).
  rewrite (bind_run _ _ _ _ _ Hrun3), regulator_disable_run.
  cbn [priv mmio log with_log] in *.
  eexists. split; [|split].
  - unfold with_log. cbn [priv mmio log]. rewrite <- !app_assoc. reflexivity.
  - unfold event in *. rewrite !map_app, Hops1, Hops3. reflexivity.
  - intros r.
    rewrite !regulator_count_app, Hcnt1, Hcnt3, regulator_count_booster_op.
    change (enables (ra :: ?l)) with ((RegulatorEnable ra, 0) :: enables l).
    cbn [regulator_count].
    match goal with |- context [regulator_count r ?l] =>
      generalize (regulator_count r l) end.
    intros c. destruct (Nat.eqb ra r); cbn [andb]; change (0 <=? 0) with true; cbv iota; lia.
Qed.

(* the second half of stm32_adc_switches_supply_en: its first call applies
   the booster setting; when that call answers 0 the driver waits if the
   booster was switched on, then applies the supply selection if there is
   such a cell.  The private data and the registers are left alone, and a
   run that returns 0 has called no regulator. *)
Lemma switches_supply_apply_run env ra bm va vd s :
  let av := fst (switches_supply_setting (priv s) va vd) in
  let eb := snd (switches_supply_setting (priv s) va vd) in
  let first := booster_op (priv s) bm eb in
  let r := env (log s) first in
  let wait := if eb =? 0 then []
              else [(UsleepRange 50 100,
                     env (log s ++ [(first, r)]) (UsleepRange 50 100))] in
  exists evs,
    snd (switches_supply_apply env ra bm va vd s) =
      with_log s (log s ++ (first, r) :: evs) /\
    (fst (switches_supply_apply env ra bm va vd s) = 0 ->
     forall x, regulator_count x evs = 0) /\
    (r = 0 ->
     match regmap (anaswvdd (priv s)) with
     | Some am =>
         exists r2 rest, evs = wait ++ (anaswvdd_op (priv s) am av, r2) :: rest
     | None => evs = wait
     end).
Proof.
  cbv zeta. unfold switches_supply_apply.
  rewrite bind_get_priv.
  destruct (switches_supply_setting (priv s) va vd) as [av eb]. cbn [fst snd].
  rewrite booster_write_call, bind_call.
  set (first := booster_op (priv s) bm eb).
  set (r := env (log s) first).
  set (s1 := with_log s (log s ++ [(first, r)])).
  assert (Hdis : forall x s0 l, s0 = with_log s (log s ++ (first, r) :: l) ->
    exists more,
      snd (vdd_dis env ra x s0) =
        with_log s (log s ++ (first, r) :: l ++ more) /\
      fst (vdd_dis env ra x s0) = x).
  { intros x s0 l ->. unfold vdd_dis, vdda_dis.
    destruct (vdd_disable_run env (with_log s (log s ++ (first, r) :: l)))
      as (evs & Hrun & _ & _).
    rewrite (bind_run _ _ _ _ _ Hrun).
    rewrite (bind_run _ _ _ _ _ (regulator_disable_run env ra _)).
    eexists. split; [|reflexivity].
    unfold with_log, ret. cbn [priv mmio log snd]. rewrite <- !app_assoc.
    reflexivity. }
  destruct (Z.eqb_spec r 0) as [Hr|Hr]; cbn [negb].
  2:{ destruct (Hdis r s1 [] eq_refl) as (evs & Hs & Hf).
      exists evs. split; [exact Hs|]. rewrite Hf.
      split; intros; contradiction. }
  set (wait := if eb =? 0 then []
               else [(UsleepRange 50 100, env (log s1) (UsleepRange 50 100))]).
  assert (Hwait0 : forall x, regulator_count x wait = 0)
    by (intros x; unfold wait; destruct (eb =? 0); reflexivity).
  assert (Husleep : forall A (k : unit -> M A),
      bind (if negb (eb =? 0) then usleep_range env 50 100 else ret tt) k s1 =
      k tt (with_log s (log s ++ (first, r) :: wait))).
  { intros A k. unfold wait. destruct (eb =? 0); cbn [negb].
    - reflexivity.
    - unfold usleep_range. rewrite bind_call_. unfold s1, with_log.
      cbn [priv mmio log]. rewrite <- app_assoc. reflexivity. }
  rewrite Husleep. cbn [priv with_log].
  destruct (regmap (anaswvdd (priv s))) as [am|].
  2:{ exists wait. cbn [ret fst snd]. split; [reflexivity|].
      split; [intros _; exact Hwait0 | reflexivity]. }
  rewrite anaswvdd_write_call, bind_call. cbn [log with_log].
  match goal with |- context [env ?l0 (anaswvdd_op (priv s) am av)] =>
    set (r2 := env l0 (anaswvdd_op (priv s) am av)) end.
  destruct (Z.eqb_spec r2 0) as [Hr2|Hr2]; cbn [negb].
  - exists (wait ++ [(anaswvdd_op (priv s) am av, r2)]).
    cbn [ret fst snd]. split; [|split].
    + unfold with_log. cbn [priv mmio log]. rewrite <- app_assoc.
      cbn [app]. reflexivity.
    + intros _ x.
      rewrite regulator_count_app, Hwait0, regulator_count_anaswvdd_op.
      reflexivity.
    + intros _. now exists r2, [].
  - unfold booster_dis.
    rewrite (bind_run _ _ _ _ _ (booster_clear_run env bm _)).
    cbn [priv mmio log with_log].
    match goal with |- context [vdd_dis env ra r2 ?s0] =>
      edestruct (Hdis r2 s0) as (more & Hs & Hf) end.
    { unfold with_log. cbn [priv mmio log]. rewrite <- !app_assoc.
      cbn [app]. reflexivity. }
    eexists. split; [exact Hs|]. rewrite Hf.
    split; [intros; contradiction|].
    intros _. exists r2. eexists. rewrite <- app_assoc. reflexivity.
Qed.

Lemma regulator_count_enable x r a l :
  0 <= a ->
  regulator_count x ((RegulatorEnable r, a) :: l) =
  regulator_count x (enables [r]) + regulator_count x l.
Proof.
  intros Ha. cbn [enables map regulator_count].
  apply Z.leb_le in Ha. rewrite Ha. change (0 <=? 0) with true. lia.
Qed.

Lemma regulator_count_enables_cons x r l :
  regulator_count x (enables (r :: l)) =
  regulator_count x (enables [r]) + regulator_count x (enables l).
Proof.
  change (enables (r :: l)) with ((RegulatorEnable r, 0) :: enables l).
  change (enables [r]) with [(RegulatorEnable r, 0)].
  cbn [regulator_count]. generalize (regulator_count x (enables l)).
  intros c. destruct (Nat.eqb r x && (0 <=? 0)); lia.
Qed.

(* stm32_adc_switches_supply_en leaves the private data and the registers
   alone; when it returns 0 the regulators it has enabled, and not disabled
   again, are those of [supply_regulators] *)
Lemma stm32_adc_switches_supply_en_run env s :
  exists evs,
    snd (stm32_adc_switches_supply_en env s) = with_log s (log s ++ evs) /\
    (fst (stm32_adc_switches_supply_en env s) = 0 ->
     forall x, regulator_count x evs =
               regulator_count x (enables (supply_regulators (priv s)))).
Proof.
  unfold stm32_adc_switches_supply_en, supply_regulators.
  rewrite bind_get_priv.
  destruct (vdda (priv s)) as [ra|];
    [destruct (regmap (vbooster (priv s))) as [bm|]|];
    try (exists []; rewrite app_nil_r, with_log_id; now split).
  unfold regulator_enable, regulator_get_voltage. rewrite bind_call.
  set (e1 := env (log s) (RegulatorEnable ra)).
  destruct (Z.ltb_spec e1 0) as [He1|He1].
  { eexists. split; [reflexivity|]. cbn [ret fst]. lia. }
  rewrite bind_call. cbn [log with_log].
  set (l1 := log s ++ [(RegulatorEnable ra, e1)]).
  set (va := env l1 (RegulatorGetVoltage ra)).
  destruct (Z.ltb_spec va 0) as [Hva|Hva].
  { unfold vdda_dis.
    rewrite (bind_run _ _ _ _ _ (regulator_disable_run env ra _)).
    eexists. split; [|cbn [ret fst]; lia].
    unfold ret, with_log. cbn [snd priv mmio log]. unfold l1.
    rewrite <- !app_assoc. reflexivity. }
  (* both voltages known: the settings are applied *)
  assert (Happly : forall vd l,
    (forall x, regulator_count x l =
               regulator_count x
                 (enables match vdd (priv s), regmap (anaswvdd (priv s)) with
                          | Some rd, Some _ => [rd]
                          | _, _ => []
                          end)) ->
    let s2 := with_log s ((l1 ++ [(RegulatorGetVoltage ra, va)]) ++ l) in
    exists evs,
      snd (switches_supply_apply env ra bm va vd s2) = with_log s (log s ++ evs) /\
      (fst (switches_supply_apply env ra bm va vd s2) = 0 ->
       forall x, regulator_count x evs =
                 regulator_count x
                   (enables (ra :: match vdd (priv s), regmap (anaswvdd (priv s)) with
                                   | Some rd, Some _ => [rd]
                                   | _, _ => []
                                   end)))).
  { intros vd l Hl s2.
    destruct (switches_supply_apply_run env ra bm va vd s2)
      as (evs & Hs & Hcnt & _).
    rewrite Hs. eexists. split.
    - unfold s2, l1, with_log. cbn [priv mmio log]. rewrite <- !app_assoc.
      reflexivity.
    - intros H0 x. specialize (Hcnt H0 x).
      rewrite regulator_count_enables_cons.
      cbn [app]. rewrite regulator_count_enable by lia.
      cbn [regulator_count]. rewrite regulator_count_app, Hl.
      change ((?e :: evs)) with ([e] ++ evs).
      rewrite regulator_count_app, regulator_count_booster_op, Hcnt. lia. }
  destruct (vdd (priv s)) as [rd|] eqn:Hvdd;
    [destruct (regmap (anaswvdd (priv s))) as [am|] eqn:Ham|].
  - rewrite bind_call. cbn [log with_log].
    set (l2 := l1 ++ [(RegulatorGetVoltage ra, va)]).
    set (e3 := env l2 (RegulatorEnable rd)).
    destruct (Z.ltb_spec e3 0) as [He3|He3].
    { unfold vdda_dis.
      rewrite (bind_run _ _ _ _ _ (regulator_disable_run env ra _)).
      eexists. split; [|cbn [ret fst]; lia].
      unfold ret, with_log. cbn [snd priv mmio log]. unfold l2, l1.
      rewrite <- !app_assoc. reflexivity. }
    rewrite bind_call. cbn [log with_log].
    set (vd := env (l2 ++ [(RegulatorEnable rd, e3)]) (RegulatorGetVoltage rd)).
    destruct (Z.ltb_spec vd 0) as [Hvd|Hvd].
    { unfold vdd_dis, vdda_dis.
      match goal with |- context [bind (vdd_disable env) _ ?s0] =>
        destruct (vdd_disable_run env s0) as (evs & Hrun & _ & _) end.
      rewrite (bind_run _ _ _ _ _ Hrun).
      rewrite (bind_run _ _ _ _ _ (regulator_disable_run env ra _)).
      eexists. split; [|cbn [ret fst]; lia].
      unfold ret, with_log. cbn [snd priv mmio log]. unfold l2, l1.
      rewrite <- !app_assoc. reflexivity. }
    destruct (Happly vd [(RegulatorEnable rd, e3); (RegulatorGetVoltage rd, vd)])
      as (evs & Hs & Hcnt).
    { intros x. rewrite regulator_count_enable by lia. cbn [regulator_count]. lia. }
    match goal with |- context [switches_supply_apply env ra bm va vd ?s0] =>
      replace s0
        with (with_log s ((l1 ++ [(RegulatorGetVoltage ra, va)]) ++
                [(RegulatorEnable rd, e3); (RegulatorGetVoltage rd, vd)]))
        by (unfold with_log, l2; cbn [priv mmio log];
            rewrite <- !app_assoc; reflexivity) end.
    exists evs. split; [exact Hs | exact Hcnt].
  - destruct (Happly 0 []) as (evs & Hs & Hcnt); [reflexivity|].
    rewrite app_nil_r in Hs, Hcnt.
    exists evs. split; [exact Hs | exact Hcnt].
  - destruct (Happly 0 []) as (evs & Hs & Hcnt); [reflexivity|].
    rewrite app_nil_r in Hs, Hcnt.
    exists evs. split; [exact Hs | exact Hcnt].
Qed.

(* with vdda, vdd and the two cells configured and the regulators answering,
   the settings are chosen from the two voltages read *)
Lemma stm32_adc_switches_supply_en_measured env s ra bm rd am va vd :
  vdda (priv s) = Some ra -> regmap (vbooster (priv s)) = Some bm ->
  vdd (priv s) = Some rd -> regmap (anaswvdd (priv s)) = Some am ->
  measures env s ra rd va vd ->
  exists l,
    map fst l = [RegulatorEnable ra; RegulatorGetVoltage ra;
                 RegulatorEnable rd; RegulatorGetVoltage rd] /\
    stm32_adc_switches_supply_en env s =
    switches_supply_apply env ra bm va vd (with_log s (log s ++ l)).
Proof.
  intros Ha Hb Hd Hm (He1 & Hva & Hva0 & He3 & Hvd & Hvd0).
  unfold stm32_adc_switches_supply_en.
  rewrite bind_get_priv, Ha, Hb, Hd, Hm.
  unfold regulator_enable, regulator_get_voltage.
  rewrite bind_call.
  destruct (Z.ltb_spec (env (log s) (RegulatorEnable ra)) 0); [lia|].
  rewrite bind_call. cbn [log with_log]. rewrite Hva.
  destruct (Z.ltb_spec va 0); [lia|].
  rewrite bind_call. cbn [log with_log].
  destruct (Z.ltb_spec
              (env ((log s ++ [(RegulatorEnable ra,
                                env (log s) (RegulatorEnable ra))]) ++
                    [(RegulatorGetVoltage ra, va)]) (RegulatorEnable rd)) 0);
    [lia|].
  rewrite bind_call. cbn [log with_log]. rewrite Hvd.
  destruct (Z.ltb_spec vd 0); [lia|].
  eexists [_; _; _; _]. split; cycle 1.
  - unfold with_log. cbn [priv mmio log]. rewrite <- !app_assoc. reflexivity.
  - reflexivity.
Qed.

(** C5. The settings of the analog switches supply follow the table:
    vdda above 2.7 V, booster off and supply selection off; vdda at most
    2.7 V with vdd below 2.7 V, booster on (its mask) and selection off;
    vdda at most 2.7 V with vdd at least 2.7 V, booster off and selection on
    (its mask).  So 2 800 000 gives (off, off), 2 600 000 / 2 500 000 gives
    (on, off) and 2 600 000 / 2 800 000 gives (off, on).  The voltages are
    those the regulators answered, and the first call made once they are
    known writes the booster setting; when it answers 0 the driver waits if
    the booster was switched on and then writes the selection. *)
Theorem switches_supply_policy env p vdda_uv vdd_uv :
  let anaswvdd_v := fst (switches_supply_setting p vdda_uv vdd_uv) in
  let en_booster := snd (switches_supply_setting p vdda_uv vdd_uv) in
  (2700000 < vdda_uv -> en_booster = 0 /\ anaswvdd_v = 0) /\
  (vdda_uv <= 2700000 -> vdd_uv < 2700000 ->
   en_booster = mask (vbooster p) /\ anaswvdd_v = 0) /\
  (vdda_uv <= 2700000 -> 2700000 <= vdd_uv ->
   en_booster = 0 /\ anaswvdd_v = mask (anaswvdd p)) /\
  (forall vdd_any, switches_supply_setting p 2800000 vdd_any = (0, 0)) /\
  switches_supply_setting p 2600000 2500000 = (0, mask (vbooster p)) /\
  switches_supply_setting p 2600000 2800000 = (mask (anaswvdd p), 0) /\
  (forall s ra bm rd am,
     priv s = p ->
     vdda p = Some ra -> regmap (vbooster p) = Some bm ->
     vdd p = Some rd -> regmap (anaswvdd p) = Some am ->
     measures env s ra rd vdda_uv vdd_uv ->
     exists l r evs,
       map fst l = [RegulatorEnable ra; RegulatorGetVoltage ra;
                    RegulatorEnable rd; RegulatorGetVoltage rd] /\
       log (snd (stm32_adc_switches_supply_en env s)) =
         log s ++ l ++ (booster_op p bm en_booster, r) :: evs /\
       (r = 0 ->
        exists r2 rest,
          evs = booster_wait env (log s ++ l ++ [(booster_op p bm en_booster, r)])
                  en_booster ++
                (anaswvdd_op p am anaswvdd_v, r2) :: rest)).
Proof.
  cbv zeta. unfold switches_supply_setting.
  split; [|split; [|split; [|split; [|split; [|split]]]]].
  - intros H. apply Z.ltb_lt in H. rewrite H. now split.
  - intros H1 H2. destruct (Z.ltb_spec 2700000 vdda_uv); [lia|].
    apply Z.ltb_lt in H2. rewrite H2. now split.
  - intros H1 H2. destruct (Z.ltb_spec 2700000 vdda_uv); [lia|].
    destruct (Z.ltb_spec vdd_uv 2700000); [lia|]. now split.
  - reflexivity.
  - reflexivity.
  - reflexivity.
  - intros s ra bm rd am <- Ha Hb Hd Hm Hmeas.
    destruct (stm32_adc_switches_supply_en_measured env s ra bm rd am
                vdda_uv vdd_uv Ha Hb Hd Hm Hmeas) as (l & Hl & ->).
    destruct (switches_supply_apply_run env ra bm vdda_uv vdd_uv
                (with_log s (log s ++ l))) as (evs & Hs & _ & Hsel).
    cbn [priv log with_log] in Hs, Hsel. rewrite Hm in Hsel.
    fold (switches_supply_setting (priv s) vdda_uv vdd_uv).
    exists l,
      (env (log s ++ l)
         (booster_op (priv s) bm
            (snd (switches_supply_setting (priv s) vdda_uv vdd_uv)))),
      evs.
    split; [exact Hl|]. split.
    + rewrite Hs. cbn [log with_log]. now rewrite <- app_assoc.
    + intros Hr. unfold booster_wait. rewrite app_assoc.
      apply Hsel. exact Hr.
Qed.

Lemma switches_supply_policy_witness :
  let env := supply_env 2600000 2500000 0 in
  let s := boot mp1_priv in
  (snd (switches_supply_setting mp1_priv 2600000 2500000) = 0x100 /\
   fst (switches_supply_setting mp1_priv 2600000 2500000) = 0) /\
  (snd (switches_supply_setting mp1_priv 2600000 2800000) = 0 /\
   fst (switches_supply_setting mp1_priv 2600000 2800000) = 0x200) /\
  (snd (switches_supply_setting mp1_priv 2800000 0) = 0 /\
   fst (switches_supply_setting mp1_priv 2800000 0) = 0) /\
  (exists l r evs,
     map fst l = [RegulatorEnable vdda_reg; RegulatorGetVoltage vdda_reg;
                  RegulatorEnable vdd_reg; RegulatorGetVoltage vdd_reg] /\
     log (snd (stm32_adc_switches_supply_en env s)) =
       log s ++ l ++
         (booster_op mp1_priv syscfg_map
            (snd (switches_supply_setting mp1_priv 2600000 2500000)), r) :: evs /\
     (r = 0 ->
      exists r2 rest,
        evs = booster_wait env
                (log s ++ l ++
                   [(booster_op mp1_priv syscfg_map
                       (snd (switches_supply_setting mp1_priv 2600000 2500000)),
                     r)])
                (snd (switches_supply_setting mp1_priv 2600000 2500000)) ++
              (anaswvdd_op mp1_priv syscfg_map
                 (fst (switches_supply_setting mp1_priv 2600000 2500000)), r2)
              :: rest)) /\
  map fst (log (snd (stm32_adc_switches_supply_en env s))) =
    [RegulatorEnable vdda_reg; RegulatorGetVoltage vdda_reg;
     RegulatorEnable vdd_reg; RegulatorGetVoltage vdd_reg;
     RegmapUpdateBits syscfg_map 0x20 0x100 0x100;
     UsleepRange 50 100;
     RegmapWrite syscfg_map 0x44 0x200].
Proof.
  intros env s.
  destruct (switches_supply_policy env mp1_priv 2600000 2500000)
    as (_ & Hon & _ & _ & _ & _ & Hrun).
  destruct (switches_supply_policy env mp1_priv 2600000 2800000)
    as (_ & _ & Hsel & _).
  destruct (switches_supply_policy env mp1_priv 2800000 0)
    as (Hoff & _).
  split; [apply Hon; lia|]. split; [apply Hsel; lia|]. split; [apply Hoff; lia|].
  split; [|reflexivity].
  apply (Hrun s vdda_reg syscfg_map vdd_reg syscfg_map);
    try reflexivity.
  unfold measures. cbn. repeat split; try reflexivity; lia.
Defined.

(** ** Power sequencing *)

Lemma err_switches_disable_run env r s :
  exists evs,
    err_switches_disable env r s = (r, with_log s (log s ++ evs)) /\
    map fst evs = supply_dis_ops (priv s) /\
    forall x, regulator_count x evs =
              - regulator_count x (enables (supply_regulators (priv s))).
Proof.
  unfold err_switches_disable.
  destruct (stm32_adc_switches_supply_dis_run env s) as (evs & Hrun & Hops & Hcnt).
  rewrite (bind_run _ _ _ _ _ Hrun). now exists evs.
Qed.

Lemma err_regulator_disable_run env r s :
  exists a evs,
    err_regulator_disable env r s =
      (r, with_log s (log s ++ (RegulatorDisable (vref (priv s)), a) :: evs)) /\
    map fst evs = supply_dis_ops (priv s) /\
    forall x, regulator_count x evs =
              - regulator_count x (enables (supply_regulators (priv s))).
Proof.
  unfold err_regulator_disable.
  rewrite bind_get_priv.
  rewrite (bind_run _ _ _ _ _ (regulator_disable_run env _ _)).
  match goal with |- context [err_switches_disable env r ?s0] =>
    destruct (err_switches_disable_run env r s0) as (evs & -> & Hops & Hcnt) end.
  eexists _, evs. split; [|now split].
  unfold with_log. cbn [priv mmio log]. rewrite <- app_assoc. reflexivity.
Qed.

Lemma err_bclk_disable_code env r s : fst (err_bclk_disable env r s) = r.
Proof.
  unfold err_bclk_disable. rewrite bind_get_priv.
  destruct (bclk (priv s)) as [b|].
  - unfold clk_disable_unprepare. rewrite bind_call_.
    match goal with |- context [err_regulator_disable env r ?s0] =>
      destruct (err_regulator_disable_run env r s0) as (a & evs & -> & _) end.
    reflexivity.
  - unfold bind, ret.
    destruct (err_regulator_disable_run env r s) as (a & evs & -> & _).
    reflexivity.
Qed.

(* the last steps of a start that succeeds: the CCR backup is written back *)
Lemma hw_start_aclk_ok env s :
  fst (hw_start_aclk env s) = 0 ->
  exists evs,
    snd (hw_start_aclk env s) =
    {| priv := priv s;
       mmio := fun a => if a =? ccr (regs (cfg (priv s)))
                        then ccr_bak (priv s) else mmio s a;
       log := log s ++ evs ++
                [(Writel (ccr_bak (priv s)) (ccr (regs (cfg (priv s)))), 0)] |}.
Proof.
  unfold hw_start_aclk. rewrite bind_get_priv.
  destruct (aclk (priv s)) as [a|].
  - unfold clk_prepare_enable. rewrite bind_call.
    destruct (Z.ltb_spec (env (log s) (ClkPrepareEnable a)) 0) as [Hlt|Hge].
    + rewrite err_bclk_disable_code. lia.
    + intros _. eexists [_]. unfold bind, writel_relaxed, ret, with_log.
      cbn [snd priv mmio log]. rewrite <- app_assoc. reflexivity.
  - intros _. exists []. reflexivity.
Qed.

Lemma stm32_adc_core_hw_start_ok env s :
  fst (stm32_adc_core_hw_start env s) = 0 ->
  exists evs,
    snd (stm32_adc_core_hw_start env s) =
    {| priv := priv s;
       mmio := fun a => if a =? ccr (regs (cfg (priv s)))
                        then ccr_bak (priv s) else mmio s a;
       log := log s ++ evs ++
                [(Writel (ccr_bak (priv s)) (ccr (regs (cfg (priv s)))), 0)] |}.
Proof.
  unfold stm32_adc_core_hw_start. rewrite bind_get_priv.
  destruct (stm32_adc_switches_supply_en_run env s) as (evs1 & Hs1 & _).
  destruct (stm32_adc_switches_supply_en env s) as [r1 s1] eqn:E1.
  cbn [snd] in Hs1. subst s1.
  rewrite (bind_run _ _ _ _ _ E1).
  destruct (Z.ltb_spec r1 0) as [Hlt|Hge]; [cbn [ret fst]; lia|].
  unfold regulator_enable. rewrite bind_call. cbn [log with_log].
  set (r2 := env (log s ++ evs1) (RegulatorEnable (vref (priv s)))).
  destruct (Z.ltb_spec r2 0) as [Hlt2|Hge2].
  { match goal with |- context [err_switches_disable env r2 ?s0] =>
      destruct (err_switches_disable_run env r2 s0) as (evs & -> & _) end.
    cbn [fst]. lia. }
  assert (Htail : forall l,
    fst (hw_start_aclk env (with_log s (log s ++ l))) = 0 ->
    exists evs,
      snd (hw_start_aclk env (with_log s (log s ++ l))) =
      {| priv := priv s;
         mmio := fun a => if a =? ccr (regs (cfg (priv s)))
                          then ccr_bak (priv s) else mmio s a;
         log := log s ++ evs ++
                  [(Writel (ccr_bak (priv s)) (ccr (regs (cfg (priv s)))), 0)] |}).
  { intros l H0. destruct (hw_start_aclk_ok env _ H0) as (evs & ->).
    exists (l ++ evs). cbn [priv mmio log with_log].
    rewrite <- !app_assoc. reflexivity. }
  destruct (bclk (priv s)) as [b|].
  - unfold clk_prepare_enable. rewrite bind_call. cbn [log with_log].
    match goal with |- context [env ?l0 (ClkPrepareEnable b)] =>
      set (r3 := env l0 (ClkPrepareEnable b)) end.
    destruct (Z.ltb_spec r3 0) as [Hlt3|Hge3].
    { match goal with |- context [err_regulator_disable env r3 ?s0] =>
        destruct (err_regulator_disable_run env r3 s0) as (a & evs & -> & _) end.
      cbn [fst]. lia. }
    unfold with_log at 1 2. cbn [priv mmio log]. rewrite <- !app_assoc.
    apply Htail.
  - unfold with_log at 1 2. cbn [priv mmio log]. rewrite <- !app_assoc.
    apply Htail.
Qed.

Lemma stm32_adc_core_hw_stop_run env s :
  exists evs,
    stm32_adc_core_hw_stop env s =
    (tt, {| priv := set_ccr_bak (priv s)
                      (u32 (mmio s (ccr (regs (cfg (priv s))))));
            mmio := mmio s;
            log := log s ++ evs |}).
Proof.
  unfold stm32_adc_core_hw_stop.
  rewrite bind_get_priv, bind_readl.
  unfold bind at 1, put_priv.
  assert (Hclk : forall (c : option clk) s0 A (k : unit -> M A),
    exists l,
      bind match c with
           | Some a => clk_disable_unprepare env a
           | None => ret tt
           end k s0 = k tt (with_log s0 (log s0 ++ l))).
  { intros [c|] s0 A k.
    - eexists [_]. reflexivity.
    - exists []. now rewrite app_nil_r, with_log_id. }
  destruct (Hclk (aclk (priv s))
              {| priv := set_ccr_bak (priv s)
                           (u32 (mmio s (ccr (regs (cfg (priv s))))));
                 mmio := mmio s; log := log s |}) with (A := unit)
    (k := fun _ : unit =>
            bind match bclk (priv s) with
                 | Some b => clk_disable_unprepare env b
                 | None => ret tt
                 end
              (fun _ => bind (regulator_disable env (vref (priv s)))
                          (fun _ => stm32_adc_switches_supply_dis env)))
    as (l1 & ->).
  match goal with |- context [bind _ ?k0 ?s0] =>
    destruct (Hclk (bclk (priv s)) s0 unit k0) as (l2 & ->) end.
  rewrite (bind_run _ _ _ _ _ (regulator_disable_run env _ _)).
  match goal with |- context [stm32_adc_switches_supply_dis env ?s0] =>
    destruct (stm32_adc_switches_supply_dis_run env s0) as (l3 & -> & _) end.
  eexists. unfold with_log. cbn [priv mmio log].
  rewrite <- !app_assoc. reflexivity.
Qed.

(** C6. When, during hw_start, the enable of the bus clock fails with the
    error e (the analog switches supply and the vref regulator having been
    enabled before), hw_start returns e itself.  After the failed call it
    disables the vref regulator and then tears the analog switches supply
    down in the order of stm32_adc_switches_supply_dis: supply selection
    cleared, booster cleared, vdd disabled if it was enabled, vdda disabled.
    It writes no register, and every regulator is disabled as many times as
    it was enabled. *)
Theorem hw_start_bclk_failure_rollback env s b e :
  bclk (priv s) = Some b ->
  let r1 := fst (stm32_adc_switches_supply_en env s) in
  let s1 := snd (stm32_adc_switches_supply_en env s) in
  let r2 := env (log s1) (RegulatorEnable (vref (priv s))) in
  let l2 := log s1 ++ [(RegulatorEnable (vref (priv s)), r2)] in
  0 <= r1 -> 0 <= r2 -> env l2 (ClkPrepareEnable b) = e -> e < 0 ->
  let res := stm32_adc_core_hw_start env s in
  fst res = e /\
  priv (snd res) = priv s /\ mmio (snd res) = mmio s /\
  (exists a evs,
     log (snd res) =
       l2 ++ (ClkPrepareEnable b, e)
             :: (RegulatorDisable (vref (priv s)), a) :: evs /\
     map fst evs = supply_dis_ops (priv s)) /\
  (r1 = 0 -> forall x, regulator_count x (new_events s (snd res)) = 0).
Proof.
  intros Hb. cbv zeta.
  destruct (stm32_adc_switches_supply_en_run env s) as (evs1 & Hs1 & Hcnt1).
  unfold stm32_adc_core_hw_start. rewrite bind_get_priv, Hb.
  destruct (stm32_adc_switches_supply_en env s) as [r1 s1] eqn:E1.
  cbn [fst snd] in *. subst s1. cbn [log with_log].
  intros Hr1 Hr2 He Hneg.
  rewrite (bind_run _ _ _ _ _ E1).
  destruct (Z.ltb_spec r1 0) as [|_]; [lia|].
  unfold regulator_enable. rewrite bind_call. cbn [log with_log].
  destruct (Z.ltb_spec (env (log s ++ evs1) (RegulatorEnable (vref (priv s)))) 0)
    as [|_]; [lia|].
  unfold clk_prepare_enable. rewrite bind_call. cbn [log with_log].
  rewrite He. destruct (Z.ltb_spec e 0) as [_|]; [|lia].
  match goal with |- context [err_regulator_disable env e ?s0] =>
    destruct (err_regulator_disable_run env e s0)
      as (a & evs & -> & Hops & Hcnt) end.
  cbn [priv with_log] in Hops, Hcnt.
  cbn [fst snd priv mmio log with_log].
  split; [reflexivity|]. split; [reflexivity|]. split; [reflexivity|]. split.
  - exists a, evs. split; [|exact Hops]. now rewrite <- !app_assoc.
  - intros -> x. unfold new_events. cbn [log with_log].
    rewrite <- !app_assoc, skipn_length_app.
    rewrite !regulator_count_app, (Hcnt1 eq_refl x).
    cbn [app]. rewrite regulator_count_enable by exact Hr2.
    cbn [regulator_count]. rewrite Hcnt.
    change (enables [vref (priv s)]) with [(RegulatorEnable (vref (priv s)), 0)].
    cbn [regulator_count].
    generalize (regulator_count x (enables (supply_regulators (priv s)))).
    intros c. destruct (Nat.eqb (vref (priv s)) x); cbn [andb];
      change (0 <=? 0) with true; cbv iota; lia.
Qed.

Lemma hw_start_bclk_failure_rollback_witness :
  let env := supply_env 2600000 2500000 (-5) in
  let s := boot mp1_priv in
  let res := stm32_adc_core_hw_start env s in
  (fst res = -5 /\
   priv (snd res) = priv s /\ mmio (snd res) = mmio s /\
   (exists a evs,
      log (snd res) =
        (log (snd (stm32_adc_switches_supply_en env s)) ++
           [(RegulatorEnable vref_reg,
             env (log (snd (stm32_adc_switches_supply_en env s)))
               (RegulatorEnable vref_reg))]) ++
        (ClkPrepareEnable bus_clk, -5) :: (RegulatorDisable vref_reg, a) :: evs /\
      map fst evs = supply_dis_ops mp1_priv) /\
   (fst (stm32_adc_switches_supply_en env s) = 0 ->
    forall x, regulator_count x (new_events s (snd res)) = 0)) /\
  map fst (new_events s (snd res)) =
    [RegulatorEnable vdda_reg; RegulatorGetVoltage vdda_reg;
     RegulatorEnable vdd_reg; RegulatorGetVoltage vdd_reg;
     RegmapUpdateBits syscfg_map 0x20 0x100 0x100;
     UsleepRange 50 100;
     RegmapWrite syscfg_map 0x44 0x200;
     RegulatorEnable vref_reg;
     ClkPrepareEnable bus_clk;
     RegulatorDisable vref_reg;
     RegmapWrite syscfg_map 0x44 0x200;
     RegmapWrite syscfg_map 0x44 0x100;
     RegulatorDisable vdd_reg;
     RegulatorDisable vdda_reg].
Proof.
  intros env s res. split; [|reflexivity].
  apply (hw_start_bclk_failure_rollback env s bus_clk (-5));
    [reflexivity | cbn; lia | cbn; lia | reflexivity | lia].
Defined.

(** C7. hw_stop copies the value v that the control register holds when it
    is called into ccr_bak, before it disables anything, and writes no
    register.  Whatever the registers become afterwards, an hw_start that
    succeeds ends with the write of v into the control register: reading it
    back gives v, and no other register is written. *)
Theorem hw_stop_start_restores_ccr env s :
  let ccr_off := ccr (regs (cfg (priv s))) in
  let v := fst (readl_relaxed ccr_off s) in
  let s1 := snd (stm32_adc_core_hw_stop env s) in
  ccr_bak (priv s1) = v /\ mmio s1 = mmio s /\
  forall lost l',
    let s1' := {| priv := priv s1; mmio := lost; log := l' |} in
    fst (stm32_adc_core_hw_start env s1') = 0 ->
    let s2 := snd (stm32_adc_core_hw_start env s1') in
    fst (readl_relaxed ccr_off s2) = v /\
    mmio s2 ccr_off = v /\
    (exists evs, log s2 = l' ++ evs ++ [(Writel v ccr_off, 0)]) /\
    (forall a, a <> ccr_off -> mmio s2 a = lost a).
Proof.
  cbv zeta. destruct (stm32_adc_core_hw_stop_run env s) as (evs0 & ->).
  cbn [snd fst priv mmio ccr_bak set_ccr_bak readl_relaxed].
  split; [reflexivity|]. split; [reflexivity|].
  intros lost l' H0.
  destruct (stm32_adc_core_hw_start_ok env _ H0) as (evs & ->).
  cbn [snd fst priv mmio log ccr_bak set_ccr_bak cfg].
  rewrite Z.eqb_refl. split; [apply u32_idem|]. split; [reflexivity|]. split.
  - now exists evs.
  - intros a Ha. apply Z.eqb_neq in Ha. now rewrite Ha.
Qed.

Lemma hw_stop_start_restores_ccr_witness :
  let env := supply_env 2600000 2500000 0 in
  let s := reg_state mp1_priv (STM32H7_ADC_CCR mainline_h) 0x30000 in
  let s1 := snd (stm32_adc_core_hw_stop env s) in
  let s1' := {| priv := priv s1; mmio := fun _ => 0; log := [] |} in
  let s2 := snd (stm32_adc_core_hw_start env s1') in
  fst (readl_relaxed (STM32H7_ADC_CCR mainline_h) s2) = 0x30000 /\
  mmio s2 (STM32H7_ADC_CCR mainline_h) = 0x30000 /\
  (exists evs, log s2 = [] ++ evs ++
                 [(Writel 0x30000 (STM32H7_ADC_CCR mainline_h), 0)]) /\
  (forall a, a <> STM32H7_ADC_CCR mainline_h -> mmio s2 a = 0).
Proof.
  intros env s s1 s1' s2.
  destruct (hw_stop_start_restores_ccr env s) as (_ & _ & Hstart).
  apply (Hstart (fun _ => 0) []). reflexivity.
Defined.

(** * Further properties *)

(** ** Clock selection: what a failure leaves behind *)

Lemma stm32h7_sync_failure env hdr b s :
  fst (stm32h7_sync env hdr b s) <> 0 ->
  stm32h7_sync env hdr b s =
  (- EINVAL, with_log s (log s ++ [(ClkGetRate b, env (log s) (ClkGetRate b))])).
Proof.
  unfold stm32h7_sync. run.
  destruct (_ =? 0); [reflexivity|].
  destruct (stm32h7_scan _ _ _ _) as [sp|]; [|reflexivity].
  match goal with |- context [stm32h7_out hdr ?r sp ?s1] =>
    destruct (stm32h7_out_run hdr r sp s1) as (val & ->) end.
  cbn [fst]. intros H. now contradiction H.
Qed.

(** X1. A clock selector that fails has written nothing: the private data
    (the published rate among them) and every register are as before, and
    the only calls made are reads of clock rates. *)
Theorem clk_sel_failure_writes_nothing env hdr f s :
  fst (call_clk_sel env hdr f s) <> 0 ->
  exists evs,
    snd (call_clk_sel env hdr f s) = with_log s (log s ++ evs) /\
    Forall is_clk_get_rate evs /\
    (fst (call_clk_sel env hdr f s) = - ENOENT \/
     fst (call_clk_sel env hdr f s) = - EINVAL).
Proof.
  assert (Hone : forall c r, Forall is_clk_get_rate [(ClkGetRate c, r)])
    by (intros c r; constructor; [now exists c | constructor]).
  destruct f; cbn [call_clk_sel].
  - unfold stm32f4_adc_clk_sel. run.
    destruct (aclk (priv s)) as [c|].
    + run. destruct (_ =? 0).
      * intros _. eexists. split; [reflexivity|]. split; [apply Hone | now right].
      * destruct (_ <=? _)%nat.
        -- intros _. eexists. split; [reflexivity|].
           split; [apply Hone | now right].
        -- cbn [fst]. intros H. now contradiction H.
    + intros _. exists []. rewrite app_nil_r, with_log_id.
      split; [reflexivity|]. split; [constructor | now left].
  - unfold stm32h7_adc_clk_sel. run.
    destruct (bclk (priv s)) as [b|].
    2:{ intros _. exists []. rewrite app_nil_r, with_log_id.
        split; [reflexivity|]. split; [constructor | now left]. }
    destruct (aclk (priv s)) as [a|].
    + run. destruct (_ =? 0).
      * intros _. eexists. split; [reflexivity|]. split; [apply Hone | now right].
      * destruct (stm32h7_scan _ _ _ _) as [sp|].
        -- match goal with |- context [stm32h7_out hdr ?r sp ?s1] =>
             destruct (stm32h7_out_run hdr r sp s1) as (val & ->) end.
           cbn [fst]. intros H. now contradiction H.
        -- intros H. rewrite (stm32h7_sync_failure _ _ _ _ H).
           cbn [fst snd with_log priv mmio log]. eexists. split.
           ++ unfold with_log. rewrite <- app_assoc. reflexivity.
           ++ split; [|now right].
              constructor; [now eexists|]. apply Hone.
    + intros H. rewrite (stm32h7_sync_failure _ _ _ _ H). cbn [fst snd].
      eexists. split; [reflexivity|]. split; [apply Hone | now right].
Qed.

Lemma clk_sel_failure_writes_nothing_witness :
  let env := clocks_env 0 200000000 in
  let s := reg_state (without_aclk
                        (board_priv (stm32h7_adc_priv_cfg mainline_h) 36000000))
             (STM32H7_ADC_CCR mainline_h) 0x30000 in
  fst (call_clk_sel env mainline_h stm32h7_clk_sel_fn s) = - EINVAL /\
  exists evs,
    snd (call_clk_sel env mainline_h stm32h7_clk_sel_fn s) =
      with_log s (log s ++ evs) /\
    Forall is_clk_get_rate evs /\
    (fst (call_clk_sel env mainline_h stm32h7_clk_sel_fn s) = - ENOENT \/
     fst (call_clk_sel env mainline_h stm32h7_clk_sel_fn s) = - EINVAL).
Proof.
  intros env s. split; [reflexivity|].
  apply (clk_sel_failure_writes_nothing env mainline_h stm32h7_clk_sel_fn s).
  vm_compute. discriminate.
Defined.

(** ** Clock selection: when it succeeds, and with which rate *)

Lemma div_antitone rate d d' : 0 <= rate -> 0 < d <= d' -> rate / d' <= rate / d.
Proof. intros Hr Hd. now apply Z.div_le_compat_l. Qed.

Lemma stm32f4_pclk_div_range d : In d stm32f4_pclk_div -> 0 < d <= 8.
Proof.
  unfold stm32f4_pclk_div. cbn. intros H.
  repeat (destruct H as [<-|H]; [lia|]). contradiction.
Qed.

Lemma stm32h7_dividers_range sync d :
  In d (stm32h7_dividers sync) -> 0 < d <= if sync then 4 else 256.
Proof.
  destruct sync; [rewrite stm32h7_sync_dividers | rewrite stm32h7_async_dividers];
    cbn; intros H; repeat (destruct H as [<-|H]; [lia|]); contradiction.
Qed.

Lemma stm32h7_sync_feasible env hdr b s :
  rates_unsigned env ->
  let rb := env (log s) (ClkGetRate b) in
  fst (stm32h7_sync env hdr b s) = 0 <->
  rb <> 0 /\ rb / 4 <= max_clk_rate (priv s).
Proof.
  intros Henv rb.
  destruct (stm32h7_sync_cases env hdr b s) as (Hz & Hu & Hok). fold rb in Hz, Hu, Hok.
  pose proof (Henv (log s) b) as Hpos. fold rb in Hpos.
  split.
  - intros H0. destruct (Z.eq_dec rb 0) as [E|Hnz].
    + rewrite (Hz E) in H0. discriminate.
    + split; [exact Hnz|].
      destruct (Z_le_gt_dec (rb / 4) (max_clk_rate (priv s))) as [|Hgt]; [assumption|].
      rewrite Hu in H0; [discriminate | exact Hnz |].
      intros d Hd. apply (stm32h7_dividers_range true) in Hd.
      pose proof (div_antitone rb d 4 Hpos Hd). lia.
  - intros (Hnz & Hle). apply Hok; [exact Hnz|].
    exists 4. split; [|exact Hle]. rewrite stm32h7_sync_dividers. cbn. tauto.
Qed.

(** X2. With unsigned clock rates a selector succeeds exactly when the rate
    it reads is not 0 and the largest divider of its table brings it under
    the bound: rate / 8 on stm32f4; on stm32h7, adc rate / 256, or else bus
    rate / 4 when there is no adc clock or the adc rate is too high even
    divided by 256. *)
Theorem clk_sel_feasible env hdr s :
  rates_unsigned env ->
  (forall c, aclk (priv s) = Some c ->
     let rate := env (log s) (ClkGetRate c) in
     fst (stm32f4_adc_clk_sel env hdr s) = 0 <->
     rate <> 0 /\ rate / 8 <= max_clk_rate (priv s)) /\
  (forall b, bclk (priv s) = Some b -> aclk (priv s) = None ->
     let rb := env (log s) (ClkGetRate b) in
     fst (stm32h7_adc_clk_sel env hdr s) = 0 <->
     rb <> 0 /\ rb / 4 <= max_clk_rate (priv s)) /\
  (forall a b, bclk (priv s) = Some b -> aclk (priv s) = Some a ->
     let ra := env (log s) (ClkGetRate a) in
     let rb := env (log s ++ [(ClkGetRate a, ra)]) (ClkGetRate b) in
     fst (stm32h7_adc_clk_sel env hdr s) = 0 <->
     ra <> 0 /\
     (ra / 256 <= max_clk_rate (priv s) \/
      (rb <> 0 /\ rb / 4 <= max_clk_rate (priv s)))).
Proof.
  intros Henv. split; [|split].
  - intros c Hc rate.
    pose proof (stm32f4_clk_sel_cases env hdr s) as Hc4. rewrite Hc in Hc4.
    cbv zeta in Hc4. fold rate in Hc4. destruct Hc4 as (Hz & Hu & Hok).
    pose proof (Henv (log s) c) as Hpos. fold rate in Hpos.
    split.
    + intros H0. destruct (Z.eq_dec rate 0) as [E|Hnz].
      * rewrite (Hz E) in H0. discriminate.
      * split; [exact Hnz|].
        destruct (Z_le_gt_dec (rate / 8) (max_clk_rate (priv s))) as [|Hgt];
          [assumption|].
        rewrite Hu in H0; [discriminate | exact Hnz |].
        intros d Hd. apply stm32f4_pclk_div_range in Hd.
        pose proof (div_antitone rate d 8 Hpos Hd). lia.
    + intros (Hnz & Hle). apply Hok; [exact Hnz|].
      exists 8. split; [|exact Hle]. unfold stm32f4_pclk_div. cbn. tauto.
  - intros b Hb Ha rb.
    destruct (stm32h7_fallback env hdr s b Hb) as (Hnone & _).
    rewrite (Hnone Ha). now apply stm32h7_sync_feasible.
  - intros a b Hb Ha ra rb.
    pose proof (Henv (log s) a) as Hpos. fold ra in Hpos.
    destruct (Z.eq_dec ra 0) as [E|Hnz].
    { rewrite (stm32h7_zero_adc_rate_code env hdr s a b Ha Hb E).
      split; [discriminate | tauto]. }
    destruct (Z_le_gt_dec (ra / 256) (max_clk_rate (priv s))) as [Hle|Hgt].
    + destruct (stm32h7_async_first env hdr s a b Ha Hb Hnz)
        as (sp & val & _ & _ & _ & ->).
      { exists 256. split; [|exact Hle]. rewrite stm32h7_async_dividers.
        cbn. tauto. }
      cbn [fst]. tauto.
    + destruct (stm32h7_fallback env hdr s b Hb) as (_ & Hsome).
      rewrite (Hsome a Ha Hnz).
      2:{ intros d Hd. apply (stm32h7_dividers_range false) in Hd.
          pose proof (div_antitone ra d 256 Hpos Hd). fold ra. lia. }
      fold ra.
      rewrite (stm32h7_sync_feasible env hdr b _ Henv). cbn [log priv].
      fold rb. split; [intros H; split; [exact Hnz | now right] |].
      intros (_ & [Hle|H]); [lia | exact H].
Qed.

Lemma clk_sel_feasible_witness :
  let env := clocks_env 80000000 200000000 in
  let s := boot (board_priv (stm32h7_adc_priv_cfg mainline_h) 36000000) in
  fst (stm32f4_adc_clk_sel env mainline_h s) = 0 /\
  fst (stm32h7_adc_clk_sel env mainline_h s) = 0 /\
  fst (stm32h7_adc_clk_sel env mainline_h (boot (without_aclk (priv s)))) <> 0.
Proof.
  intros env s.
  assert (Henv : rates_unsigned env)
    by (intros l c; unfold env, clocks_env; destruct (Nat.eqb c adc_clk); lia).
  destruct (clk_sel_feasible env mainline_h s Henv) as (Hf4 & _ & Hh7).
  destruct (clk_sel_feasible env mainline_h (boot (without_aclk (priv s))) Henv)
    as (_ & Hbus & _).
  split; [|split].
  - apply (Hf4 adc_clk eq_refl). cbn. split; [discriminate | lia].
  - apply (Hh7 adc_clk bus_clk eq_refl eq_refl). cbn.
    split; [discriminate | left; lia].
  - intros H0. apply (Hbus bus_clk eq_refl eq_refl) in H0. cbn in H0. lia.
Defined.

Lemma smallest_fit_fastest table rate max d :
  0 <= rate -> (forall x, In x table -> 0 < x) ->
  smallest_fit table rate max d ->
  forall d', In d' table -> rate / d' <= max -> rate / d' <= rate / d.
Proof.
  intros Hr Hpos (Hin & Hle & Hmin) d' Hd' Hfit.
  destruct (Z_lt_le_dec d' d) as [Hlt|Hge].
  - specialize (Hmin d' Hd' Hlt). lia.
  - apply div_antitone; [exact Hr|]. split; [now apply Hpos | exact Hge].
Qed.

(** X3. The rate a selector publishes is the highest one its table offers
    under the bound: any divider of the scanned table that brings the source
    rate under max_clk_rate gives a rate that is at most common.rate. *)
Theorem clk_sel_fastest env hdr s :
  rates_unsigned env ->
  0 <= max_clk_rate (priv s) < 2 ^ 32 ->
  (fst (stm32f4_adc_clk_sel env hdr s) = 0 ->
   forall c d', aclk (priv s) = Some c -> In d' stm32f4_pclk_div ->
     env (log s) (ClkGetRate c) / d' <= max_clk_rate (priv s) ->
     env (log s) (ClkGetRate c) / d'
       <= common_rate (priv (snd (stm32f4_adc_clk_sel env hdr s)))) /\
  (fst (stm32h7_adc_clk_sel env hdr s) = 0 ->
   exists c rate sp pre,
     In sp stm32h7_adc_ckmodes_spec /\
     (if ckmode sp =? 0 then aclk (priv s) = Some c
      else bclk (priv s) = Some c) /\
     rate = env (log s ++ pre) (ClkGetRate c) /\
     common_rate (priv (snd (stm32h7_adc_clk_sel env hdr s))) = rate / div sp /\
     forall d', In d' (stm32h7_dividers (negb (ckmode sp =? 0))) ->
       rate / d' <= max_clk_rate (priv s) ->
       rate / d' <= common_rate (priv (snd (stm32h7_adc_clk_sel env hdr s)))).
Proof.
  intros Henv Hmax. split.
  - intros H0 c d' Hc Hd' Hfit'.
    destruct (stm32f4_clk_sel_fit env hdr s Henv Hmax H0)
      as (c0 & rate & d & val & Hc0 & Hr & _ & Hpos & Hfit & ->).
    rewrite Hc in Hc0. injection Hc0 as <-. rewrite <- Hr in *.
    apply (smallest_fit_fastest stm32f4_pclk_div rate (max_clk_rate (priv s)));
      try assumption; [lia|].
    intros x Hx. now apply stm32f4_pclk_div_range in Hx.
  - intros H0.
    destruct (stm32h7_clk_sel_fit env hdr s Henv Hmax H0)
      as (c & rate & sp & pre & val & Hin & Hsrc & Hr & _ & Hpos & Hfit & Hrate).
    exists c, rate, sp, pre.
    split; [exact Hin|]. split; [exact Hsrc|]. split; [exact Hr|].
    split; [exact Hrate|].
    intros d' Hd' Hfit'. rewrite Hrate.
    apply (smallest_fit_fastest (stm32h7_dividers (negb (ckmode sp =? 0)))
             rate (max_clk_rate (priv s)) (div sp)); try assumption; [lia|].
    intros x Hx. now apply stm32h7_dividers_pos in Hx.
Qed.

Lemma clk_sel_fastest_witness :
  let env := clocks_env 80000000 200000000 in
  let s := boot (board_priv (stm32f4_adc_priv_cfg mainline_h) 36000000) in
  80000000 / 6 <= common_rate (priv (snd (stm32f4_adc_clk_sel env mainline_h s))).
Proof.
  intros env s.
  assert (Henv : rates_unsigned env)
    by (intros l c; unfold env, clocks_env; destruct (Nat.eqb c adc_clk); lia).
  destruct (clk_sel_fastest env mainline_h s Henv) as (Hf4 & _); [cbn; lia|].
  apply (Hf4 eq_refl adc_clk 6 eq_refl).
  - unfold stm32f4_pclk_div. cbn. tauto.
  - cbn. lia.
Defined.

(** ** Clock selection: the control register *)

Lemma u32_testbit x n :
  0 <= n -> Z.testbit (u32 x) n = (n <? 32) && Z.testbit x n.
Proof.
  intros Hn. unfold u32. destruct (Z.ltb_spec n 32).
  - now rewrite Z.mod_pow2_bits_low by lia.
  - now rewrite Z.mod_pow2_bits_high by lia.
Qed.

Lemma GENMASK_testbit h l n :
  0 <= l <= h -> 0 <= n ->
  Z.testbit (GENMASK h l) n = (l <=? n) && (n <=? h).
Proof.
  intros Hl Hn. unfold GENMASK. rewrite Z.shiftl_spec by lia.
  destruct (Z.leb_spec l n); cbn [andb].
  - destruct (Z.leb_spec n h).
    + apply Z.ones_spec_low. lia.
    + apply Z.ones_spec_high. lia.
  - apply Z.testbit_neg_r. lia.
Qed.

Lemma small_testbit f w n : 0 <= f < 2 ^ w -> w <= n -> Z.testbit f n = false.
Proof.
  intros Hf Hn. assert (0 <= w) by (destruct (Z_lt_le_dec w 0) as [H|H];
    [rewrite Z.pow_neg_r in Hf by lia; lia | lia]).
  rewrite <- (Z.mod_small f (2 ^ w)) by lia.
  apply Z.mod_pow2_bits_high. lia.
Qed.

Lemma testbit_bounds x : (forall n, 32 <= n -> Z.testbit x n = false) ->
  0 <= x -> 0 <= x < 2 ^ 32.
Proof.
  intros H Hx. split; [exact Hx|].
  destruct (Z.eq_dec x 0) as [->|Hnz]; [lia|].
  apply Z.log2_lt_pow2; [lia|].
  destruct (Z_lt_le_dec (Z.log2 x) 32) as [|Hge]; [assumption|].
  specialize (H (Z.log2 x) Hge). rewrite Z.bit_log2 in H by lia. discriminate.
Qed.

Lemma stm32f4_ccr_val_bits old (i : nat) :
  0 <= old < 2 ^ 32 -> (i < 4)%nat ->
  0 <= stm32f4_ccr_val old i < 2 ^ 32 /\
  stm32f4_adcpre (stm32f4_ccr_val old i) = Z.of_nat i /\
  forall n, 0 <= n -> ~ 16 <= n < 18 ->
    Z.testbit (stm32f4_ccr_val old i) n = Z.testbit old n.
Proof.
  intros Hold Hi.
  assert (Hf : 0 <= Z.of_nat i < 2 ^ 2) by (change (2 ^ 2) with 4; lia).
  assert (Hbit : forall n, 0 <= n ->
    Z.testbit (stm32f4_ccr_val old i) n =
    if (16 <=? n) && (n <=? 17) then Z.testbit (Z.of_nat i) (n - 16)
    else Z.testbit old n).
  { intros n Hn. unfold stm32f4_ccr_val, STM32F4_ADC_ADCPRE_MASK,
      STM32F4_ADC_ADCPRE_SHIFT.
    rewrite Z.lor_spec, Z.land_spec, u32_testbit, Z.lnot_spec,
      GENMASK_testbit, Z.shiftl_spec by lia.
    destruct (Z.leb_spec 16 n), (Z.leb_spec n 17); cbn [andb negb].
    - now rewrite !andb_false_r.
    - rewrite andb_true_r. rewrite (small_testbit _ 2 (n - 16) Hf) by lia.
      rewrite orb_false_r. destruct (Z.ltb_spec n 32); cbn [andb].
      + apply andb_true_r.
      + rewrite andb_false_r. symmetry. apply (small_testbit old 32); lia.
    - rewrite Z.testbit_neg_r with (n := n - 16) by lia.
      rewrite orb_false_r, andb_true_r.
      destruct (Z.ltb_spec n 32); [apply andb_true_r | lia].
    - lia. }
  assert (Hnonneg : 0 <= stm32f4_ccr_val old i).
  { unfold stm32f4_ccr_val. apply Z.lor_nonneg. split.
    - apply Z.land_nonneg. left. lia.
    - apply Z.shiftl_nonneg. lia. }
  split; [|split].
  - apply testbit_bounds; [|exact Hnonneg].
    intros n Hn. rewrite Hbit by lia.
    destruct (Z.leb_spec 16 n), (Z.leb_spec n 17); cbn [andb]; try lia;
      apply (small_testbit old 32); lia.
  - unfold stm32f4_adcpre, STM32F4_ADC_ADCPRE_SHIFT. apply Z.bits_inj'.
    intros n Hn. rewrite Z.land_spec, Z.shiftr_spec, Hbit by lia.
    change 3 with (Z.ones 2).
    destruct (Z_lt_le_dec n 2).
    + rewrite Z.ones_spec_low by lia.
      destruct (Z.leb_spec 16 (n + 16)), (Z.leb_spec (n + 16) 17);
        cbn [andb]; try lia.
      rewrite andb_true_r. f_equal. lia.
    + rewrite Z.ones_spec_high by lia. rewrite andb_false_r.
      symmetry. apply (small_testbit _ 2); lia.
  - intros n Hn Hout. rewrite Hbit by lia.
    destruct (Z.leb_spec 16 n), (Z.leb_spec n 17); cbn [andb]; try reflexivity.
    lia.
Qed.

Lemma stm32h7_ccr_val_bits old sp :
  0 <= old < 2 ^ 32 -> 0 <= ckmode sp < 4 -> 0 <= presc sp < 16 ->
  0 <= stm32h7_ccr_val old sp < 2 ^ 32 /\
  stm32h7_ckmode (stm32h7_ccr_val old sp) = ckmode sp /\
  stm32h7_presc (stm32h7_ccr_val old sp) = presc sp /\
  forall n, 0 <= n -> ~ 16 <= n < 22 ->
    Z.testbit (stm32h7_ccr_val old sp) n = Z.testbit old n.
Proof.
  intros Hold Hck Hpr.
  assert (Hc : 0 <= ckmode sp < 2 ^ 2) by (change (2 ^ 2) with 4; lia).
  assert (Hp : 0 <= presc sp < 2 ^ 4) by (change (2 ^ 4) with 16; lia).
  assert (Hhigh : forall n, 32 <= n -> Z.testbit old n = false)
    by (intros n Hn; apply (small_testbit old 32); lia).
  assert (Hbit : forall n, 0 <= n ->
    Z.testbit (stm32h7_ccr_val old sp) n =
    if (16 <=? n) && (n <=? 17) then Z.testbit (ckmode sp) (n - 16)
    else if (18 <=? n) && (n <=? 21) then Z.testbit (presc sp) (n - 18)
    else Z.testbit old n).
  { intros n Hn. unfold stm32h7_ccr_val, STM32H7_CKMODE_MASK, STM32H7_PRESC_MASK,
      STM32H7_CKMODE_SHIFT, STM32H7_PRESC_SHIFT.
    rewrite !Z.lor_spec, Z.land_spec, u32_testbit, Z.lnot_spec, Z.lor_spec,
      !GENMASK_testbit, !Z.shiftl_spec by lia.
    assert (Hlow : n < 32 -> (n <? 32) = true) by (intros; now apply Z.ltb_lt).
    destruct (Z.leb_spec 16 n), (Z.leb_spec n 17), (Z.leb_spec 18 n),
      (Z.leb_spec n 21); cbn [andb orb negb]; try lia.
    - rewrite !andb_false_r. cbn [orb].
      rewrite Z.testbit_neg_r with (n := n - 18) by lia. apply orb_false_r.
    - rewrite !andb_false_r. cbn [orb].
      now rewrite (small_testbit _ 2 (n - 16) Hc) by lia.
    - rewrite (small_testbit _ 2 (n - 16) Hc), (small_testbit _ 4 (n - 18) Hp)
        by lia.
      rewrite !orb_false_r, andb_true_r.
      destruct (Z_lt_le_dec n 32) as [Hlt|Hge].
      + rewrite (Hlow Hlt). apply andb_true_r.
      + rewrite Hhigh by lia. reflexivity.
    - rewrite Z.testbit_neg_r with (n := n - 18) by lia.
      rewrite Z.testbit_neg_r with (n := n - 16) by lia.
      rewrite !orb_false_r, andb_true_r, Hlow by lia. apply andb_true_r. }
  assert (Hnonneg : 0 <= stm32h7_ccr_val old sp).
  { unfold stm32h7_ccr_val. apply Z.lor_nonneg. split.
    - apply Z.lor_nonneg. split.
      + apply Z.land_nonneg. left. lia.
      + apply Z.shiftl_nonneg. lia.
    - apply Z.shiftl_nonneg. lia. }
  split; [|split; [|split]].
  - apply testbit_bounds; [|exact Hnonneg].
    intros n Hn. rewrite Hbit by lia.
    destruct (Z.leb_spec 16 n), (Z.leb_spec n 17), (Z.leb_spec 18 n),
      (Z.leb_spec n 21); cbn [andb]; try lia; now apply Hhigh.
  - unfold stm32h7_ckmode, STM32H7_CKMODE_SHIFT. apply Z.bits_inj'.
    intros n Hn. rewrite Z.land_spec, Z.shiftr_spec, Hbit by lia.
    change 3 with (Z.ones 2).
    destruct (Z_lt_le_dec n 2).
    + rewrite Z.ones_spec_low by lia.
      destruct (Z.leb_spec 16 (n + 16)), (Z.leb_spec (n + 16) 17);
        cbn [andb]; try lia.
      rewrite andb_true_r. f_equal. lia.
    + rewrite Z.ones_spec_high by lia. rewrite andb_false_r.
      symmetry. apply (small_testbit _ 2); lia.
  - unfold stm32h7_presc, STM32H7_PRESC_SHIFT. apply Z.bits_inj'.
    intros n Hn. rewrite Z.land_spec, Z.shiftr_spec, Hbit by lia.
    change 15 with (Z.ones 4).
    destruct (Z_lt_le_dec n 4).
    + rewrite Z.ones_spec_low by lia.
      destruct (Z.leb_spec 16 (n + 18)), (Z.leb_spec (n + 18) 17),
        (Z.leb_spec 18 (n + 18)), (Z.leb_spec (n + 18) 21);
        cbn [andb]; try lia.
      rewrite andb_true_r. f_equal. lia.
    + rewrite Z.ones_spec_high by lia. rewrite andb_false_r.
      symmetry. apply (small_testbit _ 4); lia.
  - intros n Hn Hout. rewrite Hbit by lia.
    destruct (Z.leb_spec 16 n), (Z.leb_spec n 17), (Z.leb_spec 18 n),
      (Z.leb_spec n 21); cbn [andb]; try reflexivity; lia.
Qed.

Lemma stm32h7_adc_ckmodes_spec_range sp :
  In sp stm32h7_adc_ckmodes_spec -> 0 <= ckmode sp < 4 /\ 0 <= presc sp < 16.
Proof.
  unfold stm32h7_adc_ckmodes_spec. cbn [In]. intros H.
  repeat (destruct H as [<-|H]; [cbn; lia|]). contradiction.
Qed.

Lemma u32_range x : 0 <= u32 x < 2 ^ 32.
Proof. unfold u32. apply Z.mod_pos_bound. lia. Qed.

(** X4. When the stm32f4 selector succeeds, the CCR is rewritten with its
    ADCPRE field (bits 16 and 17) set to the index of the divider that gives
    the published rate, every other bit of the register as it was read, and
    no other register touched. *)
Theorem stm32f4_ccr_update env hdr s :
  fst (stm32f4_adc_clk_sel env hdr s) = 0 ->
  let s' := snd (stm32f4_adc_clk_sel env hdr s) in
  let old := fst (readl_relaxed (STM32F4_ADC_CCR hdr) s) in
  let new := mmio s' (STM32F4_ADC_CCR hdr) in
  exists c,
    aclk (priv s) = Some c /\
    0 <= new < 2 ^ 32 /\
    0 <= stm32f4_adcpre new < 4 /\
    common_rate (priv s') =
      u32 (env (log s) (ClkGetRate c) /
           nth (Z.to_nat (stm32f4_adcpre new)) stm32f4_pclk_div 0) /\
    (forall n, 0 <= n -> ~ 16 <= n < 18 -> Z.testbit new n = Z.testbit old n) /\
    (forall a, a <> STM32F4_ADC_CCR hdr -> mmio s' a = mmio s a).
Proof.
  unfold stm32f4_adc_clk_sel. run.
  destruct (aclk (priv s)) as [c|]; [|discriminate].
  run. set (rate := env (log s) (ClkGetRate c)).
  destruct (rate =? 0); [discriminate|].
  set (i := stm32f4_scan rate (max_clk_rate (priv s)) stm32f4_pclk_div 0).
  destruct (Nat.leb_spec (length stm32f4_pclk_div) i) as [|Hlt]; [discriminate|].
  intros _. cbn [snd fst priv mmio common_rate set_common_rate].
  rewrite Z.eqb_refl.
  fold (stm32f4_ccr_val (u32 (mmio s (STM32F4_ADC_CCR hdr))) i).
  destruct (stm32f4_ccr_val_bits (u32 (mmio s (STM32F4_ADC_CCR hdr))) i
              (u32_range _) Hlt) as (Hrange & Hfield & Hkeep).
  exists c. rewrite Hfield, Nat2Z.id.
  split; [reflexivity|]. split; [exact Hrange|].
  split; [change (i < 4)%nat in Hlt; lia|]. split; [reflexivity|].
  split; [exact Hkeep|].
  intros a Ha. apply Z.eqb_neq in Ha. now rewrite Ha.
Qed.

Lemma stm32f4_ccr_update_witness :
  let env := clocks_env 80000000 200000000 in
  let s := reg_state (board_priv (stm32f4_adc_priv_cfg mainline_h) 36000000)
             (STM32F4_ADC_CCR mainline_h) 0x00C30001 in
  mmio (snd (stm32f4_adc_clk_sel env mainline_h s)) (STM32F4_ADC_CCR mainline_h)
    = 0x00C10001 /\
  exists c,
    aclk (priv s) = Some c /\
    0 <= mmio (snd (stm32f4_adc_clk_sel env mainline_h s))
           (STM32F4_ADC_CCR mainline_h) < 2 ^ 32 /\
    0 <= stm32f4_adcpre
           (mmio (snd (stm32f4_adc_clk_sel env mainline_h s))
              (STM32F4_ADC_CCR mainline_h)) < 4 /\
    common_rate (priv (snd (stm32f4_adc_clk_sel env mainline_h s))) =
      u32 (env (log s) (ClkGetRate c) /
           nth (Z.to_nat
                  (stm32f4_adcpre
                     (mmio (snd (stm32f4_adc_clk_sel env mainline_h s))
                        (STM32F4_ADC_CCR mainline_h))))
             stm32f4_pclk_div 0) /\
    (forall n, 0 <= n -> ~ 16 <= n < 18 ->
       Z.testbit (mmio (snd (stm32f4_adc_clk_sel env mainline_h s))
                    (STM32F4_ADC_CCR mainline_h)) n =
       Z.testbit (fst (readl_relaxed (STM32F4_ADC_CCR mainline_h) s)) n) /\
    (forall a, a <> STM32F4_ADC_CCR mainline_h ->
       mmio (snd (stm32f4_adc_clk_sel env mainline_h s)) a = mmio s a).
Proof.
  intros env s. split; [reflexivity|].
  apply (stm32f4_ccr_update env mainline_h s). reflexivity.
Defined.

(* the state a successful stm32h7 selection ends in *)
Lemma stm32h7_clk_sel_state env hdr s :
  fst (stm32h7_adc_clk_sel env hdr s) = 0 ->
  exists sp c pre l,
    In sp stm32h7_adc_ckmodes_spec /\
    (if ckmode sp =? 0 then aclk (priv s) = Some c
     else bclk (priv s) = Some c) /\
    smallest_fit (stm32h7_dividers (negb (ckmode sp =? 0)))
      (env (log s ++ pre) (ClkGetRate c)) (max_clk_rate (priv s)) (div sp) /\
    snd (stm32h7_adc_clk_sel env hdr s) =
    {| priv := set_common_rate (priv s)
                 (u32 (env (log s ++ pre) (ClkGetRate c) / div sp));
       mmio := fun a => if a =? STM32H7_ADC_CCR hdr
                        then stm32h7_ccr_val (u32 (mmio s (STM32H7_ADC_CCR hdr))) sp
                        else mmio s a;
       log := l |}.
Proof.
  assert (Hsync : forall b s0,
    fst (stm32h7_sync env hdr b s0) = 0 ->
    exists sp l,
      In sp stm32h7_adc_ckmodes_spec /\
      (ckmode sp =? 0) = false /\
      smallest_fit (stm32h7_dividers true)
        (env (log s0) (ClkGetRate b)) (max_clk_rate (priv s0)) (div sp) /\
      snd (stm32h7_sync env hdr b s0) =
      {| priv := set_common_rate (priv s0)
                   (u32 (env (log s0) (ClkGetRate b) / div sp));
         mmio := fun a => if a =? STM32H7_ADC_CCR hdr
                          then stm32h7_ccr_val
                                 (u32 (mmio s0 (STM32H7_ADC_CCR hdr))) sp
                          else mmio s0 a;
         log := l |}).
  { intros b s0. unfold stm32h7_sync. run.
    destruct (_ =? 0); [discriminate|].
    destruct (stm32h7_scan true _ _ _) as [sp|] eqn:Hscan; [|discriminate].
    destruct (stm32h7_scan_fit _ _ _ _ _ (stm32h7_dividers_sorted true) Hscan)
      as (Hin & Hsel & Hfit).
    intros _. exists sp. eexists. split; [exact Hin|].
    split; [now apply negb_true_iff in Hsel|]. split; [exact Hfit|].
    unfold stm32h7_out. run. reflexivity. }
  unfold stm32h7_adc_clk_sel. run.
  destruct (bclk (priv s)) as [b|] eqn:Hb; [|discriminate].
  destruct (aclk (priv s)) as [a|] eqn:Ha.
  2:{ intros H0. destruct (Hsync b s H0) as (sp & l & Hin & Hck & Hfit & Hs).
      exists sp, b, [], l. rewrite Hck, app_nil_r. cbn [negb].
      split; [exact Hin|]. split; [reflexivity|]. split; [exact Hfit | exact Hs]. }
  run. destruct (_ =? 0); [discriminate|].
  destruct (stm32h7_scan false _ _ _) as [sp|] eqn:Hscan.
  - destruct (stm32h7_scan_fit _ _ _ _ _ (stm32h7_dividers_sorted false) Hscan)
      as (Hin & Hsel & Hfit).
    intros _. exists sp, a, []. eexists. rewrite app_nil_r.
    cbn [selected] in Hsel. rewrite Hsel. cbn [negb].
    split; [exact Hin|]. split; [reflexivity|]. split; [exact Hfit|].
    unfold stm32h7_out. run. reflexivity.
  - intros H0. destruct (Hsync b _ H0) as (sp & l & Hin & Hck & Hfit & Hs).
    cbn [priv mmio log] in Hfit, Hs.
    exists sp, b. eexists [(ClkGetRate a, _)]. exists l.
    rewrite Hck. cbn [negb].
    split; [exact Hin|]. split; [reflexivity|]. split; [exact Hfit | exact Hs].
Qed.

(** X5. When the stm32h7 selector succeeds, the CCR is rewritten with its
    CKMODE field (bits 16-17) and its PRESC field (bits 18-21) set to those
    of one entry of the clock modes table: the entry whose divider is the
    first fit for the rate of the clock read (the adc clock for mode 0, the
    bus clock otherwise) and gives the published rate.  Every other bit of
    the register is as it was read, and no other register is touched. *)
Theorem stm32h7_ccr_update env hdr s :
  fst (stm32h7_adc_clk_sel env hdr s) = 0 ->
  let s' := snd (stm32h7_adc_clk_sel env hdr s) in
  let old := fst (readl_relaxed (STM32H7_ADC_CCR hdr) s) in
  let new := mmio s' (STM32H7_ADC_CCR hdr) in
  0 <= new < 2 ^ 32 /\
  (exists sp c pre,
     let rate := env (log s ++ pre) (ClkGetRate c) in
     In sp stm32h7_adc_ckmodes_spec /\
     (if ckmode sp =? 0 then aclk (priv s) = Some c
      else bclk (priv s) = Some c) /\
     smallest_fit (stm32h7_dividers (negb (ckmode sp =? 0))) rate
       (max_clk_rate (priv s)) (div sp) /\
     stm32h7_ckmode new = ckmode sp /\ stm32h7_presc new = presc sp /\
     common_rate (priv s') = u32 (rate / div sp)) /\
  (forall n, 0 <= n -> ~ 16 <= n < 22 -> Z.testbit new n = Z.testbit old n) /\
  (forall a, a <> STM32H7_ADC_CCR hdr -> mmio s' a = mmio s a).
Proof.
  intros H0. destruct (stm32h7_clk_sel_state env hdr s H0)
    as (sp & c & pre & l & Hin & Hclk & Hfit & ->).
  cbn [snd fst priv mmio common_rate set_common_rate readl_relaxed].
  rewrite Z.eqb_refl.
  destruct (stm32h7_adc_ckmodes_spec_range sp Hin) as (Hck & Hpr).
  destruct (stm32h7_ccr_val_bits (u32 (mmio s (STM32H7_ADC_CCR hdr))) sp
              (u32_range _) Hck Hpr) as (Hrange & Hf1 & Hf2 & Hkeep).
  split; [exact Hrange|]. split.
  - exists sp, c, pre. cbv zeta.
    split; [exact Hin|]. split; [exact Hclk|]. split; [exact Hfit|].
    split; [exact Hf1|]. split; [exact Hf2 | reflexivity].
  - split; [exact Hkeep|].
    intros a Ha. apply Z.eqb_neq in Ha. now rewrite Ha.
Qed.

Lemma stm32h7_ccr_update_witness :
  let env := clocks_env 80000000 200000000 in
  let s := reg_state (board_priv (stm32h7_adc_priv_cfg mainline_h) 36000000)
             (STM32H7_ADC_CCR mainline_h) 0x00FF0001 in
  let s' := snd (stm32h7_adc_clk_sel env mainline_h s) in
  mmio s' (STM32H7_ADC_CCR mainline_h) = 0x00C80001 /\
  common_rate (priv s') = 20000000 /\
  (forall n, 0 <= n -> ~ 16 <= n < 22 ->
     Z.testbit (mmio s' (STM32H7_ADC_CCR mainline_h)) n =
     Z.testbit (fst (readl_relaxed (STM32H7_ADC_CCR mainline_h) s)) n).
Proof.
  intros env s s'. split; [reflexivity|]. split; [reflexivity|].
  destruct (stm32h7_ccr_update env mainline_h s) as (_ & _ & Hkeep & _).
  - reflexivity.
  - exact Hkeep.
Defined.

(** ** Interrupt demultiplexing: further properties *)

Lemma raise_if_events env l b n :
  exists evs, raise_if env l b n = l ++ evs /\
              Forall is_generic_handle_irq evs.
Proof.
  destruct b; cbn.
  - eexists. split; [reflexivity|]. constructor; [now eexists | constructor].
  - exists []. rewrite app_nil_r. now split.
Qed.

Lemma irq_deliveries_sorted env hdr s :
  StronglySorted Z.lt (irq_deliveries env hdr s).
Proof.
  rewrite irq_deliveries_spec. cbn [flat_map]. rewrite !app_nil_r.
  destruct (eoc_raised hdr s 0), (eoc_raised hdr s 1), (eoc_raised hdr s 2),
    (jeoc_raised s 0), (jeoc_raised s 1), (jeoc_raised s 2); cbn;
    repeat constructor; lia.
Qed.

(** X6. One run of the interrupt handler leaves the private data and the
    registers as they are; its calls are chained_irq_enter first,
    chained_irq_exit last and, in between, only handlers of the domain, each
    line at most once and in increasing line order (regular lines before
    injected ones). *)
Theorem irq_handler_frame env hdr s :
  exists a evs b,
    stm32_adc_irq_handler env hdr s =
      (tt, with_log s (log s ++ (ChainedIrqEnter, a) :: evs
                             ++ [(ChainedIrqExit, b)])) /\
    Forall is_generic_handle_irq evs /\
    deliveries evs = irq_deliveries env hdr s /\
    StronglySorted Z.lt (irq_deliveries env hdr s).
Proof.
  assert (Hrun : exists a evs b,
    stm32_adc_irq_handler env hdr s =
      (tt, with_log s (log s ++ (ChainedIrqEnter, a) :: evs
                             ++ [(ChainedIrqExit, b)])) /\
    Forall is_generic_handle_irq evs).
  { rewrite stm32_adc_irq_handler_run. cbv zeta.
    repeat match goal with
    | |- context [raise_if env ?l ?b ?n] =>
        let evs := fresh "evs" in let E := fresh "E" in let D := fresh "D" in
        destruct (raise_if_events env l b n) as (evs & E & D); rewrite E; clear E
    end.
    eexists _, (evs4 ++ evs3 ++ evs2 ++ evs1 ++ evs0 ++ evs), _. split.
    - unfold with_log. rewrite <- !app_assoc. cbn [app]. reflexivity.
    - repeat (apply Forall_app; split); assumption. }
  destruct Hrun as (a & evs & b & Hrun & Hall). exists a, evs, b.
  split; [exact Hrun|]. split; [exact Hall|].
  split; [|apply irq_deliveries_sorted].
  unfold irq_deliveries. rewrite Hrun. cbn [snd log with_log].
  rewrite skipn_length_app. cbn [deliveries]. rewrite deliveries_app.
  cbn [deliveries]. now rewrite app_nil_r.
Qed.

(* a line that is raised is the line of an instance whose bits are set *)
Lemma irq_deliveries_origin env hdr s n :
  In n (irq_deliveries env hdr s) ->
  exists i, (i < 3)%nat /\
    ((n = Z.of_nat i /\
      Z.land (csr_status s) (eoc_msk (regs (cfg (priv s))) i) <> 0) \/
     (n = 3 + Z.of_nat i /\
      Z.land (csr_status s) (jeoc_msk (regs (cfg (priv s))) i) <> 0)).
Proof.
  rewrite irq_deliveries_spec. intros Hin. apply in_app_or in Hin.
  destruct Hin as [Hin|Hin]; apply in_flat_map in Hin;
    destruct Hin as (i & Hi & Hn); exists i;
    (split; [cbn in Hi; lia|]).
  - left. destruct (eoc_raised hdr s i) eqn:E; [|contradiction].
    destruct Hn as [<-|[]]. apply eoc_raised_iff in E. now split.
  - right. destruct (jeoc_raised s i) eqn:E; [|contradiction].
    destruct Hn as [<-|[]]. apply jeoc_raised_iff in E. now split.
Qed.

Lemma land_lor_zero a b c : Z.land a (Z.lor b c) = 0 ->
  Z.land a b = 0 /\ Z.land a c = 0.
Proof. rewrite Z.land_lor_distr_r. apply Z.lor_eq_0_iff. Qed.

(* the status bits of two instances never overlap *)
Lemma instance_msk_disjoint hdr r (i j : nat) :
  r = stm32f4_adc_common_regs hdr \/ r = stm32h7_adc_common_regs hdr ->
  (i < 3)%nat -> (j < 3)%nat -> i <> j ->
  Z.land (instance_msk r j) (instance_msk r i) = 0.
Proof.
  intros [-> | ->] Hi Hj Hne;
    destruct i as [|[|[|i]]]; try lia;
    destruct j as [|[|[|j]]]; try lia; try reflexivity.
Qed.

(** X7. On the stm32f4 and stm32h7 register layouts the status bits of
    different instances do not overlap, so a status word made of bits of
    instance j only can raise no line but j (regular) and 3 + j (injected),
    whatever the interrupt enable registers hold. *)
Theorem irq_instance_isolation env hdr s (j : nat) :
  let r := regs (cfg (priv s)) in
  r = stm32f4_adc_common_regs hdr \/ r = stm32h7_adc_common_regs hdr ->
  (j < 3)%nat ->
  Z.land (csr_status s) (instance_msk r j) = csr_status s ->
  forall n, In n (irq_deliveries env hdr s) ->
            n = Z.of_nat j \/ n = 3 + Z.of_nat j.
Proof.
  intros r Hr Hj Hsub n Hin.
  destruct (irq_deliveries_origin env hdr s n Hin) as (i & Hi & Hcase).
  destruct (Nat.eq_dec i j) as [->|Hne].
  { destruct Hcase as [(-> & _)|(-> & _)]; [now left | now right]. }
  exfalso.
  pose proof (instance_msk_disjoint hdr r i j Hr Hi Hj Hne) as Hdis.
  unfold instance_msk at 2 in Hdis. apply land_lor_zero in Hdis.
  destruct Hdis as (He & Hje). fold r in Hcase.
  destruct Hcase as [(_ & Hbit)|(_ & Hbit)]; apply Hbit;
    rewrite <- Hsub, <- Z.land_assoc.
  - rewrite He. apply Z.land_0_r.
  - rewrite Hje. apply Z.land_0_r.
Qed.

Lemma irq_instance_isolation_witness :
  let env := clocks_env 0 0 in
  let p := board_priv (stm32f4_adc_priv_cfg mainline_h) 0 in
  let s := irq_state p (Z.lor STM32F4_EOC2 (Z.lor STM32F4_AWD2 STM32F4_JEOC2))
             (2 ^ 32 - 1) in
  irq_deliveries env mainline_h s = [1; 4] /\
  forall n, In n (irq_deliveries env mainline_h s) ->
            n = Z.of_nat 1 \/ n = 3 + Z.of_nat 1.
Proof.
  intros env p s. split; [reflexivity|].
  apply (irq_instance_isolation env mainline_h s 1);
    [left; reflexivity | lia | reflexivity].
Defined.

(** X8. On the stm32h7 layout (stm32h7 and stm32mp1) there are two
    instances only: the masks of the third one are empty, and the handler
    never raises line 2 nor line 5, whatever the status and the enable
    registers hold. *)
Theorem stm32h7_irq_two_instances env hdr s :
  regs (cfg (priv s)) = stm32h7_adc_common_regs hdr ->
  forall n, In n (irq_deliveries env hdr s) ->
            n = 0 \/ n = 1 \/ n = 3 \/ n = 4.
Proof.
  intros Hr n Hin.
  destruct (irq_deliveries_origin env hdr s n Hin) as (i & Hi & Hcase).
  rewrite Hr in Hcase.
  destruct i as [|[|[|i]]]; [| | |lia]; cbn [Z.of_nat] in Hcase.
  - destruct Hcase as [(-> & _)|(-> & _)]; tauto.
  - destruct Hcase as [(-> & _)|(-> & _)]; cbn; tauto.
  - exfalso. destruct Hcase as [(_ & Hbit)|(_ & Hbit)]; apply Hbit;
      apply Z.land_0_r.
Qed.

Lemma stm32h7_irq_two_instances_witness :
  let env := clocks_env 0 0 in
  let p := board_priv (stm32h7_adc_priv_cfg mainline_h) 0 in
  let s := irq_state p (2 ^ 32 - 1) (2 ^ 32 - 1) in
  irq_deliveries env mainline_h s = [0; 1; 3; 4] /\
  forall n, In n (irq_deliveries env mainline_h s) ->
            n = 0 \/ n = 1 \/ n = 3 \/ n = 4.
Proof.
  intros env p s. split; [reflexivity|].
  apply (stm32h7_irq_two_instances env mainline_h s). reflexivity.
Defined.

(** ** Analog switches supply: what a failure leaves behind *)

Lemma clk_count_app c l1 l2 :
  clk_count c (l1 ++ l2) = clk_count c l1 + clk_count c l2.
Proof.
  induction l1 as [|[o a] l1 IH]; [reflexivity|].
  cbn [app clk_count]. destruct o; rewrite IH; lia.
Qed.

Lemma clk_count_no_clk c l : no_clk l -> clk_count c l = 0.
Proof.
  induction 1 as [|[o a] l Ho _ IH]; [reflexivity|].
  cbn [clk_count]. cbn [fst] in Ho. destruct o; try discriminate Ho; exact IH.
Qed.

Lemma no_clk_app l1 l2 : no_clk l1 -> no_clk l2 -> no_clk (l1 ++ l2).
Proof. intros H1 H2. apply Forall_app. now split. Qed.

Lemma booster_op_kind p bm v :
  is_clk_op (booster_op p bm v) = false /\ is_regmap_op (booster_op p bm v) = true.
Proof.
  unfold booster_op. destruct (regmap (vbooster_clr p)); [|now split].
  destruct (v =? 0); now split.
Qed.

Lemma anaswvdd_op_kind p am v :
  is_clk_op (anaswvdd_op p am v) = false /\
  is_regmap_op (anaswvdd_op p am v) = true.
Proof.
  unfold anaswvdd_op. destruct (regmap (anaswvdd_clr p)); [|now split].
  destruct (v =? 0); now split.
Qed.

Lemma no_clk_one o a : is_clk_op o = false -> no_clk [(o, a)].
Proof. intros H. constructor; [exact H | constructor]. Qed.

(* the labels vdd_dis and vdda_dis: vdd if it was enabled, then vdda *)
Lemma vdd_dis_run env ra x s :
  exists more,
    vdd_dis env ra x s = (x, with_log s (log s ++ more)) /\
    no_clk more /\
    forall y, regulator_count y more =
              - regulator_count y (enables (ra :: supply_vdd (priv s))).
Proof.
  unfold vdd_dis, vdda_dis.
  destruct (vdd_disable_run env s) as (evs & Hrun & Hops & Hcnt).
  rewrite (bind_run _ _ _ _ _ Hrun).
  rewrite (bind_run _ _ _ _ _ (regulator_disable_run env ra _)).
  cbn [priv mmio log with_log].
  exists (evs ++ [(RegulatorDisable ra, env (log s ++ evs) (RegulatorDisable ra))]).
  split; [|split].
  - unfold with_log, ret. cbn [priv mmio log]. now rewrite <- app_assoc.
  - apply no_clk_app; [|now apply no_clk_one].
    unfold no_clk. rewrite <- Forall_map with (f := fst) (P := fun o => is_clk_op o = false).
    unfold event in *. rewrite Hops.
    destruct (vdd (priv s)); [destruct (regmap (anaswvdd (priv s)))|];
      repeat constructor.
  - intros y. rewrite regulator_count_app, Hcnt, regulator_count_enables_cons.
    fold (supply_vdd (priv s)).
    change (enables [ra]) with [(RegulatorEnable ra, 0)].
    cbn [regulator_count].
    generalize (regulator_count y (enables (supply_vdd (priv s)))). intros c.
    destruct (Nat.eqb ra y); cbn [andb]; change (0 <=? 0) with true;
      cbv iota; lia.
Qed.

(* the second half of stm32_adc_switches_supply_en, with its failures *)
Lemma switches_supply_apply_net env ra bm va vd s :
  exists evs,
    snd (switches_supply_apply env ra bm va vd s) = with_log s (log s ++ evs) /\
    no_clk evs /\
    (forall x, regulator_count x evs =
       if fst (switches_supply_apply env ra bm va vd s) =? 0 then 0
       else - regulator_count x (enables (ra :: supply_vdd (priv s)))) /\
    (regmap_errno env -> fst (switches_supply_apply env ra bm va vd s) <= 0).
Proof.
  unfold switches_supply_apply.
  rewrite bind_get_priv.
  destruct (switches_supply_setting (priv s) va vd) as [av eb].
  rewrite booster_write_call, bind_call.
  set (first := booster_op (priv s) bm eb).
  set (r := env (log s) first).
  destruct (booster_op_kind (priv s) bm eb) as (Hfk & Hfr). fold first in Hfk, Hfr.
  destruct (Z.eqb_spec r 0) as [Hr|Hr]; cbn [negb].
  2:{ destruct (vdd_dis_run env ra r (with_log s (log s ++ [(first, r)])))
        as (more & -> & Hnc & Hcnt).
      cbn [fst snd priv mmio log with_log] in *.
      exists ((first, r) :: more). split; [|split; [|split]].
      - unfold with_log. cbn [priv mmio log]. now rewrite <- app_assoc.
      - constructor; assumption.
      - intros x. apply Z.eqb_neq in Hr. rewrite Hr.
        change ((first, r) :: more) with ([(first, r)] ++ more).
        rewrite regulator_count_app. unfold first.
        rewrite regulator_count_booster_op. apply Hcnt.
      - intros He. apply He. exact Hfr. }
  set (wait := if eb =? 0 then []
               else [(UsleepRange 50 100,
                      env (log s ++ [(first, r)]) (UsleepRange 50 100))]).
  assert (Hwait0 : forall x, regulator_count x wait = 0)
    by (intros x; unfold wait; destruct (eb =? 0); reflexivity).
  assert (Hwaitc : no_clk wait)
    by (unfold wait; destruct (eb =? 0); repeat constructor).
  assert (Husleep : forall A (k : unit -> M A),
      bind (if negb (eb =? 0) then usleep_range env 50 100 else ret tt) k
        (with_log s (log s ++ [(first, r)])) =
      k tt (with_log s (log s ++ (first, r) :: wait))).
  { intros A k. unfold wait. destruct (eb =? 0); cbn [negb].
    - reflexivity.
    - unfold usleep_range. rewrite bind_call_. unfold with_log.
      cbn [priv mmio log]. rewrite <- app_assoc. reflexivity. }
  rewrite Husleep. cbn [priv with_log].
  destruct (regmap (anaswvdd (priv s))) as [am|] eqn:Ham.
  2:{ exists ((first, r) :: wait). cbn [ret fst snd].
      split; [reflexivity|]. split; [constructor; assumption|].
      split; [|lia]. intros x. rewrite (proj2 (Z.eqb_eq r 0) Hr).
      change ((first, r) :: wait) with ([(first, r)] ++ wait).
      rewrite regulator_count_app, Hwait0. unfold first.
      now rewrite regulator_count_booster_op. }
  rewrite anaswvdd_write_call, bind_call. cbn [log with_log].
  set (sel := anaswvdd_op (priv s) am av).
  destruct (anaswvdd_op_kind (priv s) am av) as (Hsk & Hsr). fold sel in Hsk, Hsr.
  set (r2 := env (log s ++ (first, r) :: wait) sel).
  destruct (Z.eqb_spec r2 0) as [Hr2|Hr2]; cbn [negb].
  - exists ((first, r) :: wait ++ [(sel, r2)]). cbn [ret fst snd].
    split; [|split; [|split]].
    + unfold with_log. cbn [priv mmio log]. rewrite <- app_assoc. reflexivity.
    + constructor; [exact Hfk|]. apply no_clk_app; [exact Hwaitc|].
      now apply no_clk_one.
    + intros x. rewrite (proj2 (Z.eqb_eq r2 0) Hr2).
      change ((first, r) :: wait ++ [(sel, r2)])
        with ([(first, r)] ++ wait ++ [(sel, r2)]).
      rewrite !regulator_count_app, Hwait0. unfold first, sel.
      now rewrite regulator_count_booster_op, regulator_count_anaswvdd_op.
    + lia.
  - unfold booster_dis.
    rewrite (bind_run _ _ _ _ _ (booster_clear_run env bm _)).
    cbn [priv mmio log with_log].
    match goal with |- context [vdd_dis env ra r2 ?s0] =>
      destruct (vdd_dis_run env ra r2 s0) as (more & -> & Hnc & Hcnt) end.
    cbn [fst snd priv mmio log with_log] in *.
    match goal with |- context [(booster_op (priv s) bm 0, ?a)] =>
      set (clr := (booster_op (priv s) bm 0, a)) end.
    exists ((first, r) :: wait ++ [(sel, r2); clr] ++ more).
    split; [|split; [|split]].
    + unfold with_log. cbn [priv mmio log]. rewrite <- !app_assoc. reflexivity.
    + constructor; [exact Hfk|]. apply no_clk_app; [exact Hwaitc|].
      apply no_clk_app; [|exact Hnc].
      constructor; [exact Hsk|]. apply no_clk_one.
      apply booster_op_kind.
    + intros x. apply Z.eqb_neq in Hr2. rewrite Hr2.
      change ((first, r) :: wait ++ [(sel, r2); clr] ++ more)
        with ([(first, r)] ++ wait ++ [(sel, r2)] ++ [clr] ++ more).
      rewrite !regulator_count_app, Hwait0. unfold first, sel, clr.
      rewrite !regulator_count_booster_op, regulator_count_anaswvdd_op.
      rewrite Hcnt. lia.
    + intros He. apply He. exact Hsr.
Qed.

Lemma eqb_neg_false e : e < 0 -> (e =? 0) = false.
Proof. intros H. apply Z.eqb_neq. lia. Qed.

(* stm32_adc_switches_supply_en, every exit: what it called and what it
   left enabled *)
Lemma stm32_adc_switches_supply_en_net env s :
  exists evs,
    snd (stm32_adc_switches_supply_en env s) = with_log s (log s ++ evs) /\
    no_clk evs /\
    (forall x, regulator_count x evs =
       if fst (stm32_adc_switches_supply_en env s) =? 0
       then regulator_count x (enables (supply_regulators (priv s)))
       else 0) /\
    (regmap_errno env -> fst (stm32_adc_switches_supply_en env s) <= 0) /\
    (supply_regulators (priv s) = [] ->
     evs = [] /\ fst (stm32_adc_switches_supply_en env s) = 0).
Proof.
  unfold stm32_adc_switches_supply_en, supply_regulators.
  rewrite bind_get_priv.
  destruct (vdda (priv s)) as [ra|];
    [destruct (regmap (vbooster (priv s))) as [bm|]|];
    try (exists []; rewrite app_nil_r, with_log_id; cbn [ret fst snd];
         split; [reflexivity|]; split; [constructor|]; split; [reflexivity|];
         split; [lia | now split]).
  fold (supply_vdd (priv s)).
  unfold regulator_enable, regulator_get_voltage. rewrite bind_call.
  set (e1 := env (log s) (RegulatorEnable ra)).
  destruct (Z.ltb_spec e1 0) as [He1|He1].
  { exists [(RegulatorEnable ra, e1)]. cbn [ret fst snd].
    split; [reflexivity|]. split; [now apply no_clk_one|].
    split; [|split; [lia | discriminate]].
    intros x. rewrite (eqb_neg_false _ He1). cbn [regulator_count].
    replace (0 <=? e1) with false by (symmetry; apply Z.leb_gt; lia).
    rewrite andb_false_r. reflexivity. }
  rewrite bind_call. cbn [log with_log].
  set (va := env (log s ++ [(RegulatorEnable ra, e1)]) (RegulatorGetVoltage ra)).
  destruct (Z.ltb_spec va 0) as [Hva|Hva].
  { unfold vdda_dis.
    rewrite (bind_run _ _ _ _ _ (regulator_disable_run env ra _)).
    cbn [priv mmio log with_log ret fst snd].
    eexists [(RegulatorEnable ra, e1); (RegulatorGetVoltage ra, va);
             (RegulatorDisable ra, _)].
    split; [unfold with_log; cbn [priv mmio log]; rewrite <- !app_assoc;
            reflexivity|].
    split; [repeat constructor|].
    split; [|split; [lia | discriminate]].
    intros x. rewrite (eqb_neg_false _ Hva). cbn [regulator_count].
    rewrite (proj2 (Z.leb_le 0 e1) He1).
    destruct (Nat.eqb ra x); cbn [andb]; cbv iota; lia. }
  set (l2 := [(RegulatorEnable ra, e1); (RegulatorGetVoltage ra, va)]).
  (* both voltages known: the settings are applied *)
  assert (Happly : forall vd l,
    no_clk l ->
    (forall x, regulator_count x l =
               regulator_count x (enables (supply_vdd (priv s)))) ->
    let s2 := with_log s (log s ++ l2 ++ l) in
    exists evs,
      snd (switches_supply_apply env ra bm va vd s2) = with_log s (log s ++ evs) /\
      no_clk evs /\
      (forall x, regulator_count x evs =
         if fst (switches_supply_apply env ra bm va vd s2) =? 0
         then regulator_count x (enables (ra :: supply_vdd (priv s)))
         else 0) /\
      (regmap_errno env -> fst (switches_supply_apply env ra bm va vd s2) <= 0) /\
      (ra :: supply_vdd (priv s) = [] ->
       evs = [] /\ fst (switches_supply_apply env ra bm va vd s2) = 0)).
  { intros vd l Hlc Hl s2.
    destruct (switches_supply_apply_net env ra bm va vd s2)
      as (evs & Hs & Hnc & Hcnt & Herr).
    rewrite Hs. exists (l2 ++ l ++ evs).
    split; [|split; [|split; [|split; [exact Herr | discriminate]]]].
    - unfold s2, with_log. cbn [priv mmio log]. rewrite <- !app_assoc.
      reflexivity.
    - apply no_clk_app; [repeat constructor|]. now apply no_clk_app.
    - intros x. rewrite !regulator_count_app, Hl, Hcnt.
      change (priv s2) with (priv s).
      rewrite (regulator_count_enables_cons x ra).
      unfold l2. rewrite regulator_count_enable by lia.
      cbn [regulator_count].
      destruct (fst (switches_supply_apply env ra bm va vd s2) =? 0); lia. }
  unfold supply_vdd in *.
  destruct (vdd (priv s)) as [rd|] eqn:Hvdd;
    [destruct (regmap (anaswvdd (priv s))) as [am|] eqn:Ham|].
  - rewrite bind_call. cbn [log with_log].
    set (e3 := env ((log s ++ [(RegulatorEnable ra, e1)]) ++
                    [(RegulatorGetVoltage ra, va)]) (RegulatorEnable rd)).
    destruct (Z.ltb_spec e3 0) as [He3|He3].
    { unfold vdda_dis.
      rewrite (bind_run _ _ _ _ _ (regulator_disable_run env ra _)).
      cbn [priv mmio log with_log ret fst snd].
      eexists (l2 ++ [(RegulatorEnable rd, e3); (RegulatorDisable ra, _)]).
      split; [unfold with_log, l2; cbn [priv mmio log]; rewrite <- !app_assoc;
              reflexivity|].
      split; [repeat constructor|].
      split; [|split; [lia | discriminate]].
      intros x. rewrite (eqb_neg_false _ He3). unfold l2.
      cbn [app regulator_count].
      rewrite (proj2 (Z.leb_le 0 e1) He1).
      replace (0 <=? e3) with false by (symmetry; apply Z.leb_gt; lia).
      rewrite andb_false_r.
      destruct (Nat.eqb ra x); cbn [andb]; cbv iota; lia. }
    rewrite bind_call. cbn [log with_log].
    match goal with |- context [env ?l (RegulatorGetVoltage rd)] =>
      set (vd := env l (RegulatorGetVoltage rd)) end.
    destruct (Z.ltb_spec vd 0) as [Hvd|Hvd].
    { match goal with |- context [vdd_dis env ra vd ?s0] =>
        destruct (vdd_dis_run env ra vd s0) as (more & -> & Hnc & Hcnt) end.
      cbn [priv mmio log with_log ret fst snd] in *.
      exists (l2 ++ [(RegulatorEnable rd, e3); (RegulatorGetVoltage rd, vd)]
                 ++ more).
      split; [unfold with_log, l2; cbn [priv mmio log]; rewrite <- !app_assoc;
              reflexivity|].
      split; [apply no_clk_app; [repeat constructor|];
              apply no_clk_app; [repeat constructor | exact Hnc]|].
      split; [|split; [lia | discriminate]].
      intros x. rewrite (eqb_neg_false _ Hvd).
      rewrite !regulator_count_app, Hcnt.
      unfold supply_vdd. rewrite Hvdd, Ham.
      rewrite (regulator_count_enables_cons x ra).
      unfold l2. rewrite !regulator_count_enable by lia.
      cbn [regulator_count]. lia. }
    destruct (Happly vd [(RegulatorEnable rd, e3); (RegulatorGetVoltage rd, vd)])
      as (evs & Hs & Hrest).
    { repeat constructor. }
    { intros x. rewrite regulator_count_enable by lia. cbn [regulator_count]. lia. }
    match goal with |- context [switches_supply_apply env ra bm va vd ?s0] =>
      replace s0
        with (with_log s (log s ++ l2 ++
                [(RegulatorEnable rd, e3); (RegulatorGetVoltage rd, vd)]))
        by (unfold with_log, l2; cbn [priv mmio log];
            rewrite <- !app_assoc; reflexivity) end.
    exists evs. split; [exact Hs | exact Hrest].
  - destruct (Happly 0 []) as (evs & Hs & Hrest);
      [constructor | reflexivity |].
    rewrite app_nil_r in Hs, Hrest.
    match goal with |- context [switches_supply_apply env ra bm va 0 ?s0] =>
      replace s0 with (with_log s (log s ++ l2))
        by (unfold with_log, l2; cbn [priv mmio log];
            rewrite <- !app_assoc; reflexivity) end.
    exists evs. split; [exact Hs | exact Hrest].
  - destruct (Happly 0 []) as (evs & Hs & Hrest);
      [constructor | reflexivity |].
    rewrite app_nil_r in Hs, Hrest.
    match goal with |- context [switches_supply_apply env ra bm va 0 ?s0] =>
      replace s0 with (with_log s (log s ++ l2))
        by (unfold with_log, l2; cbn [priv mmio log];
            rewrite <- !app_assoc; reflexivity) end.
    exists evs. split; [exact Hs | exact Hrest].
Qed.



(** ** Power sequencing: every exit of hw_start, and hw_stop after it *)

Lemma bind_fst_snd {A B} (c : M A) (k : A -> M B) s :
  bind c k s = k (fst (c s)) (snd (c s)).
Proof. unfold bind. now destruct (c s). Qed.

Lemma regulator_count_disable x r a l :
  regulator_count x ((RegulatorDisable r, a) :: l) =
  - regulator_count x (enables [r]) + regulator_count x l.
Proof.
  cbn [enables map regulator_count]. change (0 <=? 0) with true.
  destruct (Nat.eqb r x); cbn [andb]; cbv iota; lia.
Qed.

Lemma regulator_count_enable_failed x r a l :
  a < 0 -> regulator_count x ((RegulatorEnable r, a) :: l) = regulator_count x l.
Proof.
  intros Ha. cbn [regulator_count].
  replace (0 <=? a) with false by (symmetry; apply Z.leb_gt; lia).
  now rewrite andb_false_r.
Qed.

Lemma regulator_count_enables_app x l1 l2 :
  regulator_count x (enables (l1 ++ l2)) =
  regulator_count x (enables l1) + regulator_count x (enables l2).
Proof. unfold enables. now rewrite map_app, regulator_count_app. Qed.

Lemma clk_count_enable c b a l :
  0 <= a ->
  clk_count c ((ClkPrepareEnable b, a) :: l) =
  clk_count c (clk_enables [b]) + clk_count c l.
Proof.
  intros Ha. cbn [clk_enables map clk_count].
  apply Z.leb_le in Ha. rewrite Ha. change (0 <=? 0) with true. lia.
Qed.

Lemma clk_count_enable_failed c b a l :
  a < 0 -> clk_count c ((ClkPrepareEnable b, a) :: l) = clk_count c l.
Proof.
  intros Ha. cbn [clk_count].
  replace (0 <=? a) with false by (symmetry; apply Z.leb_gt; lia).
  now rewrite andb_false_r.
Qed.

Lemma clk_count_disable c b a l :
  clk_count c ((ClkDisableUnprepare b, a) :: l) =
  - clk_count c (clk_enables [b]) + clk_count c l.
Proof.
  cbn [clk_enables map clk_count]. change (0 <=? 0) with true.
  destruct (Nat.eqb b c); cbn [andb]; cbv iota; lia.
Qed.

Lemma clk_count_enables_app c l1 l2 :
  clk_count c (clk_enables (l1 ++ l2)) =
  clk_count c (clk_enables l1) + clk_count c (clk_enables l2).
Proof. unfold clk_enables. now rewrite map_app, clk_count_app. Qed.

Lemma regulator_count_clk_enables x cs : regulator_count x (clk_enables cs) = 0.
Proof. induction cs as [|c cs IH]; [reflexivity | exact IH]. Qed.

Lemma supply_dis_ops_no_clk p evs :
  map fst evs = supply_dis_ops p -> no_clk evs.
Proof.
  intros H. unfold no_clk.
  rewrite <- Forall_map with (f := fst) (P := fun o => is_clk_op o = false).
  unfold event in *. rewrite H. unfold supply_dis_ops.
  destruct (vdda p) as [ra|]; [|constructor].
  destruct (regmap (vbooster p)) as [bm|]; [|constructor].
  apply Forall_app. split.
  { destruct (regmap (anaswvdd p)); [|constructor].
    constructor; [apply anaswvdd_op_kind | constructor]. }
  apply Forall_app. split.
  { constructor; [apply booster_op_kind | constructor]. }
  apply Forall_app. split.
  { destruct (vdd p); [destruct (regmap (anaswvdd p))|];
      [constructor; [reflexivity | constructor] | constructor | constructor]. }
  constructor; [reflexivity | constructor].
Qed.

(* the three error labels, by what they undo *)
Lemma err_bclk_disable_net env r s :
  exists evs,
    err_bclk_disable env r s = (r, with_log s (log s ++ evs)) /\
    (forall x, regulator_count x evs =
       - regulator_count x
           (enables (supply_regulators (priv s) ++ [vref (priv s)]))) /\
    (forall c, clk_count c evs =
       - clk_count c
           (clk_enables match bclk (priv s) with Some b => [b] | None => [] end)).
Proof.
  unfold err_bclk_disable. rewrite bind_get_priv.
  assert (Hreg : forall l,
    exists evs,
      err_regulator_disable env r (with_log s (log s ++ l)) =
        (r, with_log s (log s ++ l ++ evs)) /\
      (forall x, regulator_count x evs =
         - regulator_count x
             (enables (supply_regulators (priv s) ++ [vref (priv s)]))) /\
      no_clk evs).
  { intros l.
    destruct (err_regulator_disable_run env r (with_log s (log s ++ l)))
      as (a & evs & Hrun & Hops & Hcnt).
    cbn [priv mmio log with_log] in *.
    exists ((RegulatorDisable (vref (priv s)), a) :: evs).
    split; [|split].
    - rewrite Hrun. unfold with_log. cbn [priv mmio log].
      now rewrite <- app_assoc.
    - intros x. rewrite regulator_count_disable, Hcnt,
        regulator_count_enables_app. lia.
    - constructor; [reflexivity|]. eapply supply_dis_ops_no_clk, Hops. }
  destruct (bclk (priv s)) as [b|].
  - unfold clk_disable_unprepare. rewrite bind_call_.
    destruct (Hreg [(ClkDisableUnprepare b,
                     env (log s) (ClkDisableUnprepare b))])
      as (evs & Hrun & Hcnt & Hnc).
    cbv beta. fold (with_log s (log s ++ [(ClkDisableUnprepare b,
                     env (log s) (ClkDisableUnprepare b))])).
    rewrite Hrun. eexists. split; [reflexivity|]. split.
    + intros x. cbn [app regulator_count]. apply Hcnt.
    + intros c. cbn [app]. rewrite clk_count_disable.
      rewrite (clk_count_no_clk c evs Hnc). lia.
  - destruct (Hreg []) as (evs & Hrun & Hcnt & Hnc).
    rewrite app_nil_r, with_log_id in Hrun.
    change (bind (ret tt) (fun _ => err_regulator_disable env r) s)
      with (err_regulator_disable env r s).
    rewrite Hrun. exists evs. split; [reflexivity|]. split; [exact Hcnt|].
    intros c. now rewrite clk_count_no_clk.
Qed.

(* stm32_adc_core_hw_start from the test of priv->aclk on, every exit *)
Lemma hw_start_aclk_net env s :
  exists evs,
    log (snd (hw_start_aclk env s)) = log s ++ evs /\
    priv (snd (hw_start_aclk env s)) = priv s /\
    (fst (hw_start_aclk env s) <> 0 ->
     fst (hw_start_aclk env s) < 0 /\
     mmio (snd (hw_start_aclk env s)) = mmio s /\
     (forall x, regulator_count x evs =
        - regulator_count x
            (enables (supply_regulators (priv s) ++ [vref (priv s)]))) /\
     (forall c, clk_count c evs =
        - clk_count c
          (clk_enables match bclk (priv s) with Some b => [b] | None => [] end))) /\
    (fst (hw_start_aclk env s) = 0 ->
     (forall x, regulator_count x evs = 0) /\
     (forall c, clk_count c evs =
        clk_count c
          (clk_enables match aclk (priv s) with Some a => [a] | None => [] end))).
Proof.
  unfold hw_start_aclk. rewrite bind_get_priv.
  destruct (aclk (priv s)) as [a|].
  - unfold clk_prepare_enable. rewrite bind_call.
    set (e := env (log s) (ClkPrepareEnable a)).
    destruct (Z.ltb_spec e 0) as [He|He].
    + destruct (err_bclk_disable_net env e
                  (with_log s (log s ++ [(ClkPrepareEnable a, e)])))
        as (evs & -> & Hcnt & Hclk).
      cbn [fst snd priv mmio log with_log] in *.
      exists ((ClkPrepareEnable a, e) :: evs).
      split; [now rewrite <- app_assoc|]. split; [reflexivity|].
      split; [|lia]. intros _. split; [exact He|]. split; [reflexivity|].
      split.
      * intros x. cbn [regulator_count]. apply Hcnt.
      * intros c. rewrite clk_count_enable_failed by exact He. apply Hclk.
    + eexists [(ClkPrepareEnable a, e); (Writel _ _, 0)].
      cbn [fst snd priv mmio log with_log writel_relaxed bind ret].
      split; [now rewrite <- app_assoc|]. split; [reflexivity|].
      split; [intros H; now contradiction H|]. intros _. split.
      * reflexivity.
      * intros c. rewrite clk_count_enable by exact He. cbn [clk_count]. lia.
  - eexists [(Writel _ _, 0)].
    cbn [fst snd priv mmio log with_log writel_relaxed bind ret].
    split; [reflexivity|]. split; [reflexivity|].
    split; [intros H; now contradiction H|]. intros _. now split.
Qed.

(* stm32_adc_core_hw_start, every exit *)
Lemma stm32_adc_core_hw_start_net env s :
  regmap_errno env ->
  exists evs,
    log (snd (stm32_adc_core_hw_start env s)) = log s ++ evs /\
    priv (snd (stm32_adc_core_hw_start env s)) = priv s /\
    (fst (stm32_adc_core_hw_start env s) <> 0 ->
     fst (stm32_adc_core_hw_start env s) < 0 /\
     mmio (snd (stm32_adc_core_hw_start env s)) = mmio s /\
     (forall x, regulator_count x evs = 0) /\
     (forall c, clk_count c evs = 0)) /\
    (fst (stm32_adc_core_hw_start env s) = 0 ->
     (forall x, regulator_count x evs =
        regulator_count x
          (enables (supply_regulators (priv s) ++ [vref (priv s)]))) /\
     (forall c, clk_count c evs =
        clk_count c (clk_enables (core_clocks (priv s))))).
Proof.
  intros Herr. unfold stm32_adc_core_hw_start. rewrite bind_get_priv.
  rewrite bind_fst_snd.
  destruct (stm32_adc_switches_supply_en_net env s)
    as (evs1 & Hs1 & Hnc1 & Hcnt1 & Hle1 & _).
  specialize (Hle1 Herr). rewrite Hs1.
  set (r1 := fst (stm32_adc_switches_supply_en env s)) in *.
  destruct (Z.ltb_spec r1 0) as [Hr1|Hr1].
  { exists evs1. cbn [ret fst snd priv mmio log with_log].
    split; [reflexivity|]. split; [reflexivity|]. split; [|lia].
    intros _. split; [exact Hr1|]. split; [reflexivity|]. split.
    - intros x. now rewrite Hcnt1, (eqb_neg_false _ Hr1).
    - intros c. now apply clk_count_no_clk. }
  assert (Hr0 : r1 = 0) by lia.
  rewrite Hr0 in Hcnt1. cbn [Z.eqb] in Hcnt1.
  unfold regulator_enable. rewrite bind_call. cbn [log with_log].
  set (vr := vref (priv s)).
  set (e2 := env (log s ++ evs1) (RegulatorEnable vr)).
  destruct (Z.ltb_spec e2 0) as [He2|He2].
  { match goal with |- context [err_switches_disable env e2 ?s0] =>
      destruct (err_switches_disable_run env e2 s0)
        as (evsd & -> & Hops & Hcnt) end.
    cbn [fst snd priv mmio log with_log] in *.
    exists (evs1 ++ (RegulatorEnable vr, e2) :: evsd).
    split; [now rewrite <- !app_assoc|]. split; [reflexivity|].
    split; [|lia]. intros _. split; [exact He2|]. split; [reflexivity|].
    split.
    - intros x. rewrite regulator_count_app, Hcnt1,
        regulator_count_enable_failed, Hcnt by exact He2. lia.
    - intros c. apply clk_count_no_clk. apply no_clk_app; [exact Hnc1|].
      constructor; [reflexivity|]. eapply supply_dis_ops_no_clk, Hops. }
  (* past the bus clock: the analog clock and the register *)
  assert (Haclk : forall l,
    (forall x, regulator_count x l = 0) ->
    (forall c, clk_count c l =
       clk_count c
         (clk_enables match bclk (priv s) with Some b => [b] | None => [] end)) ->
    let c0 := hw_start_aclk env
                (with_log s (log s ++ evs1 ++ (RegulatorEnable vr, e2) :: l)) in
    exists evs,
      log (snd c0) = log s ++ evs /\ priv (snd c0) = priv s /\
      (fst c0 <> 0 ->
       fst c0 < 0 /\ mmio (snd c0) = mmio s /\
       (forall x, regulator_count x evs = 0) /\
       (forall c, clk_count c evs = 0)) /\
      (fst c0 = 0 ->
       (forall x, regulator_count x evs =
          regulator_count x
            (enables (supply_regulators (priv s) ++ [vref (priv s)]))) /\
       (forall c, clk_count c evs =
          clk_count c (clk_enables (core_clocks (priv s)))))).
  { intros l Hl Hlc c0.
    destruct (hw_start_aclk_net env
                (with_log s (log s ++ evs1 ++ (RegulatorEnable vr, e2) :: l)))
      as (evs & Hlog & Hpriv & Hfail & Hok).
    fold c0 in Hlog, Hpriv, Hfail, Hok.
    cbn [priv mmio log with_log] in Hlog, Hpriv, Hfail, Hok.
    exists (evs1 ++ ((RegulatorEnable vr, e2) :: l) ++ evs).
    assert (Hregs : forall x,
      regulator_count x (evs1 ++ ((RegulatorEnable vr, e2) :: l) ++ evs) =
      regulator_count x (enables (supply_regulators (priv s) ++ [vr])) +
      regulator_count x evs).
    { intros x. rewrite !regulator_count_app, Hcnt1.
      rewrite regulator_count_enable by exact He2.
      rewrite Hl, regulator_count_enables_app. lia. }
    assert (Hclks : forall c,
      clk_count c (evs1 ++ ((RegulatorEnable vr, e2) :: l) ++ evs) =
      clk_count c
        (clk_enables match bclk (priv s) with Some b => [b] | None => [] end) +
      clk_count c evs).
    { intros c. rewrite !clk_count_app, (clk_count_no_clk c evs1 Hnc1).
      cbn [clk_count]. rewrite Hlc. lia. }
    split; [rewrite Hlog, <- !app_assoc; reflexivity|].
    split; [exact Hpriv|]. split.
    - intros Hne. destruct (Hfail Hne) as (Hneg & Hm & Hc & Hk).
      split; [exact Hneg|]. split; [exact Hm|]. split.
      + intros x. rewrite Hregs, Hc. fold vr. lia.
      + intros c. rewrite Hclks, Hk. lia.
    - intros H0. destruct (Hok H0) as (Hc & Hk). split.
      + intros x. rewrite Hregs, Hc. fold vr. lia.
      + intros c. rewrite Hclks, Hk. unfold core_clocks.
        rewrite clk_count_enables_app. lia. }
  destruct (bclk (priv s)) as [b|] eqn:Hb.
  - unfold clk_prepare_enable. rewrite bind_call. cbn [log with_log].
    match goal with |- context [env ?l (ClkPrepareEnable b)] =>
      set (e3 := env l (ClkPrepareEnable b)) end.
    destruct (Z.ltb_spec e3 0) as [He3|He3].
    { match goal with |- context [err_regulator_disable env e3 ?s0] =>
        destruct (err_regulator_disable_run env e3 s0)
          as (a & evsd & -> & Hops & Hcnt) end.
      cbn [fst snd priv mmio log with_log] in *.
      exists (evs1 ++ [(RegulatorEnable vr, e2); (ClkPrepareEnable b, e3);
                       (RegulatorDisable vr, a)] ++ evsd).
      split; [rewrite <- !app_assoc; reflexivity|]. split; [reflexivity|].
      split; [|lia]. intros _. split; [exact He3|]. split; [reflexivity|].
      split.
      - intros x. rewrite !regulator_count_app, Hcnt1, Hcnt.
        rewrite regulator_count_enable by exact He2.
        change (regulator_count x [(ClkPrepareEnable b, e3);
                                   (RegulatorDisable vr, a)])
          with (regulator_count x [(RegulatorDisable vr, a)]).
        rewrite regulator_count_disable.
        change (regulator_count x []) with 0. lia.
      - intros c. rewrite !clk_count_app, (clk_count_no_clk c evs1 Hnc1).
        rewrite (clk_count_no_clk c evsd (supply_dis_ops_no_clk _ _ Hops)).
        change (clk_count c [(RegulatorEnable vr, e2); (ClkPrepareEnable b, e3);
                             (RegulatorDisable vr, a)])
          with (clk_count c [(ClkPrepareEnable b, e3);
                             (RegulatorDisable vr, a)]).
        rewrite clk_count_enable_failed by exact He3. reflexivity. }
    match goal with |- context [hw_start_aclk env ?s0] =>
      replace s0
        with (with_log s (log s ++ evs1 ++
                (RegulatorEnable vr, e2) :: [(ClkPrepareEnable b, e3)]))
        by (unfold with_log; cbn [priv mmio log];
            rewrite <- !app_assoc; reflexivity) end.
    apply Haclk.
    + reflexivity.
    + intros c. rewrite clk_count_enable by exact He3.
      change (clk_count c []) with 0. lia.
  - match goal with |- context [hw_start_aclk env ?s0] =>
      replace s0
        with (with_log s (log s ++ evs1 ++ (RegulatorEnable vr, e2) :: []))
        by (unfold with_log; cbn [priv mmio log];
            rewrite <- !app_assoc; reflexivity) end.
    apply Haclk; reflexivity.
Qed.

(* stm32_adc_core_hw_stop: what it releases, and in which order *)
Lemma stm32_adc_core_hw_stop_net env s :
  exists evs,
    stm32_adc_core_hw_stop env s =
    (tt, {| priv := set_ccr_bak (priv s)
                      (u32 (mmio s (ccr (regs (cfg (priv s))))));
            mmio := mmio s;
            log := log s ++ evs |}) /\
    map fst evs =
      map ClkDisableUnprepare (rev (core_clocks (priv s))) ++
      RegulatorDisable (vref (priv s)) :: supply_dis_ops (priv s) /\
    (forall x, regulator_count x evs =
       - regulator_count x
           (enables (supply_regulators (priv s) ++ [vref (priv s)]))) /\
    (forall c, clk_count c evs =
       - clk_count c (clk_enables (core_clocks (priv s)))).
Proof.
  unfold stm32_adc_core_hw_stop.
  rewrite bind_get_priv, bind_readl.
  unfold bind at 1, put_priv.
  assert (Hclk : forall (c : option clk) s0 A (k : unit -> M A),
    exists l,
      bind match c with
           | Some a => clk_disable_unprepare env a
           | None => ret tt
           end k s0 = k tt (with_log s0 (log s0 ++ l)) /\
      map fst l = map ClkDisableUnprepare
                    match c with Some a => [a] | None => [] end /\
      (forall x, regulator_count x l = 0) /\
      (forall c', clk_count c' l =
         - clk_count c'
             (clk_enables match c with Some a => [a] | None => [] end))).
  { intros [c|] s0 A k.
    - exists [(ClkDisableUnprepare c, env (log s0) (ClkDisableUnprepare c))].
      split; [reflexivity|]. split; [reflexivity|]. split; [reflexivity|].
      intros c'. rewrite clk_count_disable. change (clk_count c' []) with 0. lia.
    - exists []. rewrite app_nil_r, with_log_id. now repeat split. }
  destruct (Hclk (aclk (priv s))
              {| priv := set_ccr_bak (priv s)
                           (u32 (mmio s (ccr (regs (cfg (priv s))))));
                 mmio := mmio s; log := log s |}) with (A := unit)
    (k := fun _ : unit =>
            bind match bclk (priv s) with
                 | Some b => clk_disable_unprepare env b
                 | None => ret tt
                 end
              (fun _ => bind (regulator_disable env (vref (priv s)))
                          (fun _ => stm32_adc_switches_supply_dis env)))
    as (l1 & -> & Ho1 & Hr1 & Hc1).
  match goal with |- context [bind _ ?k0 ?s0] =>
    destruct (Hclk (bclk (priv s)) s0 unit k0) as (l2 & -> & Ho2 & Hr2 & Hc2) end.
  rewrite (bind_run _ _ _ _ _ (regulator_disable_run env _ _)).
  match goal with |- context [stm32_adc_switches_supply_dis env ?s0] =>
    destruct (stm32_adc_switches_supply_dis_run env s0)
      as (l3 & -> & Ho3 & Hr3) end.
  cbn [priv mmio log with_log] in *.
  match goal with |- context [(RegulatorDisable (vref (priv s)), ?a)] =>
    set (e := a) end.
  exists (l1 ++ l2 ++ (RegulatorDisable (vref (priv s)), e) :: l3).
  split; [|split; [|split]].
  - unfold with_log. cbn [priv mmio log]. rewrite <- !app_assoc. reflexivity.
  - unfold event in *. rewrite !map_app. cbn [map fst].
    rewrite Ho1, Ho2, Ho3. unfold core_clocks.
    rewrite rev_app_distr, map_app, <- app_assoc.
    destruct (aclk (priv s)), (bclk (priv s)); reflexivity.
  - intros x. rewrite !regulator_count_app, Hr1, Hr2.
    rewrite regulator_count_disable, Hr3, regulator_count_enables_app.
    change (supply_regulators (set_ccr_bak (priv s) (u32 (mmio s (ccr (regs (cfg (priv s))))))))
      with (supply_regulators (priv s)). lia.
  - intros c. rewrite !clk_count_app, Hc1, Hc2.
    change (clk_count c ((RegulatorDisable (vref (priv s)), e) :: l3))
      with (clk_count c l3).
    rewrite (clk_count_no_clk c l3 (supply_dis_ops_no_clk _ _ Ho3)).
    unfold core_clocks. rewrite clk_count_enables_app. lia.
Qed.


Lemma supply_env_regmap_errno va vd b : regmap_errno (supply_env va vd b).
Proof. intros l o Ho. destruct o; try discriminate Ho; cbn; lia. Qed.


(** X11. Under regmap calls that answer 0 or a negative errno, a successful
    stm32_adc_core_hw_start followed by stm32_adc_core_hw_stop leaves every
    regulator and every clock balanced, and hw_stop releases in the reverse
    order of the start: the analog clock, the bus clock, vref, then the
    analog switches supply. *)
Theorem hw_start_stop_balanced env s :
  regmap_errno env ->
  fst (stm32_adc_core_hw_start env s) = 0 ->
  let s1 := snd (stm32_adc_core_hw_start env s) in
  let s2 := snd (stm32_adc_core_hw_stop env s1) in
  (forall x, regulator_count x (new_events s s1) =
             regulator_count x
               (enables (supply_regulators (priv s) ++ [vref (priv s)]))) /\
  (forall c, clk_count c (new_events s s1) =
             clk_count c (clk_enables (core_clocks (priv s)))) /\
  map fst (new_events s1 s2) =
    map ClkDisableUnprepare (rev (core_clocks (priv s))) ++
    RegulatorDisable (vref (priv s)) :: supply_dis_ops (priv s) /\
  (forall x, regulator_count x (new_events s s2) = 0) /\
  (forall c, clk_count c (new_events s s2) = 0).
Proof.
  intros Herr H0 s1 s2.
  destruct (stm32_adc_core_hw_start_net env s Herr)
    as (evs & Hlog & Hpriv & _ & Hok).
  destruct (Hok H0) as (Hr & Hc).
  destruct (stm32_adc_core_hw_stop_net env s1) as (evs2 & Hrun & Hops & Hr2 & Hc2).
  fold s1 in Hlog, Hpriv.
  assert (Hlog2 : log s2 = log s1 ++ evs2) by (unfold s2; now rewrite Hrun).
  rewrite Hpriv in Hops, Hr2, Hc2.
  unfold new_events. rewrite Hlog2, !skipn_length_app, Hlog, <- app_assoc,
    !skipn_length_app.
  split; [exact Hr|]. split; [exact Hc|]. split; [exact Hops|]. split.
  - intros x. rewrite regulator_count_app, Hr, Hr2. lia.
  - intros c. rewrite clk_count_app, Hc, Hc2. lia.
Qed.

Lemma hw_start_stop_balanced_witness :
  let env := supply_env 3300000 3300000 0 in
  let s := boot mp1_priv in
  let s1 := snd (stm32_adc_core_hw_start env s) in
  let s2 := snd (stm32_adc_core_hw_stop env s1) in
  map fst (new_events s1 s2) =
    [ClkDisableUnprepare adc_clk; ClkDisableUnprepare bus_clk;
     RegulatorDisable vref_reg;
     RegmapWrite syscfg_map 0x44 0x200; RegmapWrite syscfg_map 0x44 0x100;
     RegulatorDisable vdd_reg; RegulatorDisable vdda_reg] /\
  (forall x, regulator_count x (new_events s s2) = 0) /\
  (forall c, clk_count c (new_events s s2) = 0).
Proof.
  intros env s s1 s2. split; [reflexivity|].
  destruct (hw_start_stop_balanced env s) as (_ & _ & _ & Hr & Hc).
  - apply supply_env_regmap_errno.
  - reflexivity.
  - split; [exact Hr | exact Hc].
Defined.

(** ** Interrupt lines: probe and remove *)

Lemma array_set_length a : forall i v, length (array_set a i v) = length a.
Proof.
  induction a as [|h t IH]; intros [|i] v; cbn [array_set length];
    try reflexivity.
  now rewrite IH.
Qed.

Lemma nth_array_set_eq a : forall i v d,
  (i < length a)%nat -> nth i (array_set a i v) d = v.
Proof.
  induction a as [|h t IH]; intros [|i] v d Hi; cbn [length] in Hi;
    try lia; cbn [array_set nth]; [reflexivity|].
  apply IH. lia.
Qed.

Lemma nth_array_set_neq a : forall i j v d,
  i <> j -> nth j (array_set a i v) d = nth j a d.
Proof.
  induction a as [|h t IH]; intros [|i] [|j] v d Hij; cbn [array_set nth];
    try reflexivity; try congruence.
  apply IH. congruence.
Qed.

Lemma irq_refused_negative get j :
  negb (irq_line_tolerated get j) = true ->
  get j < 0 /\ (j = 0%nat \/ get j <> - ENXIO).
Proof.
  unfold irq_line_tolerated. intros H.
  apply negb_true_iff, orb_false_iff in H. destruct H as (Hneg & Htol).
  apply Z.leb_gt in Hneg. split; [exact Hneg|].
  apply andb_false_iff in Htol. destruct Htol as [H0|Hx].
  - left. apply negb_false_iff, Nat.eqb_eq in H0. exact H0.
  - right. now apply Z.eqb_neq.
Qed.

(* the first loop of stm32_adc_irq_probe stops at the first refused line *)
Lemma irq_probe_get_spec get n : forall i c,
  (i + n <= length (irq c))%nat ->
  let r := irq_probe_get get n i c in
  length (irq (snd r)) = length (irq c) /\
  domain (snd r) = domain c /\
  (forall j, (j < i)%nat -> nth j (irq (snd r)) 0 = nth j (irq c) 0) /\
  match find (fun k => negb (irq_line_tolerated get k)) (seq i n) with
  | Some j =>
      fst r = Some (get j) /\
      calls (snd r) =
        calls c ++ map (fun k => PlatformGetIrq k (get k)) (seq i (S j - i))
  | None =>
      fst r = None /\
      calls (snd r) =
        calls c ++ map (fun k => PlatformGetIrq k (get k)) (seq i n) /\
      forall j, (i <= j < i + n)%nat -> nth j (irq (snd r)) 0 = get j
  end.
Proof.
  induction n as [|n IH]; intros i c Hlen r.
  - subst r. cbn [irq_probe_get seq find fst snd map].
    rewrite app_nil_r. repeat split; intros; lia.
  - subst r. cbn [irq_probe_get seq find irq].
    rewrite nth_array_set_eq by lia.
    set (v := get i).
    set (c1 := {| irq := array_set (irq c) i v; domain := domain c;
                  calls := calls c ++ [PlatformGetIrq i v] |}).
    assert (Hlen1 : (S i + n <= length (irq c1))%nat)
      by (cbn [irq c1]; rewrite array_set_length; lia).
    (* what a further round gives *)
    assert (Hnext :
      irq_line_tolerated get i = true ->
      let r := irq_probe_get get n (S i) c1 in
      length (irq (snd r)) = length (irq c) /\
      domain (snd r) = domain c /\
      (forall j, (j < i)%nat -> nth j (irq (snd r)) 0 = nth j (irq c) 0) /\
      match find (fun k => negb (irq_line_tolerated get k)) (seq (S i) n) with
      | Some j =>
          fst r = Some (get j) /\
          calls (snd r) =
            calls c ++ map (fun k => PlatformGetIrq k (get k)) (seq i (S j - i))
      | None =>
          fst r = None /\
          calls (snd r) =
            calls c ++ map (fun k => PlatformGetIrq k (get k)) (seq i (S n)) /\
          forall j, (i <= j < i + S n)%nat -> nth j (irq (snd r)) 0 = get j
      end).
    { intros _ r. specialize (IH (S i) c1 Hlen1). cbv zeta in IH.
      fold r in IH. destruct IH as (Hl & Hd & Hlow & Hfind).
      split; [rewrite Hl; cbn [irq c1]; apply array_set_length|].
      split; [exact Hd|]. split.
      { intros j Hj. rewrite Hlow by lia. cbn [irq c1].
        apply nth_array_set_neq. lia. }
      destruct (find (fun k => negb (irq_line_tolerated get k)) (seq (S i) n))
        as [j|] eqn:Hf.
      - destruct Hfind as (Hr & Hc). split; [exact Hr|].
        apply find_some in Hf. destruct Hf as (Hin & _).
        apply in_seq in Hin.
        replace (S j - i)%nat with (S (S j - S i)) by lia.
        rewrite Hc. cbn [calls c1 seq map]. rewrite <- app_assoc. reflexivity.
      - destruct Hfind as (Hr & Hc & Hnth). split; [exact Hr|]. split.
        + rewrite Hc. cbn [calls c1 seq map]. rewrite <- app_assoc. reflexivity.
        + intros j Hj. destruct (Nat.eq_dec j i) as [->|Hne].
          * rewrite Hlow by lia. cbn [irq c1]. apply nth_array_set_eq. lia.
          * apply Hnth. lia. }
    unfold irq_line_tolerated at 1. fold v.
    unfold irq_line_tolerated at 1 in Hnext. fold v in Hnext.
    destruct (Z.ltb_spec v 0) as [Hv|Hv].
    + replace (0 <=? v) with false in * by (symmetry; apply Z.leb_gt; lia).
      cbn [orb] in *.
      destruct (negb (Nat.eqb i 0) && (v =? - ENXIO)) eqn:Htol; cbn [negb].
      * apply Hnext. reflexivity.
      * cbn [fst snd irq domain calls c1].
        split; [apply array_set_length|]. split; [reflexivity|]. split.
        { intros j Hj. apply nth_array_set_neq. lia. }
        split; [reflexivity|].
        replace (S i - i)%nat with 1%nat by lia. reflexivity.
    + replace (0 <=? v) with true in * by (symmetry; apply Z.leb_le; lia).
      cbn [orb negb] in *. apply Hnext. reflexivity.
Qed.

Lemma irq_probe_chain_run : forall n i c,
  irq_probe_chain n i c =
  {| irq := irq c; domain := domain c;
     calls := calls c ++
       flat_map (fun k =>
                   if nth k (irq c) 0 <? 0 then []
                   else [IrqSetChainedHandler (nth k (irq c) 0)
                           stm32_adc_irq_handler_fn;
                         IrqSetHandlerData (nth k (irq c) 0)])
         (seq i n) |}.
Proof.
  induction n as [|n IH]; intros i c; cbn [irq_probe_chain seq flat_map].
  - rewrite app_nil_r. now destruct c.
  - destruct (nth i (irq c) 0 <? 0); rewrite IH; [reflexivity|].
    cbn [irq_called irq domain calls]. rewrite <- !app_assoc. reflexivity.
Qed.

Lemma irq_remove_mappings_run fm : forall n h c,
  irq_remove_mappings fm n h c =
  {| irq := irq c; domain := domain c;
     calls := calls c ++
       flat_map (fun k =>
                   [IrqFindMapping (domain c) (Z.of_nat k)
                      (fm (domain c) (Z.of_nat k));
                    IrqDisposeMapping (fm (domain c) (Z.of_nat k))])
         (seq h n) |}.
Proof.
  induction n as [|n IH]; intros h c; cbn [irq_remove_mappings seq flat_map].
  - rewrite app_nil_r. now destruct c.
  - rewrite IH. cbn [irq_called irq domain calls].
    rewrite <- !app_assoc. reflexivity.
Qed.

Lemma irq_remove_chain_run : forall n i c,
  irq_remove_chain n i c =
  {| irq := irq c; domain := domain c;
     calls := calls c ++
       flat_map (fun k =>
                   if nth k (irq c) 0 <? 0 then []
                   else [IrqSetChainedHandler (nth k (irq c) 0) no_handler])
         (seq i n) |}.
Proof.
  induction n as [|n IH]; intros i c; cbn [irq_remove_chain seq flat_map].
  - rewrite app_nil_r. now destruct c.
  - destruct (nth i (irq c) 0 <? 0); rewrite IH; [reflexivity|].
    cbn [irq_called irq domain calls]. rewrite <- !app_assoc. reflexivity.
Qed.

(* a loop over the indices that skips the absent lines visits the lines
   found *)
Lemma flat_map_lines_found (f : Z -> list irq_call) a l :
  (forall k, In k l -> (k < length a)%nat) ->
  flat_map (fun k => if nth k a 0 <? 0 then [] else f (nth k a 0)) l =
  flat_map f (filter (fun v => 0 <=? v) (map (fun k => nth k a 0) l)).
Proof.
  induction l as [|k l IH]; intros Hl; [reflexivity|].
  cbn [flat_map map filter]. rewrite IH by (intros; apply Hl; now right).
  rewrite Z.leb_antisym. destruct (nth k a 0 <? 0); reflexivity.
Qed.

Lemma chained_lines_app h l1 l2 :
  chained_lines h (l1 ++ l2) = chained_lines h l1 ++ chained_lines h l2.
Proof. apply flat_map_app. Qed.

Lemma chained_lines_get_irq h l :
  Forall is_platform_get_irq l -> chained_lines h l = [].
Proof.
  induction 1 as [|e l He _ IH]; [reflexivity|].
  cbn [chained_lines flat_map]. fold (chained_lines h l). rewrite IH.
  destruct e; try contradiction He; reflexivity.
Qed.

Lemma Forall_platform_get_irq get l :
  Forall is_platform_get_irq (map (fun k => PlatformGetIrq k (get k)) l).
Proof. apply Forall_map. apply Forall_forall. intros; exact I. Qed.

Lemma chained_lines_set h (l : list Z) :
  chained_lines stm32_adc_irq_handler_fn
    (flat_map (fun v => [IrqSetChainedHandler v stm32_adc_irq_handler_fn;
                         IrqSetHandlerData v]) l) = l /\
  chained_lines no_handler
    (flat_map (fun v => [IrqSetChainedHandler v no_handler]) l) = l /\
  chained_lines h
    (flat_map (fun v => [IrqSetChainedHandler v
                           match h with
                           | stm32_adc_irq_handler_fn => no_handler
                           | no_handler => stm32_adc_irq_handler_fn
                           end]) l) = [].
Proof.
  induction l as [|v l (IH1 & IH2 & IH3)]; [now repeat split|].
  cbn [flat_map]. rewrite !chained_lines_app, IH1, IH2, IH3.
  split; [reflexivity|]. split; [reflexivity|]. now destruct h.
Qed.

(* the array after the first loop ran to its end *)
Lemma irq_array_filled get (a : list Z) n :
  length a = n ->
  (forall j, (j < n)%nat -> nth j a 0 = get j) ->
  a = map get (seq 0 n).
Proof.
  intros Hlen Hnth. apply nth_ext with (d := 0) (d' := get 0%nat).
  - now rewrite length_map, length_seq.
  - intros j Hj. rewrite Hnth by lia.
    rewrite map_nth, seq_nth by lia. reflexivity.
Qed.

(* stm32_adc_irq_probe, every exit *)
Lemma stm32_adc_irq_probe_run max get add c :
  length (irq c) = max ->
  let r := stm32_adc_irq_probe max get add c in
  let size := Z.of_nat max * 2 in
  match irq_first_refused max get with
  | Some j =>
      fst r = get j /\ domain (snd r) = domain c /\
      calls (snd r) =
        calls c ++ map (fun k => PlatformGetIrq k (get k)) (seq 0 (S j))
  | None =>
      irq (snd r) = map get (seq 0 max) /\
      domain (snd r) = add size 0 /\
      calls (snd r) =
        calls c ++ map (fun k => PlatformGetIrq k (get k)) (seq 0 max) ++
        [IrqDomainAddSimple size 0 (add size 0)] ++
        match add size 0 with
        | None => []
        | Some _ =>
            flat_map (fun v => [IrqSetChainedHandler v stm32_adc_irq_handler_fn;
                                IrqSetHandlerData v])
              (irq_lines_found max get)
        end /\
      fst r = match add size 0 with None => - ENOMEM | Some _ => 0 end
  end.
Proof.
  intros Hlen r size. subst r. unfold stm32_adc_irq_probe, irq_first_refused.
  destruct (irq_probe_get_spec get max 0 c) as (Hl & Hd & _ & Hfind); [lia|].
  destruct (irq_probe_get get max 0 c) as [r c1].
  cbn [fst snd] in Hl, Hd, Hfind.
  destruct (find (fun i => negb (irq_line_tolerated get i)) (seq 0 max)) as [j|].
  - destruct Hfind as (-> & Hc). cbn [fst snd].
    rewrite Nat.sub_0_r in Hc. now repeat split.
  - destruct Hfind as (-> & Hc & Hnth). fold size.
    assert (Hirq : irq c1 = map get (seq 0 max)).
    { apply irq_array_filled; [lia|]. intros j Hj. apply Hnth. lia. }
    cbn [domain].
    destruct (add size 0) as [d|]; cbn [fst snd irq domain calls].
    + rewrite irq_probe_chain_run. cbn [irq domain calls].
      split; [exact Hirq|]. split; [reflexivity|]. split; [|reflexivity].
      rewrite Hc, <- !app_assoc. do 3 f_equal.
      pose proof (flat_map_lines_found
                    (fun v => [IrqSetChainedHandler v stm32_adc_irq_handler_fn;
                               IrqSetHandlerData v]) (irq c1) (seq 0 max)) as Hf.
      cbv beta in Hf. rewrite Hf.
      * unfold irq_lines_found. do 2 f_equal.
        apply map_ext_in. intros k Hk. apply in_seq in Hk. apply Hnth. lia.
      * intros k Hk. apply in_seq in Hk. lia.
    + split; [exact Hirq|]. split; [reflexivity|]. split; [|reflexivity].
      rewrite Hc, <- !app_assoc. reflexivity.
Qed.

Lemma chained_lines_mappings h (f : nat -> irq_call * irq_call) l :
  (forall k, match fst (f k), snd (f k) with
             | IrqFindMapping _ _ _, IrqDisposeMapping _ => True
             | _, _ => False
             end) ->
  chained_lines h (flat_map (fun k => [fst (f k); snd (f k)]) l) = [].
Proof.
  intros Hf. induction l as [|k l IH]; [reflexivity|].
  cbn [flat_map]. rewrite chained_lines_app, IH. specialize (Hf k).
  destruct (fst (f k)); try contradiction Hf.
  destruct (snd (f k)); try contradiction Hf. reflexivity.
Qed.

(** X12. Stm32_adc_irq_probe returns the answer of platform_get_irq for the
    first line it refuses: a negative answer for line 0, whatever it is, or
    for a later line a negative answer other than -ENXIO.  With no line
    refused it returns -ENOMEM when the domain cannot be added, 0 otherwise.
    It never returns a positive value; when a line is refused it has only
    called platform_get_irq and left the domain alone, and whenever it fails
    it has installed no chained handler. *)
Theorem stm32_adc_irq_probe_codes max get add c :
  length (irq c) = max ->
  let r := stm32_adc_irq_probe max get add c in
  fst r = match irq_first_refused max get with
          | Some j => get j
          | None => match add (Z.of_nat max * 2) 0 with
                    | None => - ENOMEM
                    | Some _ => 0
                    end
          end /\
  fst r <= 0 /\
  (forall j, irq_first_refused max get = Some j ->
     get j < 0 /\ (j = 0%nat \/ get j <> - ENXIO) /\
     domain (snd r) = domain c /\
     Forall is_platform_get_irq (new_calls c (snd r))) /\
  (fst r <> 0 ->
   chained_lines stm32_adc_irq_handler_fn (new_calls c (snd r)) = []).
Proof.
  intros Hlen r. pose proof (stm32_adc_irq_probe_run max get add c Hlen) as H.
  cbv zeta in H. fold r in H. unfold new_calls.
  destruct (irq_first_refused max get) as [j|] eqn:Hf.
  - destruct H as (Hr & Hd & Hc).
    apply find_some in Hf. destruct Hf as (_ & Hbad).
    apply irq_refused_negative in Hbad. destruct Hbad as (Hneg & Hwhy).
    rewrite Hc, skipn_length_app.
    split; [exact Hr|]. split; [lia|]. split.
    + intros j' [= <-]. split; [exact Hneg|]. split; [exact Hwhy|].
      split; [exact Hd|]. apply Forall_platform_get_irq.
    + intros _. apply chained_lines_get_irq, Forall_platform_get_irq.
  - destruct H as (_ & _ & Hc & Hr).
    rewrite Hc, skipn_length_app.
    split; [exact Hr|]. split.
    { rewrite Hr. destruct (add (Z.of_nat max * 2) 0); unfold ENOMEM; lia. }
    split; [discriminate|].
    intros Hne. rewrite Hr in Hne.
    destruct (add (Z.of_nat max * 2) 0); [now contradiction Hne|].
    rewrite app_nil_r, chained_lines_app.
    rewrite (chained_lines_get_irq _ _ (Forall_platform_get_irq get _)).
    reflexivity.
Qed.

Lemma stm32_adc_irq_probe_codes_witness :
  let get := platform_lines [] in
  let add := fun _ _ : Z => Some 7%nat in
  let r := stm32_adc_irq_probe 3 get add (irqs_boot 3) in
  fst r = - ENXIO /\ fst r <= 0 /\
  chained_lines stm32_adc_irq_handler_fn (new_calls (irqs_boot 3) (snd r)) = [].
Proof.
  intros get add r.
  destruct (stm32_adc_irq_probe_codes 3 get add (irqs_boot 3)) as (Hr & Hle & _ & Hno).
  - reflexivity.
  - split; [exact Hr|]. split; [exact Hle|]. apply Hno.
    vm_compute. discriminate.
Defined.

(** X13. When stm32_adc_irq_probe succeeds, every line was tolerated, irq[]
    holds what platform_get_irq answered for each index, the domain is the
    one irq_domain_add_simple returned for 2 * STM32_ADC_MAX_ADCS lines, and
    the chained handler and its data were installed, in index order, on
    exactly the lines that were found (answer not negative). *)
Theorem stm32_adc_irq_probe_installs max get add c :
  length (irq c) = max ->
  fst (stm32_adc_irq_probe max get add c) = 0 ->
  let c' := snd (stm32_adc_irq_probe max get add c) in
  (forall i, (i < max)%nat -> irq_line_tolerated get i = true) /\
  irq c' = map get (seq 0 max) /\
  domain c' = add (Z.of_nat max * 2) 0 /\ domain c' <> None /\
  new_calls c c' =
    map (fun k => PlatformGetIrq k (get k)) (seq 0 max) ++
    [IrqDomainAddSimple (Z.of_nat max * 2) 0 (domain c')] ++
    flat_map (fun v => [IrqSetChainedHandler v stm32_adc_irq_handler_fn;
                        IrqSetHandlerData v])
      (irq_lines_found max get) /\
  chained_lines stm32_adc_irq_handler_fn (new_calls c c') =
    irq_lines_found max get.
Proof.
  intros Hlen H0 c'.
  pose proof (stm32_adc_irq_probe_run max get add c Hlen) as H.
  cbv zeta in H. fold c' in H. rewrite H0 in H. unfold new_calls.
  destruct (irq_first_refused max get) as [j|] eqn:Hf.
  { destruct H as (Hr & _).
    apply find_some in Hf. destruct Hf as (_ & Hbad).
    apply irq_refused_negative in Hbad. lia. }
  destruct H as (Hirq & Hd & Hc & Hr).
  rewrite Hc, skipn_length_app, Hd.
  destruct (add (Z.of_nat max * 2) 0) as [d|];
    [|unfold ENOMEM in Hr; lia].
  split.
  { intros i Hi. unfold irq_first_refused in Hf.
    assert (Ht := find_none _ _ Hf i). cbv beta in Ht.
    apply negb_false_iff, Ht, in_seq. lia. }
  split; [exact Hirq|]. split; [reflexivity|]. split; [discriminate|].
  split; [reflexivity|].
  rewrite !chained_lines_app.
  rewrite (chained_lines_get_irq _ _ (Forall_platform_get_irq get _)).
  destruct (chained_lines_set stm32_adc_irq_handler_fn (irq_lines_found max get))
    as (-> & _). reflexivity.
Qed.

Lemma stm32_adc_irq_probe_installs_witness :
  let get := platform_lines [38; 39] in
  let add := fun _ _ : Z => Some 7%nat in
  let c' := snd (stm32_adc_irq_probe 3 get add (irqs_boot 3)) in
  irq c' = [38; 39; - ENXIO] /\
  chained_lines stm32_adc_irq_handler_fn (new_calls (irqs_boot 3) c') = [38; 39].
Proof.
  intros get add c'.
  destruct (stm32_adc_irq_probe_installs 3 get add (irqs_boot 3))
    as (_ & Hirq & _ & _ & _ & Hl).
  - reflexivity.
  - reflexivity.
  - split; [exact Hirq | exact Hl].
Defined.

(** X14. After a successful stm32_adc_irq_probe, stm32_adc_irq_remove
    disposes of the mapping of each of the 2 * STM32_ADC_MAX_ADCS lines of
    the domain in ascending order, removes the domain that was added, then
    clears the chained handler on exactly the lines on which the probe had
    installed it, in the same order; it installs none, and leaves irq[] and
    the domain pointer as they were. *)
Theorem stm32_adc_irq_remove_undoes_probe max get add fm c :
  length (irq c) = max ->
  fst (stm32_adc_irq_probe max get add c) = 0 ->
  let c1 := snd (stm32_adc_irq_probe max get add c) in
  let c2 := stm32_adc_irq_remove max fm c1 in
  new_calls c1 c2 =
    flat_map (fun k => [IrqFindMapping (domain c1) (Z.of_nat k)
                          (fm (domain c1) (Z.of_nat k));
                        IrqDisposeMapping (fm (domain c1) (Z.of_nat k))])
      (seq 0 (max * 2)) ++
    [IrqDomainRemove (domain c1)] ++
    map (fun v => IrqSetChainedHandler v no_handler) (irq_lines_found max get) /\
  domain c1 = add (Z.of_nat max * 2) 0 /\
  chained_lines no_handler (new_calls c1 c2) =
    chained_lines stm32_adc_irq_handler_fn (new_calls c c1) /\
  chained_lines stm32_adc_irq_handler_fn (new_calls c1 c2) = [] /\
  irq c2 = irq c1 /\ domain c2 = domain c1.
Proof.
  intros Hlen H0 c1 c2.
  pose proof (stm32_adc_irq_probe_run max get add c Hlen) as H.
  cbv zeta in H. fold c1 in H. rewrite H0 in H.
  destruct (irq_first_refused max get) as [j|] eqn:Hf.
  { destruct H as (Hr & _).
    apply find_some in Hf. destruct Hf as (_ & Hbad).
    apply irq_refused_negative in Hbad. lia. }
  destruct H as (Hirq & Hd & Hc & Hr).
  destruct (add (Z.of_nat max * 2) 0) as [d|] eqn:Hadd;
    [|unfold ENOMEM in Hr; lia].
  assert (Hrun : new_calls c1 c2 =
    flat_map (fun k => [IrqFindMapping (domain c1) (Z.of_nat k)
                          (fm (domain c1) (Z.of_nat k));
                        IrqDisposeMapping (fm (domain c1) (Z.of_nat k))])
      (seq 0 (max * 2)) ++
    [IrqDomainRemove (domain c1)] ++
    flat_map (fun v => [IrqSetChainedHandler v no_handler])
      (irq_lines_found max get)).
  { unfold c2, stm32_adc_irq_remove, new_calls.
    rewrite irq_remove_chain_run, irq_remove_mappings_run.
    cbn [irq_called irq domain calls].
    rewrite <- !app_assoc, skipn_length_app. do 2 f_equal.
    pose proof (flat_map_lines_found
                  (fun v => [IrqSetChainedHandler v no_handler])
                  (irq c1) (seq 0 max)) as Hfm.
    cbv beta in Hfm. rewrite Hfm.
    - unfold irq_lines_found. do 2 f_equal. rewrite Hirq.
      apply map_ext_in. intros k Hk. apply in_seq in Hk.
      rewrite nth_indep with (d' := get 0%nat)
        by (rewrite length_map, length_seq; lia).
      rewrite map_nth, seq_nth by lia. reflexivity.
    - intros k Hk. apply in_seq in Hk.
      rewrite Hirq, length_map, length_seq. lia. }
  assert (Hmaps : forall h,
    chained_lines h
      (flat_map (fun k => [IrqFindMapping (domain c1) (Z.of_nat k)
                             (fm (domain c1) (Z.of_nat k));
                           IrqDisposeMapping (fm (domain c1) (Z.of_nat k))])
         (seq 0 (max * 2))) = []).
  { intros h.
    apply (chained_lines_mappings h
             (fun k => (IrqFindMapping (domain c1) (Z.of_nat k)
                          (fm (domain c1) (Z.of_nat k)),
                        IrqDisposeMapping (fm (domain c1) (Z.of_nat k))))).
    intros k. exact I. }
  split.
  { rewrite Hrun. reflexivity. }
  split; [exact Hd|].
  rewrite Hrun, !chained_lines_app, !Hmaps.
  destruct (chained_lines_set stm32_adc_irq_handler_fn (irq_lines_found max get))
    as (Hset & Hclr & Hnone).
  cbv iota in Hnone. rewrite Hclr, Hnone.
  split.
  { unfold new_calls at 1. rewrite Hc, skipn_length_app, !chained_lines_app.
    rewrite (chained_lines_get_irq _ _ (Forall_platform_get_irq get _)), Hset.
    reflexivity. }
  split; [reflexivity|].
  unfold c2, stm32_adc_irq_remove.
  rewrite irq_remove_chain_run, irq_remove_mappings_run.
  now split.
Qed.

Lemma stm32_adc_irq_remove_undoes_probe_witness :
  let get := platform_lines [38; 39] in
  let add := fun _ _ : Z => Some 7%nat in
  let fm := fun (_ : option irq_domain_t) h => 100 + h in
  let c1 := snd (stm32_adc_irq_probe 3 get add (irqs_boot 3)) in
  let c2 := stm32_adc_irq_remove 3 fm c1 in
  chained_lines no_handler (new_calls c1 c2) = [38; 39] /\
  chained_lines no_handler (new_calls c1 c2) =
    chained_lines stm32_adc_irq_handler_fn (new_calls (irqs_boot 3) c1).
Proof.
  intros get add fm c1 c2. split; [reflexivity|].
  destruct (stm32_adc_irq_remove_undoes_probe 3 get add fm (irqs_boot 3))
    as (_ & _ & H & _).
  - reflexivity.
  - reflexivity.
  - exact H.
Defined.

(** ** SYSCFG cells: probe *)

Lemma stm32_adc_get_syscfg_cell_spec lookup read c prop :
  let r := stm32_adc_get_syscfg_cell lookup read c prop in
  fst r = cell_code lookup read prop /\
  syscfg_present (snd r) = cell_there lookup prop /\
  (lookup_errors_negative lookup -> fst r = 0 ->
   cell_found lookup read prop (snd r)).
Proof.
  unfold stm32_adc_get_syscfg_cell, cell_code, cell_found, cell_there,
    read_u32_index, syscfg_present.
  cbv zeta.
  destruct (lookup prop) as [err|m] eqn:Hl.
  - destruct (Z.eqb_spec err (- ENODEV)) as [He|He]; cbn [fst snd regmap].
    + split; [reflexivity|]. split; [reflexivity|].
      intros _ _. split; [exact He | reflexivity].
    + split; [reflexivity|]. split; [reflexivity|].
      intros Hneg H0. specialize (Hneg prop err Hl). lia.
  - destruct (read prop 1) as [r1 v1]. cbn [fst snd].
    destruct (Z.eqb_spec r1 0) as [->|H1]; cbn [negb fst snd].
    + destruct (read prop 2) as [r2 v2]. cbn [fst snd regmap reg mask].
      split; [reflexivity|]. split; [reflexivity|]. intros _ ->.
      cbn [Z.eqb].
      split; [reflexivity|]. split; [reflexivity|]. split; [reflexivity|].
      split; reflexivity.
    + cbn [regmap]. split; [reflexivity|]. split; [reflexivity|].
      intros _ H0. now contradiction H1.
Qed.

(* one call of stm32_adc_get_syscfg_cell in stm32_adc_syscfg_probe *)
Ltac cell_step r c Hcode Hthere Hfound :=
  match goal with
  | |- context [stm32_adc_get_syscfg_cell ?lookup ?read ?c0 ?prop] =>
      destruct (stm32_adc_get_syscfg_cell_spec lookup read c0 prop)
        as (Hcode & Hthere & Hfound);
      destruct (stm32_adc_get_syscfg_cell lookup read c0 prop) as [r c];
      cbn [fst snd] in Hcode, Hthere, Hfound
  end.

(* stm32_adc_syscfg_probe, every exit *)
Lemma stm32_adc_syscfg_probe_run lookup read p :
  let r := stm32_adc_syscfg_probe lookup read p in
  match find (fun z => negb (z =? 0))
          (map (cell_code lookup read) syscfg_props) with
  | Some e => fst r = e
  | None =>
      snd r = set_anaswvdd_clr
                (set_anaswvdd
                   (set_vbooster_clr
                      (set_vbooster p (vbooster (snd r)))
                      (vbooster_clr (snd r)))
                   (anaswvdd (snd r)))
                (anaswvdd_clr (snd r)) /\
      fst r = (if has_syscfg_clr (cfg p) && syscfg_pair_broken lookup
               then - EINVAL else 0) /\
      (syscfg_present (vbooster (snd r)) =
         cell_there lookup "st,syscfg-vbooster"%string /\
       syscfg_present (vbooster_clr (snd r)) =
         cell_there lookup "st,syscfg-vbooster-clr"%string /\
       syscfg_present (anaswvdd (snd r)) =
         cell_there lookup "st,syscfg-anaswvdd"%string /\
       syscfg_present (anaswvdd_clr (snd r)) =
         cell_there lookup "st,syscfg-anaswvdd-clr"%string) /\
      (lookup_errors_negative lookup ->
       cell_found lookup read "st,syscfg-vbooster"%string (vbooster (snd r)) /\
       cell_found lookup read "st,syscfg-vbooster-clr"%string (vbooster_clr (snd r)) /\
       cell_found lookup read "st,syscfg-anaswvdd"%string (anaswvdd (snd r)) /\
       cell_found lookup read "st,syscfg-anaswvdd-clr"%string (anaswvdd_clr (snd r)))
  end.
Proof.
  unfold stm32_adc_syscfg_probe, syscfg_props. cbn [map find].
  cell_step r1 c1 Hk1 Ht1 Hf1. rewrite <- Hk1.
  destruct (Z.eqb_spec r1 0) as [H1|H1]; cbn [negb fst]; [|reflexivity].
  cbn [set_vbooster vbooster_clr].
  cell_step r2 c2 Hk2 Ht2 Hf2. rewrite <- Hk2.
  destruct (Z.eqb_spec r2 0) as [H2|H2]; cbn [negb fst]; [|reflexivity].
  cbn [set_vbooster_clr anaswvdd].
  cell_step r3 c3 Hk3 Ht3 Hf3. rewrite <- Hk3.
  destruct (Z.eqb_spec r3 0) as [H3|H3]; cbn [negb fst]; [|reflexivity].
  cbn [set_anaswvdd anaswvdd_clr].
  cell_step r4 c4 Hk4 Ht4 Hf4. rewrite <- Hk4.
  destruct (Z.eqb_spec r4 0) as [H4|H4]; cbn [negb fst]; [|reflexivity].
  cbv zeta.
  cbn [set_vbooster set_vbooster_clr set_anaswvdd set_anaswvdd_clr
       cfg vbooster vbooster_clr anaswvdd anaswvdd_clr].
  unfold syscfg_pair_broken. rewrite <- Ht1, <- Ht2, <- Ht3, <- Ht4.
  destruct (has_syscfg_clr (cfg p) && _);
    cbn [fst snd vbooster vbooster_clr anaswvdd anaswvdd_clr];
    (split; [reflexivity|]); (split; [first [reflexivity | exact H4]|]);
    (split; [now repeat split|]); intros Hneg;
    (split; [exact (Hf1 Hneg H1)|]); (split; [exact (Hf2 Hneg H2)|]);
    (split; [exact (Hf3 Hneg H3) | exact (Hf4 Hneg H4)]).
Qed.

(** X15. The return value of stm32_adc_syscfg_probe depends on the node
    and on has_syscfg_clr only.  It is the first non-zero code of the four
    cells, looked up in the order vbooster, vbooster-clr, anaswvdd,
    anaswvdd-clr, where a cell whose phandle lookup fails with -ENODEV
    counts as 0, any other lookup error counts as itself, and a cell that is
    there counts as the first non-zero return of the reads of its register
    offset and mask.  With four zero codes it is -EINVAL when the variant
    has clear registers and a set cell comes without its clear cell, and 0
    otherwise. *)
Theorem stm32_adc_syscfg_probe_code lookup read p :
  fst (stm32_adc_syscfg_probe lookup read p) =
  match find (fun z => negb (z =? 0))
          (map (cell_code lookup read) syscfg_props) with
  | Some e => e
  | None => if has_syscfg_clr (cfg p) && syscfg_pair_broken lookup
            then - EINVAL else 0
  end.
Proof.
  pose proof (stm32_adc_syscfg_probe_run lookup read p) as H. cbv zeta in H.
  destruct (find _ _); [exact H|]. apply H.
Qed.

(** X16. With lookup errors that are negative errno values, when
    stm32_adc_syscfg_probe succeeds each of the four cells of the private
    data is as the node has it: absent when the phandle lookup answered
    -ENODEV, otherwise the regmap found with the register offset and the
    mask read at index 1 and 2; no other field has changed; and on a
    variant with clear registers every set cell that is present has its
    clear cell. *)
Theorem stm32_adc_syscfg_probe_cells lookup read p :
  lookup_errors_negative lookup ->
  fst (stm32_adc_syscfg_probe lookup read p) = 0 ->
  let p' := snd (stm32_adc_syscfg_probe lookup read p) in
  p' = set_anaswvdd_clr
         (set_anaswvdd
            (set_vbooster_clr (set_vbooster p (vbooster p')) (vbooster_clr p'))
            (anaswvdd p'))
         (anaswvdd_clr p') /\
  cell_found lookup read "st,syscfg-vbooster"%string (vbooster p') /\
  cell_found lookup read "st,syscfg-vbooster-clr"%string (vbooster_clr p') /\
  cell_found lookup read "st,syscfg-anaswvdd"%string (anaswvdd p') /\
  cell_found lookup read "st,syscfg-anaswvdd-clr"%string (anaswvdd_clr p') /\
  (has_syscfg_clr (cfg p) = true ->
   (syscfg_present (vbooster p') = true ->
    syscfg_present (vbooster_clr p') = true) /\
   (syscfg_present (anaswvdd p') = true ->
    syscfg_present (anaswvdd_clr p') = true)).
Proof.
  intros Hneg H0 p'.
  pose proof (stm32_adc_syscfg_probe_run lookup read p) as H. cbv zeta in H.
  fold p' in H. rewrite H0 in H.
  destruct (find _ _) as [e|] eqn:Hfind.
  { apply find_some in Hfind. destruct Hfind as (_ & He).
    rewrite <- H in He. discriminate He. }
  destruct H as (Hp & Hr & (Ht1 & Ht2 & Ht3 & Ht4) & Hf).
  destruct (Hf Hneg) as (Hf1 & Hf2 & Hf3 & Hf4).
  split; [exact Hp|]. split; [exact Hf1|]. split; [exact Hf2|].
  split; [exact Hf3|]. split; [exact Hf4|].
  intros Hclr. rewrite Hclr in Hr. cbn [andb] in Hr.
  rewrite Ht1, Ht2, Ht3, Ht4.
  unfold syscfg_pair_broken in Hr.
  destruct (cell_there lookup "st,syscfg-vbooster"%string),
    (cell_there lookup "st,syscfg-vbooster-clr"%string),
    (cell_there lookup "st,syscfg-anaswvdd"%string),
    (cell_there lookup "st,syscfg-anaswvdd-clr"%string);
    cbn [andb orb negb] in Hr; try discriminate Hr; now split.
Qed.

Lemma stm32_adc_syscfg_probe_cells_witness :
  snd (stm32_adc_syscfg_probe mp1_lookup mp1_read mp1_unprobed) = mp1_priv /\
  cell_found mp1_lookup mp1_read "st,syscfg-anaswvdd-clr"%string
    (anaswvdd_clr (snd (stm32_adc_syscfg_probe mp1_lookup mp1_read mp1_unprobed))).
Proof.
  split; [reflexivity|].
  destruct (stm32_adc_syscfg_probe_cells mp1_lookup mp1_read mp1_unprobed)
    as (_ & _ & _ & _ & H & _).
  - intros prop err H. discriminate H.
  - reflexivity.
  - exact H.
Defined.

Lemma supply_dis_ops_clear_registers p :
  has_syscfg_clr (cfg p) = true ->
  (syscfg_present (vbooster p) = true ->
   syscfg_present (vbooster_clr p) = true) ->
  (syscfg_present (anaswvdd p) = true ->
   syscfg_present (anaswvdd_clr p) = true) ->
  Forall (fun o => is_regmap_update_bits o = false) (supply_dis_ops p).
Proof.
  intros _ Hb Ha. unfold supply_dis_ops, syscfg_present in *.
  destruct (vdda p) as [ra|]; [|constructor].
  destruct (regmap (vbooster p)) as [bm|]; [|constructor].
  specialize (Hb eq_refl).
  apply Forall_app. split.
  { destruct (regmap (anaswvdd p)) as [am|]; [|constructor].
    specialize (Ha eq_refl). unfold anaswvdd_op.
    destruct (regmap (anaswvdd_clr p)); [|discriminate Ha].
    constructor; [reflexivity | constructor]. }
  apply Forall_app. split.
  { unfold booster_op.
    destruct (regmap (vbooster_clr p)); [|discriminate Hb].
    constructor; [reflexivity | constructor]. }
  apply Forall_app. split.
  { destruct (vdd p); [destruct (regmap (anaswvdd p))|];
      [constructor; [reflexivity | constructor] | constructor | constructor]. }
  constructor; [reflexivity | constructor].
Qed.

(** X17. On a variant with clear registers, once stm32_adc_syscfg_probe
    has succeeded, stm32_adc_switches_supply_dis never calls
    regmap_update_bits: the supply selection and the booster are cleared by
    writes to their clear registers. *)
Theorem syscfg_probe_then_supply_dis lookup read env p s :
  fst (stm32_adc_syscfg_probe lookup read p) = 0 ->
  has_syscfg_clr (cfg p) = true ->
  priv s = snd (stm32_adc_syscfg_probe lookup read p) ->
  Forall (fun e => is_regmap_update_bits (fst e) = false)
    (new_events s (snd (stm32_adc_switches_supply_dis env s))).
Proof.
  intros H0 Hclr Hs.
  pose proof (stm32_adc_syscfg_probe_run lookup read p) as H. cbv zeta in H.
  rewrite H0, <- Hs in H.
  destruct (find _ _) as [e|] eqn:Hfind.
  { apply find_some in Hfind. destruct Hfind as (_ & He).
    rewrite <- H in He. discriminate He. }
  destruct H as (Hp & Hr & (Ht1 & Ht2 & Ht3 & Ht4) & _).
  rewrite Hclr in Hr. cbn [andb] in Hr. unfold syscfg_pair_broken in Hr.
  rewrite <- Ht1, <- Ht2, <- Ht3, <- Ht4 in Hr.
  assert (Hcfg : has_syscfg_clr (cfg (priv s)) = true)
    by (rewrite Hp; exact Hclr).
  destruct (stm32_adc_switches_supply_dis_run env s) as (evs & Hrun & Hops & _).
  unfold new_events. rewrite Hrun. cbn [snd log with_log].
  rewrite skipn_length_app.
  rewrite <- Forall_map with (f := fst)
    (P := fun o => is_regmap_update_bits o = false).
  unfold event in *. rewrite Hops.
  apply supply_dis_ops_clear_registers; [exact Hcfg| |].
  - intros Hb. rewrite Hb in Hr.
    destruct (syscfg_present (vbooster_clr (priv s))); [reflexivity|].
    cbn [andb orb negb] in Hr. discriminate Hr.
  - intros Ha. rewrite Ha in Hr.
    destruct (syscfg_present (anaswvdd_clr (priv s))); [reflexivity|].
    rewrite orb_true_r in Hr. discriminate Hr.
Qed.

Lemma syscfg_probe_then_supply_dis_witness :
  let env := supply_env 3300000 3300000 0 in
  let s := boot (snd (stm32_adc_syscfg_probe mp1_lookup mp1_read mp1_unprobed)) in
  map fst (new_events s (snd (stm32_adc_switches_supply_dis env s))) =
    [RegmapWrite syscfg_map 0x44 0x200; RegmapWrite syscfg_map 0x44 0x100;
     RegulatorDisable vdd_reg; RegulatorDisable vdda_reg] /\
  Forall (fun e => is_regmap_update_bits (fst e) = false)
    (new_events s (snd (stm32_adc_switches_supply_dis env s))).
Proof.
  intros env s. split; [reflexivity|].
  apply (syscfg_probe_then_supply_dis mp1_lookup mp1_read env mp1_unprobed s).
  - reflexivity.
  - reflexivity.
  - reflexivity.
Defined.

(** ** Triggers *)

Lemma first_nonzero_child d l :
  (first_nonzero (map (fun c => is_stm32_adc_child_dev c d) l) = 0 <->
   ~ In d l) /\
  (first_nonzero (map (fun c => is_stm32_adc_child_dev c d) l) = 0 \/
   first_nonzero (map (fun c => is_stm32_adc_child_dev c d) l) = 1).
Proof.
  induction l as [|c l (IH & IH01)]; cbn [map first_nonzero In].
  - split; [|now left]. split; [intros _ []| reflexivity].
  - remember (is_stm32_adc_child_dev c d) as v eqn:Hv.
    unfold is_stm32_adc_child_dev in Hv.
    destruct (Nat.eqb_spec c d) as [->|Hne]; subst v;
      change (1 =? 0) with false; change (0 =? 0) with true; cbv iota.
    + split; [|now right]. split; [discriminate|].
      intros H. contradiction H. now left.
    + split; [|exact IH01]. rewrite IH. split.
      * intros H [Hc|Hin]; [now apply Hne | now apply H].
      * intros H Hin. apply H. now right.
Qed.

(** X18. With device_for_each_child calling its function on each child
    of the parent until one answers non zero, stm32_adc_validate_device
    returns 0 exactly when the parent of the IIO device is one of the
    children of the trigger's parent, and -EINVAL in every other case. *)
Theorem stm32_adc_validate_device_children children f trig_parent indio_parent :
  iterates_children children f ->
  (stm32_adc_validate_device f trig_parent indio_parent = 0 <->
   In indio_parent (children trig_parent)) /\
  (stm32_adc_validate_device f trig_parent indio_parent = 0 \/
   stm32_adc_validate_device f trig_parent indio_parent = - EINVAL).
Proof.
  intros Hf. unfold stm32_adc_validate_device.
  rewrite Hf. unfold for_each_child_of.
  destruct (first_nonzero_child indio_parent (children trig_parent))
    as (Hiff & H01).
  destruct (Z.eqb_spec
              (first_nonzero
                 (map (fun c => is_stm32_adc_child_dev c indio_parent)
                    (children trig_parent))) 0) as [H0|H0]; cbn [negb].
  - split; [|now right]. apply Hiff in H0. split.
    + unfold EINVAL. discriminate.
    + intros Hin. now contradiction H0.
  - split; [|now left]. split; [intros _|reflexivity].
    destruct (in_dec Nat.eq_dec indio_parent (children trig_parent))
      as [Hin|Hnin]; [exact Hin|].
    apply Hiff in Hnin. now contradiction H0.
Qed.

Lemma stm32_adc_validate_device_children_witness :
  let children := fun d : device => if Nat.eqb d 1 then [10; 11; 12]%nat else [] in
  stm32_adc_validate_device (for_each_child_of children) 1%nat 11%nat = 0 /\
  stm32_adc_validate_device (for_each_child_of children) 1%nat 13%nat = - EINVAL /\
  (stm32_adc_validate_device (for_each_child_of children) 1%nat 12%nat = 0 <->
   In 12%nat (children 1%nat)).
Proof.
  intros children. split; [reflexivity|]. split; [reflexivity|].
  apply (stm32_adc_validate_device_children children).
  intros parent data fn. reflexivity.
Defined.

Lemma irqs_masked_app may_fail l1 : forall pending l2,
  irqs_masked false pending l1 = true ->
  irqs_masked may_fail pending (l1 ++ l2) = irqs_masked may_fail None l2.
Proof.
  induction l1 as [|[o a] l1 IH]; intros pending l2 H.
  - cbn [irqs_masked] in H. destruct pending; [discriminate H | reflexivity].
  - cbn [irqs_masked app] in *. destruct pending as [line|].
    + destruct o as [n|t|c n|c|q t|q]; try discriminate H.
      destruct (q =? line); cbn [andb] in *; [|discriminate H].
      now apply IH.
    + destruct o as [n|t|c n|c|q t|q]; try discriminate H; try (now apply IH).
      destruct (0 <? q); cbn [andb] in *; [|discriminate H].
      destruct (a =? 0); [|discriminate H]. now apply IH.
Qed.

Lemma irqs_masked_weaken pending l :
  irqs_masked false pending l = true -> irqs_masked true pending l = true.
Proof.
  intros H. rewrite <- (app_nil_r l).
  now rewrite (irqs_masked_app true l pending [] H).
Qed.

Lemma irqs_masked_requested may_fail l : forall pending,
  irqs_masked may_fail pending l = true -> Forall (fun irq => 0 < irq) (requested l).
Proof.
  induction l as [|[o a] l IH]; intros pending H; [constructor|].
  cbn [irqs_masked] in H. unfold requested. cbn [flat_map].
  fold (requested l). destruct pending as [line|].
  - destruct o as [n|t|c n|c|q t|q]; try discriminate H.
    apply andb_true_iff in H. destruct H as (_ & H). cbn [app].
    now apply (IH None).
  - destruct o as [n|t|c n|c|q t|q]; try discriminate H;
      try (now apply (IH None)).
    apply andb_true_iff in H. destruct H as (Hpos & H).
    apply Z.ltb_lt in Hpos.
    destruct (Z.eqb_spec a 0) as [->|Ha].
    + cbn [app]. constructor; [exact Hpos|]. now apply (IH (Some q)).
    + apply andb_true_iff in H. destruct H as (_ & H).
      destruct l; [|discriminate H].
      destruct a; try (now contradiction Ha); constructor.
Qed.

Lemma registered_app l1 l2 : registered (l1 ++ l2) = registered l1 ++ registered l2.
Proof. apply flat_map_app. Qed.

Lemma requested_app l1 l2 : requested (l1 ++ l2) = requested l1 ++ requested l2.
Proof. apply flat_map_app. Qed.

Lemma matched_app l1 l2 : matched (l1 ++ l2) = matched l1 ++ matched l2.
Proof. apply flat_map_app. Qed.

Lemma match_pairs_app l1 l2 :
  match_pairs (l1 ++ l2) = match_pairs l1 ++ match_pairs l2.
Proof. apply flat_map_app. Qed.

Lemma allocations_app l1 l2 :
  allocations (l1 ++ l2) = allocations l1 ++ allocations l2.
Proof. apply flat_map_app. Qed.

Lemma irq_gets_app l1 l2 : irq_gets (l1 ++ l2) = irq_gets l1 ++ irq_gets l2.
Proof. apply flat_map_app. Qed.

Ltac proj_app :=
  rewrite ?registered_app, ?requested_app, ?matched_app, ?match_pairs_app,
    ?allocations_app, ?irq_gets_app.

Lemma oracle_trace_app tenv l1 l2 : forall l,
  oracle_trace tenv l (l1 ++ l2) <->
  oracle_trace tenv l l1 /\ oracle_trace tenv (l ++ l1) l2.
Proof.
  induction l1 as [|[o a] l1 IH]; intros l; cbn [app oracle_trace].
  - rewrite app_nil_r. tauto.
  - rewrite IH, <- app_assoc. cbn [app]. tauto.
Qed.

(* with a matching that does not depend on the calls made, the pairs that
   matched are those of the pairs looked up that match *)
Lemma matched_static tenv evs : forall l,
  match_static tenv -> oracle_trace tenv l evs ->
  matched evs = filter (pair_matches tenv) (match_pairs evs).
Proof.
  induction evs as [|[o a] evs IH]; intros l Hst Horc; [reflexivity|].
  cbn [oracle_trace] in Horc. destruct Horc as (Ha & Horc).
  change ((o, a) :: evs) with ([(o, a)] ++ evs).
  rewrite matched_app, match_pairs_app, filter_app, (IH _ Hst Horc).
  f_equal. destruct o as [n|t|c n|c|q t|q]; try reflexivity.
  unfold matched, match_pairs, pair_matches. cbn [flat_map app filter fst snd].
  rewrite (Hst [] l c n), <- Ha, Z.leb_antisym.
  destruct (a <? 0); reflexivity.
Qed.

Lemma IS_ERR_negative p : IS_ERR p = true -> p < 0.
Proof.
  unfold IS_ERR. intros H. apply andb_true_iff in H.
  destruct H as (_ & H). now apply Z.ltb_lt.
Qed.

Lemma stm32_adc_trig_alloc_register_run tenv name s :
  let r := stm32_adc_trig_alloc_register tenv name s in
  exists evs,
    tlog (snd r) = tlog s ++ evs /\
    extrig_list (snd r) = extrig_list s ++ registered evs /\
    oracle_trace tenv (tlog s) evs /\
    irqs_masked false None evs = true /\
    (requested evs = [] /\ matched evs = [] /\ match_pairs evs = [] /\
     irq_gets evs = [] /\ map fst (allocations evs) = [name]) /\
    (register_errno tenv -> IS_ERR (fst r) = false ->
     registered evs = map snd (allocations evs)).
Proof.
  unfold stm32_adc_trig_alloc_register, tcall. cbv zeta.
  set (trig := tenv (tlog s) (DevmIioTriggerAlloc name)).
  destruct (Z.eqb_spec trig 0) as [H0|H0]; cbn [fst snd tlog extrig_list].
  - exists [(DevmIioTriggerAlloc name, trig)].
    split; [reflexivity|]. split; [now rewrite app_nil_r|].
    split; [now split|]. split; [reflexivity|].
    split; [now repeat split|].
    intros _ H. discriminate H.
  - set (ret := tenv (tlog s ++ [(DevmIioTriggerAlloc name, trig)])
                  (DevmIioTriggerRegister trig)).
    assert (Hreg : register_errno tenv -> ret = 0 \/ IS_ERR ret = true)
      by (intros H; apply H).
    destruct (Z.eqb_spec ret 0) as [Hr|Hr];
      cbn [negb fst snd tlog extrig_list];
      exists [(DevmIioTriggerAlloc name, trig); (DevmIioTriggerRegister trig, ret)].
    + assert (Hone : registered [(DevmIioTriggerAlloc name, trig);
                                 (DevmIioTriggerRegister trig, ret)] = [trig])
        by (unfold registered; cbn [flat_map app]; now rewrite Hr).
      rewrite Hone.
      split; [now rewrite <- app_assoc|]. split; [reflexivity|].
      split; [now repeat split|]. split; [reflexivity|].
      split; [now repeat split|]. reflexivity.
    + assert (Hnone : registered [(DevmIioTriggerAlloc name, trig);
                                  (DevmIioTriggerRegister trig, ret)] = []).
      { unfold registered. cbn [flat_map app].
        destruct ret; [now contradiction Hr | reflexivity | reflexivity]. }
      rewrite Hnone, app_nil_r.
      split; [now rewrite <- app_assoc|]. split; [reflexivity|].
      split; [now repeat split|]. split; [reflexivity|].
      split; [now repeat split|].
      intros Herr Hok. destruct (Hreg Herr) as [H|H]; [now contradiction Hr|].
      rewrite H in Hok. discriminate Hok.
Qed.

(* one table entry: the loop over the children of the node *)
Lemma trig_children_run tenv name children : forall s,
  let r := trig_children tenv name children s in
  exists evs,
    tlog (snd r) = tlog s ++ evs /\
    extrig_list (snd r) = extrig_list s ++ registered evs /\
    oracle_trace tenv (tlog s) evs /\
    match fst r with
    | None =>
        irqs_masked false None evs = true /\
        match_pairs evs = map (fun c => (c, name)) children /\
        map fst (allocations evs) = map snd (matched evs) /\
        map fst (irq_gets evs) = map fst (matched evs) /\
        requested evs = map snd (irq_gets evs) /\
        (register_errno tenv -> registered evs = map snd (allocations evs))
    | Some v =>
        v <> 0 /\ irqs_masked true None evs = true /\
        exists pre c post m',
          children = pre ++ c :: post /\
          match_pairs evs = map (fun c => (c, name)) (pre ++ [c]) /\
          matched evs = m' ++ [(c, name)]
    end.
Proof.
  induction children as [|child rest IH]; intros s r.
  { exists []. subst r. cbn [trig_children fst snd].
    rewrite !app_nil_r. now repeat split. }
  subst r. cbn [trig_children]. unfold tcall. cbv beta iota zeta.
  set (m := tenv (tlog s) (OfPropertyMatchString child name)).
  set (e0 := (OfPropertyMatchString child name, m)).
  set (s1 := {| extrig_list := extrig_list s; tlog := tlog s ++ [e0] |}).
  assert (He0 : registered [e0] = [] /\ requested [e0] = [] /\
                allocations [e0] = [] /\ irq_gets [e0] = [] /\
                match_pairs [e0] = [(child, name)]) by now repeat split.
  destruct He0 as (Hreg0 & Hreq0 & Hall0 & Hget0 & Hpair0).
  assert (Hmask0 : forall b l,
    irqs_masked b None ([e0] ++ l) = irqs_masked b None l) by reflexivity.
  assert (Horc0 : forall l,
    oracle_trace tenv (tlog s ++ [e0]) l -> oracle_trace tenv (tlog s) ([e0] ++ l))
    by (intros l H; split; [reflexivity | exact H]).
  destruct (Z.ltb_spec m 0) as [Hneg|Hpos].
  { (* no trigger-name for this entry under this child *)
    assert (Hmat0 : matched [e0] = [])
      by (unfold matched, e0; cbn [flat_map app];
          apply Z.ltb_lt in Hneg; now rewrite Hneg).
    destruct (IH s1) as (evs & Hlog & Hlist & Horc & Hrest).
    exists ([e0] ++ evs). proj_app.
    rewrite Hreg0, Hreq0, Hall0, Hget0, Hpair0, Hmat0. cbn [app].
    split; [rewrite Hlog; cbn [tlog s1]; now rewrite <- app_assoc|].
    split; [exact Hlist|]. split; [exact (Horc0 evs Horc)|].
    destruct (fst (trig_children tenv name rest s1)) as [v|].
    - destruct Hrest as (Hv & Hmk & pre & c & post & m' & Hch & Hpairs & Hm').
      split; [exact Hv|]. split; [exact Hmk|].
      exists (child :: pre), c, post, m'.
      split; [now rewrite Hch|]. split; [|exact Hm'].
      cbn [app map]. now rewrite Hpairs.
    - destruct Hrest as (Hmk & Hpairs & Hrest).
      split; [exact Hmk|]. split; [|exact Hrest].
      cbn [map]. now rewrite Hpairs. }
  assert (Hmat0 : matched [e0] = [(child, name)]).
  { unfold matched, e0. cbn [flat_map app].
    replace (m <? 0) with false by (symmetry; apply Z.ltb_ge; lia).
    reflexivity. }
  (* the ways of stopping at this child *)
  assert (Hstop : forall l,
    match_pairs l = [] -> matched l = [] ->
    exists pre c post m',
      child :: rest = pre ++ c :: post /\
      match_pairs ([e0] ++ l) = map (fun c => (c, name)) (pre ++ [c]) /\
      matched ([e0] ++ l) = m' ++ [(c, name)]).
  { intros l Hp Hm. exists [], child, rest, [].
    proj_app. rewrite Hpair0, Hmat0, Hp, Hm. now repeat split. }
  destruct (stm32_adc_trig_alloc_register_run tenv name s1)
    as (evsA & HlogA & HlistA & HorcA & HmaskA &
        (HreqA & HmatA & HpairA & HgetA & HallA) & HregA).
  destruct (stm32_adc_trig_alloc_register tenv name s1) as [trig s2].
  cbv beta iota zeta.
  cbn [fst snd] in HlogA, HlistA, HregA.
  cbn [tlog extrig_list s1] in HlogA, HlistA, HorcA.
  destruct (IS_ERR trig) eqn:Herr.
  { exists ([e0] ++ evsA). cbn [fst snd].
    rewrite registered_app, Hreg0, Hmask0. cbn [app].
    split; [rewrite HlogA; now rewrite <- app_assoc|]. split; [exact HlistA|].
    split; [exact (Horc0 evsA HorcA)|].
    split; [apply IS_ERR_negative in Herr; lia|].
    split; [now apply irqs_masked_weaken|].
    exact (Hstop evsA HpairA HmatA). }
  cbn [tlog extrig_list].
  set (line := tenv (tlog s2) (OfIrqGet child)).
  destruct (Z.leb_spec line 0) as [Hline|Hline].
  { exists ([e0] ++ evsA ++ [(OfIrqGet child, line)]).
    cbn [fst snd tlog extrig_list].
    rewrite !registered_app, Hreg0, Hmask0.
    change (registered [(OfIrqGet child, line)]) with (@nil Z).
    rewrite app_nil_r. cbn [app].
    split; [rewrite HlogA, <- !app_assoc; reflexivity|]. split; [exact HlistA|].
    split.
    { apply Horc0. apply oracle_trace_app. split; [exact HorcA|].
      rewrite <- HlogA. now split. }
    split; [destruct (Z.eqb_spec line 0); cbn [negb]; unfold ENODEV; lia|].
    split; [now rewrite (irqs_masked_app true evsA None _ HmaskA)|].
    apply Hstop; proj_app; [rewrite HpairA | rewrite HmatA]; reflexivity. }
  cbn [tlog extrig_list].
  set (l3 := tlog s2 ++ [(OfIrqGet child, line)]).
  set (ret := tenv l3 (DevmRequestIrq line trig)).
  destruct (Z.eqb_spec ret 0) as [Hret|Hret]; cbn [negb].
  2:{ exists ([e0] ++ evsA ++ [(OfIrqGet child, line);
                                (DevmRequestIrq line trig, ret)]).
      cbn [fst snd tlog extrig_list].
      rewrite !registered_app, Hreg0, Hmask0.
      change (registered [(OfIrqGet child, line);
                          (DevmRequestIrq line trig, ret)]) with (@nil Z).
      rewrite app_nil_r. cbn [app].
      split; [unfold l3; rewrite HlogA, <- !app_assoc; reflexivity|].
      split; [exact HlistA|].
      split.
      { apply Horc0. apply oracle_trace_app. split; [exact HorcA|].
        rewrite <- HlogA. now repeat split. }
      split; [exact Hret|].
      split.
      { rewrite (irqs_masked_app true evsA None _ HmaskA).
        cbn [irqs_masked].
        apply Z.eqb_neq in Hret. rewrite Hret.
        apply Z.ltb_lt in Hline. now rewrite Hline. }
      apply Hstop; proj_app; [rewrite HpairA | rewrite HmatA]; reflexivity. }
  cbn [tlog extrig_list].
  set (l4 := l3 ++ [(DevmRequestIrq line trig, ret)]).
  set (d := tenv l4 (DisableIrq line)).
  set (s5 := {| extrig_list := extrig_list s2;
                tlog := l4 ++ [(DisableIrq line, d)] |}).
  destruct (IH s5) as (evs & Hlog & Hlist & Horc & Hrest).
  set (mid := [(OfIrqGet child, line); (DevmRequestIrq line trig, ret);
               (DisableIrq line, d)]).
  assert (Hmid : irqs_masked false None mid = true).
  { unfold mid. cbn [irqs_masked]. rewrite Hret. cbn [Z.eqb].
    apply Z.ltb_lt in Hline. now rewrite Hline, Z.eqb_refl. }
  assert (Hmidreq : requested mid = [line])
    by (unfold mid, requested; cbn [flat_map app]; now rewrite Hret).
  assert (Hmidp : registered mid = [] /\ matched mid = [] /\
                  match_pairs mid = [] /\ allocations mid = [] /\
                  irq_gets mid = [(child, line)]) by now repeat split.
  destruct Hmidp as (Hmidreg & Hmidmat & Hmidpair & Hmidall & Hmidget).
  assert (Hlog5 : tlog s5 = tlog s ++ [e0] ++ evsA ++ mid).
  { cbn [tlog s5]. unfold l4, l3, mid.
    rewrite HlogA, <- !app_assoc. reflexivity. }
  exists ([e0] ++ evsA ++ mid ++ evs). proj_app.
  rewrite Hreg0, Hreq0, Hall0, Hget0, Hpair0, Hmat0.
  rewrite HreqA, HmatA, HpairA, HgetA.
  rewrite Hmidreg, Hmidreq, Hmidmat, Hmidpair, Hmidall, Hmidget.
  rewrite ?app_nil_r. cbn [app].
  split.
  { rewrite Hlog, Hlog5, <- !app_assoc. reflexivity. }
  split.
  { rewrite Hlist. cbn [extrig_list s5]. rewrite HlistA, <- app_assoc.
    reflexivity. }
  split.
  { change (e0 :: evsA ++ mid ++ evs) with ([e0] ++ evsA ++ mid ++ evs).
    apply Horc0. apply oracle_trace_app. split; [exact HorcA|].
    apply oracle_trace_app. split.
    - rewrite <- HlogA. now repeat split.
    - rewrite Hlog5 in Horc. rewrite <- !app_assoc in *. exact Horc. }
  assert (Hmk : forall b, irqs_masked b None evs = true ->
                irqs_masked b None (e0 :: evsA ++ mid ++ evs) = true).
  { intros b H. change (e0 :: evsA ++ mid ++ evs) with ([e0] ++ evsA ++ mid ++ evs).
    rewrite Hmask0, (irqs_masked_app b evsA None _ HmaskA).
    now rewrite (irqs_masked_app b mid None _ Hmid). }
  destruct (fst (trig_children tenv name rest s5)) as [v|].
  - destruct Hrest as (Hv & Hmasked & pre & c & post & m' & Hch & Hpairs & Hm').
    split; [exact Hv|]. split; [exact (Hmk true Hmasked)|].
    exists (child :: pre), c, post, ((child, name) :: m').
    split; [now rewrite Hch|]. split.
    + cbn [app map]. now rewrite Hpairs.
    + now rewrite Hm'.
  - destruct Hrest as (Hmasked & Hpairs & Hnames & Hgets & Hreqs & Hregs).
    split; [exact (Hmk false Hmasked)|].
    split; [cbn [map]; now rewrite Hpairs|].
    split; [rewrite map_app, HallA; cbn [map app snd]; now rewrite Hnames|].
    split; [cbn [map fst]; now rewrite Hgets|].
    split; [cbn [map snd]; now rewrite Hreqs|].
    intros Herrno. rewrite map_app, (HregA Herrno eq_refl), (Hregs Herrno).
    reflexivity.
Qed.

(* the loop over the table *)
Lemma trig_table_run tenv children trinfo : forall s,
  let r := trig_table tenv trinfo children s in
  exists evs,
    tlog (snd r) = tlog s ++ evs /\
    extrig_list (snd r) = extrig_list s ++ registered evs /\
    oracle_trace tenv (tlog s) evs /\
    irqs_masked true None evs = true /\
    (fst r = 0 ->
     irqs_masked false None evs = true /\
     match_pairs evs = trig_pairs trinfo children /\
     map fst (allocations evs) = map snd (matched evs) /\
     map fst (irq_gets evs) = map fst (matched evs) /\
     requested evs = map snd (irq_gets evs) /\
     (register_errno tenv -> registered evs = map snd (allocations evs))) /\
    (fst r <> 0 ->
     exists pre p post m',
       trig_pairs trinfo children = pre ++ p :: post /\
       match_pairs evs = pre ++ [p] /\
       matched evs = m' ++ [p]).
Proof.
  induction trinfo as [|name rest IH]; intros s r.
  { exists []. subst r. cbn [trig_table fst snd].
    rewrite !app_nil_r. repeat split. intros H. now contradiction H. }
  subst r. cbn [trig_table].
  destruct (trig_children_run tenv name children s)
    as (evs1 & Hlog1 & Hlist1 & Horc1 & Hrest1).
  change (trig_pairs (name :: rest) children)
    with (map (fun c => (c, name)) children ++ trig_pairs rest children).
  destruct (trig_children tenv name children s) as [[v|] s1];
    cbn [fst snd] in *.
  - destruct Hrest1 as (Hv & Hmask & pre & c & post & m' & Hch & Hpairs & Hm').
    exists evs1.
    split; [exact Hlog1|]. split; [exact Hlist1|]. split; [exact Horc1|].
    split; [exact Hmask|].
    split; [intros H0; now contradiction Hv|].
    intros _.
    exists (map (fun c => (c, name)) pre), (c, name),
      (map (fun c => (c, name)) post ++ trig_pairs rest children), m'.
    split; [rewrite Hch, map_app, <- app_assoc; reflexivity|].
    split; [rewrite Hpairs, map_app; reflexivity | exact Hm'].
  - destruct Hrest1 as (Hmask1 & Hpairs1 & Hnames1 & Hgets1 & Hreqs1 & Hregs1).
    destruct (IH s1) as (evs2 & Hlog2 & Hlist2 & Horc2 & Hmask2 & Hok2 & Hko2).
    exists (evs1 ++ evs2). proj_app.
    split; [rewrite Hlog2, Hlog1; now rewrite <- app_assoc|].
    split; [rewrite Hlist2, Hlist1; now rewrite <- app_assoc|].
    split.
    { apply oracle_trace_app. split; [exact Horc1|].
      rewrite <- Hlog1. exact Horc2. }
    split; [now rewrite (irqs_masked_app true evs1 None _ Hmask1)|].
    split.
    + intros H0.
      destruct (Hok2 H0) as (Hm2 & Hp2 & Hn2 & Hg2 & Hq2 & Hr2).
      split; [now rewrite (irqs_masked_app false evs1 None _ Hmask1)|].
      split; [now rewrite Hpairs1, Hp2|].
      split; [now rewrite !map_app, Hnames1, Hn2|].
      split; [now rewrite !map_app, Hgets1, Hg2|].
      split; [now rewrite !map_app, Hreqs1, Hq2|].
      intros Herrno. now rewrite !map_app, (Hregs1 Herrno), (Hr2 Herrno).
    + intros Hne.
      destruct (Hko2 Hne) as (pre & p & post & m' & Hall & Hp2 & Hm2).
      exists (map (fun c => (c, name)) children ++ pre), p, post,
        (matched evs1 ++ m').
      split; [rewrite Hall, <- app_assoc; reflexivity|].
      split; [rewrite Hpairs1, Hp2, <- app_assoc; reflexivity|].
      rewrite Hm2, <- app_assoc. reflexivity.
Qed.

(* stm32_adc_triggers_probe: the list is reset, then the table is gone
   through *)
Lemma stm32_adc_triggers_probe_run tenv exti_trigs children s :
  let r := stm32_adc_triggers_probe tenv exti_trigs children s in
  let trinfo := match exti_trigs with Some t => t | None => [] end in
  r = trig_table tenv trinfo children {| extrig_list := []; tlog := tlog s |}.
Proof. destruct exti_trigs; reflexivity. Qed.

(** X19. Whatever the platform answers, the calls of
    stm32_adc_triggers_probe are a run of the platform from the trace at
    entry and keep the trigger interrupts masked: only positive lines are
    requested, every request that succeeds is followed at once by
    disable_irq of the same line, disable_irq is called nowhere else, and a
    request that fails is the last call made.  The trigger list is reset and
    then holds exactly the triggers registered with success, in
    registration order, also when the probe fails.  When the probe returns
    0 it has looked up every pair of a table entry and a child of the node,
    entry by entry and child by child, no request failed, and for the pairs
    that matched, in order: a trigger was allocated under the name of the
    entry, the interrupt of the child was looked up, and the line answered
    was requested.  When it fails it has stopped at a pair that matched,
    having looked up the pairs up to that one and no other. *)
Theorem stm32_adc_triggers_probe_masks_irqs tenv exti_trigs children s :
  let r := stm32_adc_triggers_probe tenv exti_trigs children s in
  let evs := new_tcalls s (snd r) in
  let pairs := trig_pairs (match exti_trigs with Some t => t | None => [] end)
                 children in
  tlog (snd r) = tlog s ++ evs /\
  oracle_trace tenv (tlog s) evs /\
  irqs_masked true None evs = true /\
  Forall (fun line => 0 < line) (requested evs) /\
  extrig_list (snd r) = registered evs /\
  (fst r = 0 ->
   irqs_masked false None evs = true /\
   length (requested evs) = length (matched evs) /\
   match_pairs evs = pairs /\
   map fst (allocations evs) = map snd (matched evs) /\
   map fst (irq_gets evs) = map fst (matched evs) /\
   requested evs = map snd (irq_gets evs)) /\
  (fst r <> 0 ->
   exists pre p post m',
     pairs = pre ++ p :: post /\
     match_pairs evs = pre ++ [p] /\
     matched evs = m' ++ [p]).
Proof.
  intros r evs pairs. subst evs pairs r.
  rewrite stm32_adc_triggers_probe_run. unfold new_tcalls.
  destruct (trig_table_run tenv children
              (match exti_trigs with Some t => t | None => [] end)
              {| extrig_list := []; tlog := tlog s |})
    as (evs & Hlog & Hlist & Horc & Hmask & Hok & Hko).
  cbn [tlog extrig_list app] in Hlog, Hlist, Horc.
  rewrite Hlog, skipn_length_app.
  split; [reflexivity|]. split; [exact Horc|]. split; [exact Hmask|].
  split; [exact (irqs_masked_requested true evs None Hmask)|].
  split; [exact Hlist|]. split; [|exact Hko].
  intros H0. destruct (Hok H0) as (Hm & Hp & Hn & Hg & Hq & _).
  split; [exact Hm|]. split.
  { rewrite Hq, length_map, <- (length_map fst (irq_gets evs)), Hg.
    apply length_map. }
  split; [exact Hp|]. split; [exact Hn|]. split; [exact Hg | exact Hq].
Qed.

(** X20. When devm_iio_trigger_register answers 0 or an errno that
    ERR_PTR can carry, a stm32_adc_triggers_probe that returns 0 has looked
    up every pair of a table entry and a child, and leaves in the trigger
    list the triggers devm_iio_trigger_alloc answered, in order: one for
    each pair that matched, allocated under the name of its entry, with one
    line requested for each.  When moreover the matching does not depend on
    the calls made, the pairs that matched are exactly the pairs of the
    table and the children for which of_property_match_string answers no
    error.  The calls are a run of the platform from the trace at
    entry. *)
Theorem stm32_adc_triggers_probe_one_per_match tenv exti_trigs children s :
  register_errno tenv ->
  fst (stm32_adc_triggers_probe tenv exti_trigs children s) = 0 ->
  let s' := snd (stm32_adc_triggers_probe tenv exti_trigs children s) in
  let evs := new_tcalls s s' in
  let pairs := trig_pairs (match exti_trigs with Some t => t | None => [] end)
                 children in
  length (extrig_list s') = length (matched evs) /\
  length (requested evs) = length (matched evs) /\
  match_pairs evs = pairs /\
  extrig_list s' = map snd (allocations evs) /\
  map fst (allocations evs) = map snd (matched evs) /\
  oracle_trace tenv (tlog s) evs /\
  (match_static tenv -> matched evs = filter (pair_matches tenv) pairs).
Proof.
  intros Herrno H0 s' evs pairs. subst evs pairs s'. revert H0.
  rewrite stm32_adc_triggers_probe_run. unfold new_tcalls.
  destruct (trig_table_run tenv children
              (match exti_trigs with Some t => t | None => [] end)
              {| extrig_list := []; tlog := tlog s |})
    as (evs & Hlog & Hlist & Horc & Hmask & Hok & _).
  cbn [tlog extrig_list app] in Hlog, Hlist, Horc.
  intros H0. destruct (Hok H0) as (_ & Hp & Hn & Hg & Hq & Hr).
  rewrite Hlog, skipn_length_app, Hlist, (Hr Herrno).
  split.
  { rewrite length_map, <- (length_map fst (allocations evs)), Hn.
    apply length_map. }
  split.
  { rewrite Hq, length_map, <- (length_map fst (irq_gets evs)), Hg.
    apply length_map. }
  split; [exact Hp|]. split; [reflexivity|]. split; [exact Hn|].
  split; [exact Horc|].
  intros Hst. rewrite (matched_static tenv evs (tlog s) Hst Horc), Hp.
  reflexivity.
Qed.

Lemma stm32_adc_triggers_probe_one_per_match_witness :
  let tenv := exti_env 2%nat "exti11"%string 57 in
  let s := {| extrig_list := []; tlog := [] |} in
  let s' := snd (stm32_adc_triggers_probe tenv (Some ["exti11"; "exti15"]%string)
                   [1; 2; 3]%nat s) in
  requested (new_tcalls s s') = [57] /\
  matched (new_tcalls s s') = [(2%nat, "exti11"%string)] /\
  extrig_list s' = [1002] /\
  length (extrig_list s') = length (matched (new_tcalls s s')) /\
  matched (new_tcalls s s') =
    filter (pair_matches tenv)
      (trig_pairs ["exti11"; "exti15"]%string [1; 2; 3]%nat).
Proof.
  intros tenv s s'. split; [reflexivity|]. split; [reflexivity|].
  split; [reflexivity|].
  destruct (stm32_adc_triggers_probe_one_per_match tenv
              (Some ["exti11"; "exti15"]%string) [1; 2; 3]%nat s)
    as (H & _ & _ & _ & _ & _ & Hst).
  - intros l t. left. reflexivity.
  - reflexivity.
  - split; [exact H|]. apply Hst. intros l l' child name. reflexivity.
Defined.
